(** * The resource manager of tpm2-abrmd (src/resource-manager.c)

    A shallow embedding of the command/response engine of the resource
    manager: handle virtualisation, quota enforcement, the load / save /
    flush protocol against the AccessBroker, session tracking and the four
    virtualised commands (FlushContext, ContextSave, ContextLoad,
    GetCapability).

    Objects that the C code shares by pointer (HandleMapEntry, SessionEntry)
    live in object stores indexed by references; the HandleMap of a
    connection, the SessionList and the per-command list of loaded
    transients hold references, so a mutation through one of them is seen
    through the others, as in the C code.  The AccessBroker is an interface
    (a record of operations over an abstract TPM state); every call made
    through it is appended to a log, the way a recording mock would.

    The embedding covers resource_manager_process_tpm2_command and
    everything it calls, the handling of a closed connection
    (resource_manager_remove_connection and its callbacks), the control
    messages and the thread loop.  g_error is an abort of the daemon;
    NULL-parameter checks, allocation failures and the GObject plumbing
    (properties, dispose, class initialisation) are not modelled. *)

From Stdlib Require Import ZArith List Lia Bool Sorted Permutation.
From stdpp Require Import base functions gmap list fin_maps.
Import ListNotations.

Local Open Scope Z_scope.

(** ** TPM2 constants (tss2 headers) *)

Definition TPM2_HANDLE := Z.
Definition TSS2_RC := Z.
Definition TPMA_CC := Z.

(** A Connection is compared by pointer identity only; 0 is the NULL
    pointer carried by the commands the resource manager builds itself. *)
Definition Connection := nat.
Bind Scope nat_scope with Connection.
Definition NULL_connection : Connection := 0%nat.

Definition TSS2_RC_SUCCESS : TSS2_RC := 0.
Definition TPM2_HR_SHIFT : Z := 24.
Definition TPM2_HT_HMAC_SESSION : Z := 0x02.
Definition TPM2_HT_POLICY_SESSION : Z := 0x03.
Definition TPM2_HT_TRANSIENT : Z := 0x80.
Definition TPM2_HR_TRANSIENT : Z := 0x80000000.
Definition TPM2_HR_RANGE_MASK : Z := 0x00FFFFFF.

Definition TPM2_CC_CreatePrimary : Z := 0x131.
Definition TPM2_CC_Load : Z := 0x157.
Definition TPM2_CC_ContextLoad : Z := 0x161.
Definition TPM2_CC_ContextSave : Z := 0x162.
Definition TPM2_CC_FlushContext : Z := 0x165.
Definition TPM2_CC_LoadExternal : Z := 0x167.
Definition TPM2_CC_StartAuthSession : Z := 0x176.
Definition TPM2_CC_GetCapability : Z := 0x17A.

Definition TPM2_CAP_HANDLES : Z := 1.
Definition TPM2_ST_NO_SESSIONS : Z := 0x8001.
Definition TPMA_CC_RHANDLE : Z := 0x10000000.
Definition TPMA_CC_FLUSHED : Z := 0x01000000.
Definition TPMA_SESSION_CONTINUESESSION : Z := 0x01.

Definition TPM2_RC_HANDLE : Z := 0x08B.
Definition TPM2_RC_P : Z := 0x040.
Definition TPM2_RC_1 : Z := 0x100.

Definition TPM_HEADER_SIZE : Z := 10.

(** [handle >> TPM2_HR_SHIFT]: the handle type is the high byte. *)
Definition handle_type (handle : TPM2_HANDLE) : Z := Z.shiftr handle TPM2_HR_SHIFT.

Definition is_session_type (ht : Z) : bool :=
  (ht =? TPM2_HT_HMAC_SESSION) || (ht =? TPM2_HT_POLICY_SESSION).

(** ** Wire format: big-endian fields and the 10-byte header *)

Definition be16 (v : Z) : list Z :=
  [Z.land (Z.shiftr v 8) 255; Z.land v 255].

Definition be32 (v : Z) : list Z :=
  [Z.land (Z.shiftr v 24) 255; Z.land (Z.shiftr v 16) 255;
   Z.land (Z.shiftr v 8) 255; Z.land v 255].

Definition be32_decode (bs : list Z) : Z :=
  match bs with
  | b3 :: b2 :: b1 :: b0 :: _ =>
      Z.lor (Z.shiftl b3 24) (Z.lor (Z.shiftl b2 16) (Z.lor (Z.shiftl b1 8) b0))
  | _ => 0
  end.

(** Modelled from the spec: the response header of tpm2-header.c, which is
    not among the sources: tag(2) | size(4, big-endian) | code(4, big-endian). *)
Definition response_header (tag size code : Z) : list Z :=
  be16 tag ++ be32 size ++ be32 code.

(** ** Tpm2Command and Tpm2Response *)

(** Modelled from the spec: Tpm2Command (tpm2-command.c is not among the
    sources).  A command is represented by what its accessors return: its
    connection, command code and attributes, the handles of its handle
    area, the (handle, attributes) pairs of its authorisation area, the
    bytes that follow the header, and for the three commands whose body the
    resource manager reads, the fields it extracts from it. *)
Record Tpm2Command := {
  cmd_connection : Connection;          (* tpm2_command_get_connection *)
  cmd_code : Z;                         (* tpm2_command_get_code *)
  cmd_attributes : TPMA_CC;             (* tpm2_command_get_attributes *)
  cmd_handles : list TPM2_HANDLE;       (* tpm2_command_get_handles *)
  cmd_auths : list (TPM2_HANDLE * Z);   (* tpm2_command_foreach_auth:
                                           auth handle and session attributes *)
  cmd_body : list Z;                    (* &buffer[TPM_HEADER_SIZE] *)
  cmd_flush_handle : TSS2_RC * TPM2_HANDLE;  (* tpm2_command_get_flush_handle *)
  cmd_cap : Z;                          (* tpm2_command_get_cap *)
  cmd_prop : Z;                         (* tpm2_command_get_prop *)
  cmd_prop_count : Z;                   (* tpm2_command_get_prop_count *)
  cmd_context_unmarshal : TSS2_RC * TPM2_HANDLE
    (* Tss2_MU_TPMS_CONTEXT_Unmarshal on the body: its return code and the
       content of the local tpms_context.savedHandle afterwards (left
       as it was, that is indeterminate, when unmarshalling stops early) *)
}.

Definition tpm2_command_get_handle (command : Tpm2Command) (n : nat) : TPM2_HANDLE :=
  default 0 (cmd_handles command !! n).

(** Modelled from the spec: the size of the array resource_manager_load_handles
    reads the handle area to (tpm2-command.h is not among the sources); no
    command of the TPM has more than three handles. *)
Definition TPM2_COMMAND_MAX_HANDLES : nat := 3.

(** Modelled from the spec: tpm2_command_get_handles copies the handle area
    to the array of the caller, which holds [count] handles; it fails
    (FALSE) when the handle area does not fit the array. *)
Definition tpm2_command_get_handles (command : Tpm2Command) (count : nat)
  : option (list TPM2_HANDLE) :=
  if (length (cmd_handles command) <=? count)%nat then Some (cmd_handles command)
  else None.

(** Modelled from the spec: tpm2_command_set_handle substitutes the handle
    at its position in the command buffer (spec 4.1, step 3): handle [n] of
    the handle area is the four bytes at offset 4 n behind the header.  A
    position outside the handle area is not written.  The fields that were
    extracted from the body keep what the accessors returned for the command
    as it came: the resource manager reads them in the special processing
    only, before any handle is rewritten. *)
Definition tpm2_command_set_handle (command : Tpm2Command) (handle : TPM2_HANDLE)
  (n : nat) : Tpm2Command :=
  if (n <? length (cmd_handles command))%nat then
    {| cmd_connection := cmd_connection command;
       cmd_code := cmd_code command;
       cmd_attributes := cmd_attributes command;
       cmd_handles := <[n := handle]> (cmd_handles command);
       cmd_auths := cmd_auths command;
       cmd_body := list_inserts (4 * n) (be32 handle) (cmd_body command);
       cmd_flush_handle := cmd_flush_handle command;
       cmd_cap := cmd_cap command;
       cmd_prop := cmd_prop command;
       cmd_prop_count := cmd_prop_count command;
       cmd_context_unmarshal := cmd_context_unmarshal command |}
  else command.

(** The handle area of the command is what the command buffer holds behind
    the header: four bytes a handle, big endian. *)
Definition handle_area_in_buffer (command : Tpm2Command) : Prop :=
  take (4 * length (cmd_handles command)) (cmd_body command)
  = flat_map be32 (cmd_handles command).

(** Modelled from the spec: tpm2_command_new_context_save and
    tpm2_command_new_context_load (tpm2-command.c), the commands the
    resource manager builds itself to save and reload a session. *)
Definition tpm2_command_new_context_save (handle : TPM2_HANDLE) : Tpm2Command :=
  {| cmd_connection := NULL_connection;
     cmd_code := TPM2_CC_ContextSave;
     cmd_attributes := Z.lor 0x02000000 TPM2_CC_ContextSave;
     cmd_handles := [handle];
     cmd_auths := [];
     cmd_body := be32 handle;
     cmd_flush_handle := (TSS2_RC_SUCCESS, 0);
     cmd_cap := 0; cmd_prop := 0; cmd_prop_count := 0;
     cmd_context_unmarshal := (TSS2_RC_SUCCESS, 0) |}.

Definition tpm2_command_new_context_load (buf : list Z) : Tpm2Command :=
  {| cmd_connection := NULL_connection;
     cmd_code := TPM2_CC_ContextLoad;
     cmd_attributes := Z.lor TPMA_CC_RHANDLE TPM2_CC_ContextLoad;
     cmd_handles := [];
     cmd_auths := [];
     cmd_body := buf;
     cmd_flush_handle := (TSS2_RC_SUCCESS, 0);
     cmd_cap := 0; cmd_prop := 0; cmd_prop_count := 0;
     cmd_context_unmarshal := (TSS2_RC_SUCCESS, 0) |}.

(** Modelled from the spec: Tpm2Response (tpm2-response.c is not among the
    sources): the connection it goes to, its buffer (header, then an
    optional handle area, then parameters) and the attributes of the
    command it answers. *)
Record Tpm2Response := {
  resp_connection : Connection;
  resp_buffer : list Z;
  resp_attributes : TPMA_CC
}.

Definition tpm2_response_new (connection : Connection) (buffer : list Z)
  (attributes : TPMA_CC) : Tpm2Response :=
  {| resp_connection := connection; resp_buffer := buffer;
     resp_attributes := attributes |}.

(** A response that is only a header carrying [rc]. *)
Definition tpm2_response_new_rc (connection : Connection) (rc : TSS2_RC) : Tpm2Response :=
  tpm2_response_new connection
    (response_header TPM2_ST_NO_SESSIONS TPM_HEADER_SIZE rc) 0.

Definition tpm2_response_get_code (response : Tpm2Response) : TSS2_RC :=
  be32_decode (drop 6 (resp_buffer response)).

Definition tpm2_response_has_handle (response : Tpm2Response) : bool :=
  negb (Z.land (resp_attributes response) TPMA_CC_RHANDLE =? 0)
  && (14 <=? Z.of_nat (length (resp_buffer response))).

Definition tpm2_response_get_handle (response : Tpm2Response) : TPM2_HANDLE :=
  be32_decode (drop 10 (resp_buffer response)).

Definition tpm2_response_set_handle (response : Tpm2Response) (handle : TPM2_HANDLE)
  : Tpm2Response :=
  {| resp_connection := resp_connection response;
     resp_buffer := take 10 (resp_buffer response) ++ be32 handle
                    ++ drop 14 (resp_buffer response);
     resp_attributes := resp_attributes response |}.

(** ** HandleMap: the transient objects of one connection *)

(** Modelled from the spec: HandleMapEntry and HandleMap (handle-map.c and
    handle-map-entry.c are not among the sources).  An entry is
    {vhandle, phandle_or_zero, saved_context_blob}; a map goes from virtual
    handles to entries, hands out virtual handles from a monotonic counter
    (0 signals exhaustion) and has a cap on its number of entries. *)
Record HandleMapEntry := {
  hme_vhandle : TPM2_HANDLE;
  hme_phandle : TPM2_HANDLE;
  hme_context : list Z
}.

Record HandleMap := {
  vhandle_to_entry : gmap Z nat;   (* vhandle -> reference to the entry *)
  handle_count : nat;
  max_entries : nat
}.

Definition handle_map_entry_new (phandle vhandle : TPM2_HANDLE) : HandleMapEntry :=
  {| hme_vhandle := vhandle; hme_phandle := phandle; hme_context := [] |}.

Definition handle_map_entry_set_phandle (entry : HandleMapEntry) (phandle : TPM2_HANDLE)
  : HandleMapEntry :=
  {| hme_vhandle := hme_vhandle entry; hme_phandle := phandle;
     hme_context := hme_context entry |}.

Definition handle_map_entry_set_context (entry : HandleMapEntry) (ctx : list Z)
  : HandleMapEntry :=
  {| hme_vhandle := hme_vhandle entry; hme_phandle := hme_phandle entry;
     hme_context := ctx |}.

Definition handle_map_vlookup (map : HandleMap) (vhandle : TPM2_HANDLE) : option nat :=
  vhandle_to_entry map !! vhandle.

Definition handle_map_remove (map : HandleMap) (vhandle : TPM2_HANDLE) : HandleMap :=
  {| vhandle_to_entry := delete vhandle (vhandle_to_entry map);
     handle_count := handle_count map; max_entries := max_entries map |}.

Definition handle_map_insert (map : HandleMap) (vhandle : TPM2_HANDLE) (entry : nat)
  : HandleMap :=
  {| vhandle_to_entry := <[vhandle := entry]> (vhandle_to_entry map);
     handle_count := handle_count map; max_entries := max_entries map |}.

Definition handle_map_is_full (map : HandleMap) : bool :=
  (max_entries map <=? size (vhandle_to_entry map))%nat.

Definition handle_map_next_vhandle (map : HandleMap) : TPM2_HANDLE * HandleMap :=
  if TPM2_HR_RANGE_MASK <=? Z.of_nat (handle_count map) then (0, map)
  else (TPM2_HR_TRANSIENT + Z.of_nat (handle_count map),
        {| vhandle_to_entry := vhandle_to_entry map;
           handle_count := S (handle_count map);
           max_entries := max_entries map |}).

Definition handle_map_get_keys (map : HandleMap) : list TPM2_HANDLE :=
  (map_to_list (vhandle_to_entry map)).*1.

(** ** SessionList: the sessions of all connections *)

Inductive SessionEntryStateEnum :=
| SESSION_ENTRY_LOADED
| SESSION_ENTRY_SAVED_RM
| SESSION_ENTRY_SAVED_CLIENT
| SESSION_ENTRY_SAVED_CLIENT_CLOSED.

#[global] Instance SessionEntryStateEnum_eq_dec : EqDecision SessionEntryStateEnum.
Proof. solve_decision. Defined.

(** Modelled from the spec: SessionEntry and SessionList (session-entry.c
    and session-list.c are not among the sources).  An entry is {handle,
    owning_connection, state, saved_context_blob}, together with the
    client-opaque context bytes the resource manager hands out on
    ContextSave and recognises on ContextLoad.  The list has two
    collections: the active entries, looked up by session handle, and the
    FIFO of abandoned entries. *)
Record SessionEntry := {
  se_handle : TPM2_HANDLE;
  se_connection : Connection;
  se_state : SessionEntryStateEnum;
  se_context : list Z;
  se_context_client : list Z
}.

Record SessionList := {
  session_entry_slist : list nat;   (* references to the active entries *)
  abandoned_queue : list nat;       (* references to the abandoned entries *)
  max_per_connection : nat
}.

Definition session_entry_set_state (entry : SessionEntry) (s : SessionEntryStateEnum)
  : SessionEntry :=
  {| se_handle := se_handle entry; se_connection := se_connection entry;
     se_state := s; se_context := se_context entry;
     se_context_client := se_context_client entry |}.

Definition session_entry_set_context (entry : SessionEntry) (buf : list Z)
  : SessionEntry :=
  {| se_handle := se_handle entry; se_connection := se_connection entry;
     se_state := se_state entry; se_context := buf;
     se_context_client := se_context_client entry |}.

Definition session_entry_set_connection (entry : SessionEntry) (c : Connection)
  : SessionEntry :=
  {| se_handle := se_handle entry; se_connection := c;
     se_state := se_state entry; se_context := se_context entry;
     se_context_client := se_context_client entry |}.

(** The session objects and the list that tracks them. *)
Record SessionStore := {
  sessions : nat -> SessionEntry;
  next_session : nat;
  session_list : SessionList
}.

Definition store_set_session (ss : SessionStore) (r : nat) (entry : SessionEntry)
  : SessionStore :=
  {| sessions := <[r := entry]> (sessions ss);
     next_session := next_session ss;
     session_list := session_list ss |}.

Definition store_set_list (ss : SessionStore) (l : SessionList) : SessionStore :=
  {| sessions := sessions ss; next_session := next_session ss;
     session_list := l |}.

Definition session_list_lookup_handle (ss : SessionStore) (handle : TPM2_HANDLE)
  : option nat :=
  List.find (fun r => se_handle (sessions ss r) =? handle)
    (session_entry_slist (session_list ss)).

Definition session_list_remove (ss : SessionStore) (r : nat) : SessionStore :=
  store_set_list ss
    {| session_entry_slist :=
         List.filter (fun r' => negb (r' =? r)%nat) (session_entry_slist (session_list ss));
       abandoned_queue := abandoned_queue (session_list ss);
       max_per_connection := max_per_connection (session_list ss) |}.

Definition session_list_remove_handle (ss : SessionStore) (handle : TPM2_HANDLE)
  : SessionStore :=
  let keep := fun r => negb (se_handle (sessions ss r) =? handle) in
  store_set_list ss
    {| session_entry_slist := List.filter keep (session_entry_slist (session_list ss));
       abandoned_queue := List.filter keep (abandoned_queue (session_list ss));
       max_per_connection := max_per_connection (session_list ss) |}.

Definition session_list_insert (ss : SessionStore) (r : nat) : SessionStore :=
  store_set_list ss
    {| session_entry_slist := r :: session_entry_slist (session_list ss);
       abandoned_queue := abandoned_queue (session_list ss);
       max_per_connection := max_per_connection (session_list ss) |}.

Definition session_list_is_full (ss : SessionStore) (connection : Connection) : bool :=
  (max_per_connection (session_list ss) <=?
   length (List.filter (fun r => (se_connection (sessions ss r) =? connection)%nat)
             (session_entry_slist (session_list ss))))%nat.

Definition bytes_eqb (a b : list Z) : bool := bool_decide (a = b).

Definition session_list_lookup_context_client (ss : SessionStore) (buf : list Z)
  : option nat :=
  List.find (fun r => bytes_eqb (se_context_client (sessions ss r)) buf)
    (session_entry_slist (session_list ss) ++ abandoned_queue (session_list ss)).

(** Claim: remove the entry, by identity, from the abandoned FIFO and hand it
    to [connection]; fails when the entry is not in the FIFO. *)
Definition session_list_claim (ss : SessionStore) (r : nat) (connection : Connection)
  : bool * SessionStore :=
  if existsb (fun r' => (r' =? r)%nat) (abandoned_queue (session_list ss)) then
    (true,
     {| sessions := <[r := session_entry_set_connection (sessions ss r) connection]>
                      (sessions ss);
        next_session := next_session ss;
        session_list :=
          {| session_entry_slist := r :: session_entry_slist (session_list ss);
             abandoned_queue :=
               List.filter (fun r' => negb (r' =? r)%nat)
                 (abandoned_queue (session_list ss));
             max_per_connection := max_per_connection (session_list ss) |} |})
  else (false, ss).

(** session_entry_new: a fresh object; the resource manager chooses the
    client-opaque context bytes of the new entry ([client_bytes]). *)
Definition session_entry_new (client_bytes : list Z) (connection : Connection)
  (handle : TPM2_HANDLE) : SessionEntry :=
  {| se_handle := handle; se_connection := connection;
     se_state := SESSION_ENTRY_SAVED_RM; se_context := [];
     se_context_client := client_bytes |}.

(** Modelled from the spec: the two responses the resource manager
    synthesises for a session (tpm2-response.c): the ContextSave response,
    whose body is the client-opaque context, and the ContextLoad response,
    which carries the session handle. *)
Definition tpm2_response_new_context_save (connection : Connection)
  (entry : SessionEntry) : Tpm2Response :=
  tpm2_response_new connection
    (response_header TPM2_ST_NO_SESSIONS
       (TPM_HEADER_SIZE + Z.of_nat (length (se_context_client entry))) TSS2_RC_SUCCESS
     ++ se_context_client entry)
    TPM2_CC_ContextSave.

Definition tpm2_response_new_context_load (connection : Connection)
  (entry : SessionEntry) : Tpm2Response :=
  tpm2_response_new connection
    (response_header TPM2_ST_NO_SESSIONS (TPM_HEADER_SIZE + 4) TSS2_RC_SUCCESS
     ++ be32 (se_handle entry))
    (Z.lor TPMA_CC_RHANDLE TPM2_CC_ContextLoad).

(** ** The transient objects of all connections *)

Record TransientStore := {
  entries : nat -> HandleMapEntry;
  next_entry : nat;
  trans_maps : Connection -> HandleMap    (* connection_get_trans_map *)
}.

Definition store_set_entry (ts : TransientStore) (r : nat) (entry : HandleMapEntry)
  : TransientStore :=
  {| entries := <[r := entry]> (entries ts);
     next_entry := next_entry ts; trans_maps := trans_maps ts |}.

Definition store_set_map (ts : TransientStore) (c : Connection) (map : HandleMap)
  : TransientStore :=
  {| entries := entries ts; next_entry := next_entry ts;
     trans_maps := <[c := map]> (trans_maps ts) |}.

Definition store_alloc_entry (ts : TransientStore) (entry : HandleMapEntry)
  : nat * TransientStore :=
  (next_entry ts,
   {| entries := <[next_entry ts := entry]> (entries ts);
      next_entry := S (next_entry ts); trans_maps := trans_maps ts |}).

(** ** The AccessBroker *)

(** The calls the resource manager makes on the AccessBroker. *)
Inductive BrokerCall :=
| CallSendCommand (command : Tpm2Command)
| CallContextLoad (ctx : list Z)
| CallContextSaveFlush (phandle : TPM2_HANDLE)
| CallContextFlush (handle : TPM2_HANDLE).

(** Modelled from the spec: the AccessBroker (access-broker.c is not among
    the sources), a serialising wrapper around the TPM with the operations
    send, context_load, context_saveflush and context_flush.  Sending a
    command gives back a response buffer, or a NULL response together with
    the return code of the transport failure. *)
Record AccessBroker (TPM : Type) := {
  ab_send_command : TPM -> Tpm2Command -> (list Z + TSS2_RC) * TPM;
  ab_context_load : TPM -> list Z -> (TSS2_RC * TPM2_HANDLE) * TPM;
  ab_context_saveflush : TPM -> TPM2_HANDLE -> list Z -> (TSS2_RC * list Z) * TPM;
  ab_context_flush : TPM -> TPM2_HANDLE -> TSS2_RC * TPM;
  ab_send_failure : forall tpm command rc tpm',
    ab_send_command tpm command = (inr rc, tpm') -> rc <> TSS2_RC_SUCCESS
}.

Arguments ab_send_command {TPM}.
Arguments ab_context_load {TPM}.
Arguments ab_context_saveflush {TPM}.
Arguments ab_context_flush {TPM}.
Arguments ab_send_failure {TPM}.

(** The codes that tabrmd.h and util.h define, which are not among the
    sources: the macro RM_RC, which tags a code as coming from the resource
    manager, and the two quota errors, which are error codes. *)
Record ResMgrCodes := {
  RM_RC : TSS2_RC -> TSS2_RC;
  TSS2_RESMGR_RC_OBJECT_MEMORY : TSS2_RC;
  TSS2_RESMGR_RC_SESSION_MEMORY : TSS2_RC;
  object_memory_is_error : TSS2_RESMGR_RC_OBJECT_MEMORY <> TSS2_RC_SUCCESS;
  session_memory_is_error : TSS2_RESMGR_RC_SESSION_MEMORY <> TSS2_RC_SUCCESS
}.

(** ** The state of the resource manager and of what it reaches *)

Record ResourceManager (TPM : Type) := {
  transients : TransientStore;
  sess : SessionStore;
  tpm : TPM;                       (* the state behind the AccessBroker *)
  calls : list BrokerCall;         (* log of AccessBroker calls, oldest first *)
  sink : list Tpm2Response;        (* responses handed to the sink, oldest first *)
  fatal : bool                     (* g_error was reached: the daemon aborted *)
}.

Arguments transients {TPM}.
Arguments sess {TPM}.
Arguments tpm {TPM}.
Arguments calls {TPM}.
Arguments sink {TPM}.
Arguments fatal {TPM}.

(** ** The functions of resource-manager.c *)

Section ResourceManagerFunctions.

Context {TPM : Type}.
Variable broker : AccessBroker TPM.
Variable codes : ResMgrCodes.
(* the client-opaque context bytes session_entry_new gives a new entry *)
Variable client_context : Connection -> TPM2_HANDLE -> list Z.

Abbreviation State := (ResourceManager TPM).

Definition with_transients (st : State) (ts : TransientStore) : State :=
  {| transients := ts; sess := sess st; tpm := tpm st; calls := calls st;
     sink := sink st; fatal := fatal st |}.

Definition with_sess (st : State) (ss : SessionStore) : State :=
  {| transients := transients st; sess := ss; tpm := tpm st; calls := calls st;
     sink := sink st; fatal := fatal st |}.

(** An AccessBroker call: the TPM state moves on and the call is logged. *)
Definition with_broker (st : State) (tpm' : TPM) (call : BrokerCall) : State :=
  {| transients := transients st; sess := sess st; tpm := tpm';
     calls := calls st ++ [call]; sink := sink st; fatal := fatal st |}.

Definition sink_enqueue (st : State) (response : Tpm2Response) : State :=
  {| transients := transients st; sess := sess st; tpm := tpm st;
     calls := calls st; sink := sink st ++ [response]; fatal := fatal st |}.

(** g_error: the daemon aborts. *)
Definition g_error (st : State) : State :=
  {| transients := transients st; sess := sess st; tpm := tpm st;
     calls := calls st; sink := sink st; fatal := true |}.

Definition get_entry (st : State) (r : nat) : HandleMapEntry :=
  entries (transients st) r.

Definition set_entry (st : State) (r : nat) (entry : HandleMapEntry) : State :=
  with_transients st (store_set_entry (transients st) r entry).

Definition connection_get_trans_map (st : State) (c : Connection) : HandleMap :=
  trans_maps (transients st) c.

Definition set_trans_map (st : State) (c : Connection) (map : HandleMap) : State :=
  with_transients st (store_set_map (transients st) c map).

Definition get_session (st : State) (r : nat) : SessionEntry :=
  sessions (sess st) r.

Definition set_session (st : State) (r : nat) (entry : SessionEntry) : State :=
  with_sess st (store_set_session (sess st) r entry).

(** access_broker_send_command: the response, or NULL and the return code. *)
Definition access_broker_send_command (st : State) (command : Tpm2Command)
  : State * option Tpm2Response * TSS2_RC :=
  let res := ab_send_command broker (tpm st) command in
  let st' := with_broker st (snd res) (CallSendCommand command) in
  match fst res with
  | inl buffer =>
      (st', Some (tpm2_response_new (cmd_connection command) buffer
                    (cmd_attributes command)), TSS2_RC_SUCCESS)
  | inr rc => (st', None, rc)
  end.

Definition resource_manager_virt_to_phys (st : State) (command : Tpm2Command)
  (entry : nat) (handle_number : nat) : State * Tpm2Command * TSS2_RC :=
  let context := hme_context (get_entry st entry) in
  let res := ab_context_load broker (tpm st) context in
  let rc := fst (fst res) in
  let phandle := snd (fst res) in
  let st1 := with_broker st (snd res) (CallContextLoad context) in
  if rc =? TSS2_RC_SUCCESS then
    (set_entry st1 entry (handle_map_entry_set_phandle (get_entry st1 entry) phandle),
     tpm2_command_set_handle command phandle handle_number, rc)
  else (st1, command, rc).

Definition resource_manager_load_transient (st : State) (command : Tpm2Command)
  (entry_slist : list nat) (handle : TPM2_HANDLE) (handle_index : nat)
  : State * Tpm2Command * list nat * TSS2_RC :=
  let map := connection_get_trans_map st (cmd_connection command) in
  match handle_map_vlookup map handle with
  | None => (st, command, entry_slist, TSS2_RC_SUCCESS)
  | Some entry =>
      let res := resource_manager_virt_to_phys st command entry handle_index in
      let rc := snd res in
      if negb (rc =? TSS2_RC_SUCCESS) then (fst (fst res), snd (fst res), entry_slist, rc)
      else (fst (fst res), snd (fst res), entry :: entry_slist, rc)
  end.

Definition resource_manager_load_session_from_handle (st : State)
  (command_conn : Connection) (handle : TPM2_HANDLE) (will_flush : bool)
  : State * TSS2_RC :=
  match session_list_lookup_handle (sess st) handle with
  | None => (st, TSS2_RC_SUCCESS)
  | Some session_entry =>
      let entry_conn := se_connection (get_session st session_entry) in
      if negb (command_conn =? entry_conn)%nat then (st, TSS2_RC_SUCCESS)
      else
        let session_entry_state := se_state (get_session st session_entry) in
        if negb (bool_decide (session_entry_state = SESSION_ENTRY_SAVED_RM))
        then (st, TSS2_RC_SUCCESS)
        else
          let size_buf := se_context (get_session st session_entry) in
          let command := tpm2_command_new_context_load size_buf in
          let res := access_broker_send_command st command in
          let st1 := fst (fst res) in
          let rc := snd res in
          if negb (rc =? TSS2_RC_SUCCESS) then
            (with_sess st1 (session_list_remove (sess st1) session_entry), rc)
          else
            let st2 := set_session st1 session_entry
                         (session_entry_set_state (get_session st1 session_entry)
                            SESSION_ENTRY_LOADED) in
            if will_flush then
              (with_sess st2 (session_list_remove (sess st2) session_entry), rc)
            else (st2, rc)
  end.

(** One authorisation of the command: (auth handle, session attributes). *)
Definition resource_manager_load_auth_callback (st : State) (command : Tpm2Command)
  (auth : TPM2_HANDLE * Z) : State :=
  let handle := fst auth in
  if is_session_type (handle_type handle) then
    let attrs := snd auth in
    let will_flush :=
      if negb (Z.land attrs TPMA_SESSION_CONTINUESESSION =? 0) then false else true in
    fst (resource_manager_load_session_from_handle st (cmd_connection command)
           handle will_flush)
  else st.

(** The loop of resource_manager_load_handles over the array [handles] the
    command's handle area was copied to, from index [i] on.  The return
    code is that of the last load attempted. *)
Fixpoint load_handles_loop (handles : list TPM2_HANDLE) (i : nat)
  (acc : State * Tpm2Command * list nat * TSS2_RC)
  : State * Tpm2Command * list nat * TSS2_RC :=
  match handles with
  | [] => acc
  | h :: rest =>
      let st := fst (fst (fst acc)) in
      let command := snd (fst (fst acc)) in
      let loaded_transients := snd (fst acc) in
      let acc' :=
        if handle_type h =? TPM2_HT_TRANSIENT then
          resource_manager_load_transient st command loaded_transients h i
        else if is_session_type (handle_type h) then
          let res := resource_manager_load_session_from_handle st
                       (cmd_connection command) h false in
          (fst res, command, loaded_transients, snd res)
        else acc in
      load_handles_loop rest (S i) acc'
  end.

(** The result is [None] when g_error is reached (the handle area cannot
    be read to the array of TPM2_COMMAND_MAX_HANDLES handles): the daemon
    aborts there. *)
Definition resource_manager_load_handles (st : State) (command : Tpm2Command)
  (loaded_transients : list nat)
  : option (State * Tpm2Command * list nat * TSS2_RC) :=
  match tpm2_command_get_handles command TPM2_COMMAND_MAX_HANDLES with
  | None => None
  | Some handles =>
      Some (load_handles_loop handles 0
              (st, command, loaded_transients, TSS2_RC_SUCCESS))
  end.

Definition resource_manager_flushsave_context (st : State) (entry : nat) : State :=
  let phandle := hme_phandle (get_entry st entry) in
  if handle_type phandle =? TPM2_HT_TRANSIENT then
    let context := hme_context (get_entry st entry) in
    let res := ab_context_saveflush broker (tpm st) phandle context in
    let rc := fst (fst res) in
    (* the broker writes the saved context through the pointer *)
    let st1 := with_broker st (snd res) (CallContextSaveFlush phandle) in
    let st2 := set_entry st1 entry
                 (handle_map_entry_set_context (get_entry st1 entry) (snd (fst res))) in
    if rc =? TSS2_RC_SUCCESS then
      set_entry st2 entry (handle_map_entry_set_phandle (get_entry st2 entry) 0)
    else st2
  else st.

Definition resource_manager_save_session_context (st : State) (entry : nat) : State :=
  if negb (bool_decide (se_state (get_session st entry) = SESSION_ENTRY_LOADED))
  then st
  else
    let cmd := tpm2_command_new_context_save (se_handle (get_session st entry)) in
    let res := access_broker_send_command st cmd in
    let st1 := fst (fst res) in
    let err_out :=
      let fl := ab_context_flush broker (tpm st1) (se_handle (get_session st1 entry)) in
      let st2 := with_broker st1 (snd fl)
                   (CallContextFlush (se_handle (get_session st1 entry))) in
      with_sess st2 (session_list_remove (sess st2) entry) in
    if negb (snd res =? TSS2_RC_SUCCESS) then err_out
    else
      match snd (fst res) with
      | Some resp =>
          let st2 := set_session st1 entry
                       (session_entry_set_context (get_session st1 entry)
                          (drop (Z.to_nat TPM_HEADER_SIZE) (resp_buffer resp))) in
          set_session st2 entry
            (session_entry_set_state (get_session st2 entry) SESSION_ENTRY_SAVED_RM)
      | None => err_out   (* excluded by ab_send_failure *)
      end.

(** session_list_foreach: the callback on every active entry. *)
Definition session_list_foreach (st : State) (callback : State -> nat -> State) : State :=
  fold_left callback (session_entry_slist (session_list (sess st))) st.

Definition resource_manager_save_context_session (st : State) (command : Tpm2Command)
  : State * option Tpm2Response :=
  let handle := tpm2_command_get_handle command 0 in
  match session_list_lookup_handle (sess st) handle with
  | None => (st, None)
  | Some entry =>
      let conn_cmd := cmd_connection command in
      let conn_entry := se_connection (get_session st entry) in
      if negb (conn_cmd =? conn_entry)%nat then (st, None)
      else
        let st1 := set_session st entry
                     (session_entry_set_state (get_session st entry)
                        SESSION_ENTRY_SAVED_CLIENT) in
        (st1, Some (tpm2_response_new_context_save conn_cmd (get_session st1 entry)))
  end.

Definition resource_manager_save_context (st : State) (command : Tpm2Command)
  : State * option Tpm2Response :=
  let handle := tpm2_command_get_handle command 0 in
  if is_session_type (handle_type handle)
  then resource_manager_save_context_session st command
  else (st, None).

Definition resource_manager_load_context_session (st : State) (command : Tpm2Command)
  : State * option Tpm2Response :=
  match session_list_lookup_context_client (sess st) (cmd_body command) with
  | None => (st, None)
  | Some entry =>
      let conn_cmd := cmd_connection command in
      let conn_entry := se_connection (get_session st entry) in
      let claimed :=
        if negb (conn_cmd =? conn_entry)%nat
        then session_list_claim (sess st) entry conn_cmd
        else (true, sess st) in
      if negb (fst claimed) then (st, None)
      else
        let st1 := with_sess st (snd claimed) in
        let st2 := set_session st1 entry
                     (session_entry_set_state (get_session st1 entry)
                        SESSION_ENTRY_SAVED_RM) in
        (st2, Some (tpm2_response_new_context_load conn_cmd (get_session st2 entry)))
  end.

(** The return code of the unmarshalling is logged and otherwise unused:
    the switch reads tpms_context.savedHandle whatever it is. *)
Definition resource_manager_load_context (st : State) (command : Tpm2Command)
  : State * option Tpm2Response :=
  let savedHandle := snd (cmd_context_unmarshal command) in
  if is_session_type (handle_type savedHandle)
  then resource_manager_load_context_session st command
  else (st, None).

Definition resource_manager_flush_context (st : State) (command : Tpm2Command)
  : State * option Tpm2Response :=
  if negb (cmd_code command =? TPM2_CC_FlushContext) then (st, None)
  else
    let rc := fst (cmd_flush_handle command) in
    let handle := snd (cmd_flush_handle command) in
    if negb (rc =? TSS2_RC_SUCCESS) then
      (st, Some (tpm2_response_new_rc (cmd_connection command) rc))
    else if handle_type handle =? TPM2_HT_TRANSIENT then
      let connection := cmd_connection command in
      let map := connection_get_trans_map st connection in
      match handle_map_vlookup map handle with
      | Some entry =>
          (set_trans_map st connection (handle_map_remove map handle),
           Some (tpm2_response_new_rc connection TSS2_RC_SUCCESS))
      | None =>
          (st, Some (tpm2_response_new_rc connection
                       (RM_RC codes (TPM2_RC_HANDLE + TPM2_RC_P + TPM2_RC_1))))
      end
    else if is_session_type (handle_type handle) then
      (with_sess st (session_list_remove_handle (sess st) handle), None)
    else (st, None).

Definition resource_manager_quota_check (st : State) (command : Tpm2Command) : TSS2_RC :=
  if (cmd_code command =? TPM2_CC_CreatePrimary)
     || (cmd_code command =? TPM2_CC_Load)
     || (cmd_code command =? TPM2_CC_LoadExternal)
  then
    if handle_map_is_full (connection_get_trans_map st (cmd_connection command))
    then TSS2_RESMGR_RC_OBJECT_MEMORY codes else TSS2_RC_SUCCESS
  else if cmd_code command =? TPM2_CC_StartAuthSession then
    if session_list_is_full (sess st) (cmd_connection command)
    then TSS2_RESMGR_RC_SESSION_MEMORY codes else TSS2_RC_SUCCESS
  else TSS2_RC_SUCCESS.

Definition remove_entry_from_handle_map (connection : Connection) (st : State)
  (entry : nat) : State :=
  let map := connection_get_trans_map st connection in
  let handle := hme_vhandle (get_entry st entry) in
  if handle_type handle =? TPM2_HT_TRANSIENT
  then set_trans_map st connection (handle_map_remove map handle)
  else st.

Definition post_process_loaded_transients (st : State) (transient_slist : list nat)
  (connection : Connection) (command_attrs : TPMA_CC) : State :=
  if Z.land command_attrs TPMA_CC_FLUSHED =? 0 then
    fold_left resource_manager_flushsave_context transient_slist st
  else
    fold_left (remove_entry_from_handle_map connection) transient_slist st.

(** *** GetCapability (HANDLES, transient range) *)

(** The handle list of the capability data.  In C it is an array of
    TPM2_MAX_CAP_HANDLES handles filled up to data.handles.count; the list
    is its filled part.  The array is not bounded here: a HandleMap holds
    fewer entries than it has room for. *)
Record TPMS_CAPABILITY_DATA := {
  capability : Z;
  handles : list TPM2_HANDLE     (* data.handles.handle [0 .. count-1] *)
}.

Definition handles_count (cap_data : TPMS_CAPABILITY_DATA) : Z :=
  Z.of_nat (length (handles cap_data)).

Record vhandle_iterator_state_t := {
  cap_data : TPMS_CAPABILITY_DATA;
  max_count : Z;
  more_data : bool;
  start_handle : TPM2_HANDLE
}.

Definition vhandle_iterator_callback (state : vhandle_iterator_state_t)
  (vhandle : TPM2_HANDLE) : vhandle_iterator_state_t :=
  if vhandle <? start_handle state then state
  else if negb (handles_count (cap_data state) <? max_count state) then
    {| cap_data := cap_data state; max_count := max_count state;
       more_data := true; start_handle := start_handle state |}
  else
    {| cap_data := {| capability := capability (cap_data state);
                      handles := handles (cap_data state) ++ [vhandle] |};
       max_count := max_count state;
       more_data := more_data state; start_handle := start_handle state |}.

Definition handle_compare (a b : TPM2_HANDLE) : Z :=
  if a <? b then -1 else if a >? b then 1 else 0.

(** g_list_sort (glib): a stable sort by the comparison function. *)
Fixpoint g_list_insert_sorted (compare : Z -> Z -> Z) (x : Z) (l : list Z) : list Z :=
  match l with
  | [] => [x]
  | y :: l' =>
      if compare x y <? 0 then x :: y :: l'
      else y :: g_list_insert_sorted compare x l'
  end.

Definition g_list_sort (l : list Z) (compare : Z -> Z -> Z) : list Z :=
  fold_right (g_list_insert_sorted compare) [] l.

Definition get_cap_handles (map : HandleMap) (prop : TPM2_HANDLE) (count : Z)
  : bool * TPMS_CAPABILITY_DATA :=
  let state := {| cap_data := {| capability := TPM2_CAP_HANDLES; handles := [] |};
                  max_count := count; more_data := false; start_handle := prop |} in
  let vhandle_list := handle_map_get_keys map in
  let vhandle_list := g_list_sort vhandle_list handle_compare in
  let state := fold_left vhandle_iterator_callback vhandle_list state in
  (more_data state, cap_data state).

Definition CAP_RESP_SIZE (value : TPMS_CAPABILITY_DATA) : Z :=
  TPM_HEADER_SIZE + 1 + 4 + 4 + handles_count value * 4.

Definition build_cap_handles_response (cap_data : TPMS_CAPABILITY_DATA)
  (more_data : bool) : list Z :=
  response_header TPM2_ST_NO_SESSIONS (CAP_RESP_SIZE cap_data) TSS2_RC_SUCCESS
  ++ [if more_data then 1 else 0]
  ++ be32 (capability cap_data)
  ++ be32 (handles_count cap_data)
  ++ flat_map be32 (handles cap_data).

Definition get_cap_handles_response (st : State) (command : Tpm2Command)
  (connection : Connection) : option Tpm2Response :=
  let cap := cmd_cap command in
  let prop := cmd_prop command in
  let prop_count := cmd_prop_count command in
  if (cap =? TPM2_CAP_HANDLES) && (handle_type prop =? TPM2_HT_TRANSIENT) then
    let map := connection_get_trans_map st connection in
    let res := get_cap_handles map prop prop_count in
    let resp_buf := build_cap_handles_response (snd res) (fst res) in
    Some (tpm2_response_new connection resp_buf (cmd_attributes command))
  else None.

Definition command_special_processing (st : State) (command : Tpm2Command)
  : State * option Tpm2Response :=
  if cmd_code command =? TPM2_CC_FlushContext then
    resource_manager_flush_context st command
  else if cmd_code command =? TPM2_CC_ContextSave then
    resource_manager_save_context st command
  else if cmd_code command =? TPM2_CC_ContextLoad then
    resource_manager_load_context st command
  else if cmd_code command =? TPM2_CC_GetCapability then
    (st, get_cap_handles_response st command (cmd_connection command))
  else (st, None).

(** *** Virtualising the handle of a response *)

(** The result is [None] when g_error is reached (the virtual handles of the
    connection are exhausted): the daemon aborts there. *)
Definition create_context_mapping_transient (st : State) (response : Tpm2Response)
  (loaded_transient_slist : list nat) : State * option (Tpm2Response * list nat) :=
  let phandle := tpm2_response_get_handle response in
  let connection := resp_connection response in
  let next := handle_map_next_vhandle (connection_get_trans_map st connection) in
  let vhandle := fst next in
  let st1 := set_trans_map st connection (snd next) in
  if vhandle =? 0 then (g_error st1, None)
  else
    let alloc := store_alloc_entry (transients st1)
                   (handle_map_entry_new phandle vhandle) in
    let handle_entry := fst alloc in
    let st2 := with_transients st1 (snd alloc) in
    let slist := handle_entry :: loaded_transient_slist in
    let st3 := set_trans_map st2 connection
                 (handle_map_insert (connection_get_trans_map st2 connection)
                    vhandle handle_entry) in
    (st3, Some (tpm2_response_set_handle response vhandle, handle_entry :: slist)).

Definition create_context_mapping_session (st : State) (response : Tpm2Response)
  (handle : TPM2_HANDLE) : State :=
  match session_list_lookup_handle (sess st) handle with
  | Some entry => st
  | None =>
      let conn_resp := resp_connection response in
      let entry := next_session (sess st) in
      let obj := session_entry_set_state
                   (session_entry_new (client_context conn_resp handle) conn_resp handle)
                   SESSION_ENTRY_LOADED in
      with_sess st
        (session_list_insert
           {| sessions := <[entry := obj]> (sessions (sess st));
              next_session := S entry;
              session_list := session_list (sess st) |} entry)
  end.

Definition resource_manager_create_context_mapping (st : State)
  (response : Tpm2Response) (loaded_transient_slist : list nat)
  : State * option (Tpm2Response * list nat) :=
  if negb (tpm2_response_has_handle response)
  then (st, Some (response, loaded_transient_slist))
  else
    let handle := tpm2_response_get_handle response in
    if handle_type handle =? TPM2_HT_TRANSIENT then
      create_context_mapping_transient st response loaded_transient_slist
    else if is_session_type (handle_type handle) then
      (create_context_mapping_session st response handle,
       Some (response, loaded_transient_slist))
    else (st, Some (response, loaded_transient_slist)).

(** *** Processing one command *)

(** The part of resource_manager_process_tpm2_command after the label
    send_response: the response goes to the sink, the loaded sessions are
    saved, the loaded transients are saved and flushed (or dropped). *)
Definition send_response (st : State) (command : Tpm2Command)
  (response : Tpm2Response) (transient_slist : list nat) : State :=
  let st1 := sink_enqueue st response in
  let st2 := session_list_foreach st1 resource_manager_save_session_context in
  post_process_loaded_transients st2 transient_slist (cmd_connection command)
    (cmd_attributes command).

(** The part between the special processing and the label: the contexts
    the command refers to are loaded, the command goes to the AccessBroker,
    the handle of the response is virtualised.  The result is [None] when
    g_error is reached, in resource_manager_load_handles or in
    create_context_mapping_transient. *)
Definition dispatch_to_tpm (st : State) (command : Tpm2Command)
  : State * option (Tpm2Response * list nat) :=
  let connection := cmd_connection command in
  let loaded :=
    if (0 <? length (cmd_handles command))%nat
    then resource_manager_load_handles st command []
    else Some (st, command, [], TSS2_RC_SUCCESS) in
  match loaded with
  | None => (g_error st, None)
  | Some loaded =>
      let st1 := fst (fst (fst loaded)) in
      let command1 := snd (fst (fst loaded)) in
      let transient_slist := snd (fst loaded) in
      let st2 :=
        if (0 <? length (cmd_auths command1))%nat
        then fold_left (fun s auth => resource_manager_load_auth_callback s command1 auth)
               (cmd_auths command1) st1
        else st1 in
      let sent := access_broker_send_command st2 command1 in
      let st3 := fst (fst sent) in
      let rc := snd sent in
      let response :=
        match snd (fst sent) with
        | Some response => response
        | None => tpm2_response_new_rc connection rc
        end in
      resource_manager_create_context_mapping st3 response transient_slist
  end.

Definition resource_manager_process_tpm2_command (st : State) (command : Tpm2Command)
  : State :=
  let connection := cmd_connection command in
  let rc := resource_manager_quota_check st command in
  if negb (rc =? TSS2_RC_SUCCESS) then
    send_response st command (tpm2_response_new_rc connection rc) []
  else
    let special := command_special_processing st command in
    match snd special with
    | Some response => send_response (fst special) command response []
    | None =>
        let res := dispatch_to_tpm (fst special) command in
        match snd res with
        | Some (response, transient_slist) =>
            send_response (fst res) command response transient_slist
        | None => fst res    (* g_error: nothing further runs *)
        end
    end.

End ResourceManagerFunctions.

Arguments resource_manager_process_tpm2_command {TPM} broker codes client_context st command.
Arguments command_special_processing {TPM} codes st command.
Arguments dispatch_to_tpm {TPM} broker client_context st command.
Arguments send_response {TPM} broker st command response transient_slist.

(** ** Predicates used in the statements *)

(** A call the resource manager makes for its own housekeeping between
    commands: saving a loaded session with a ContextSave command it builds
    itself, or flushing a session it could not save. *)
Definition housekeeping_call (call : BrokerCall) : Prop :=
  match call with
  | CallSendCommand command =>
      cmd_code command = TPM2_CC_ContextSave
      /\ cmd_connection command = NULL_connection
  | CallContextFlush _ => True
  | _ => False
  end.

(** No tracked session is resident in the TPM. *)
Definition no_session_loaded {TPM} (st : ResourceManager TPM) : Prop :=
  forall r, In r (session_entry_slist (session_list (sess st))) ->
    se_state (sessions (sess st) r) <> SESSION_ENTRY_LOADED.

(** The HandleMap of connection [c] as a map from vhandles to references. *)
Definition handle_table {TPM} (st : ResourceManager TPM) (c : Connection) : gmap Z nat :=
  vhandle_to_entry (trans_maps (transients st) c).

(** While the resource manager went from [st] to [st'], [command] did not
    reach the AccessBroker: the calls logged in between are housekeeping
    only, and there is none when no session was loaded. *)
Definition not_forwarded {TPM} (st st' : ResourceManager TPM)
  (command : Tpm2Command) : Prop :=
  exists l, calls st' = calls st ++ l /\ Forall housekeeping_call l
            /\ ~ In (CallSendCommand command) l
            /\ (no_session_loaded st -> l = []).

(** The commands that load a transient object and are subject to the
    transient quota. *)
Definition loads_transient_object (code : Z) : Prop :=
  code = TPM2_CC_CreatePrimary \/ code = TPM2_CC_Load \/ code = TPM2_CC_LoadExternal.

(** A call made to load a context the command refers to: a transient
    object, or a session through a ContextLoad command the resource manager
    builds itself. *)
Definition load_call (call : BrokerCall) : Prop :=
  match call with
  | CallContextLoad _ => True
  | CallSendCommand command =>
      cmd_code command = TPM2_CC_ContextLoad
      /\ cmd_connection command = NULL_connection
  | _ => False
  end.

(** The handle area of [command] fits the array that
    resource_manager_load_handles reads it to. *)
Definition handle_area_readable (command : Tpm2Command) : Prop :=
  (length (cmd_handles command) <= TPM2_COMMAND_MAX_HANDLES)%nat.

(** [b] is [a] up to the handles of its handle area (which the resource
    manager rewrites from virtual to physical, in the command buffer): the
    connection, the code, the attributes, the number of handles and the
    authorisations are the same, the buffer has the same length, and the
    bytes behind the handle area are the same. *)
Definition same_but_handles (a b : Tpm2Command) : Prop :=
  cmd_connection b = cmd_connection a
  /\ cmd_code b = cmd_code a
  /\ cmd_attributes b = cmd_attributes a
  /\ length (cmd_handles b) = length (cmd_handles a)
  /\ cmd_auths b = cmd_auths a
  /\ length (cmd_body b) = length (cmd_body a)
  /\ drop (4 * length (cmd_handles a)) (cmd_body b)
     = drop (4 * length (cmd_handles a)) (cmd_body a).

(** Between [st] and [st'] the resource manager only loaded contexts. *)
Definition load_step {TPM} (st st' : ResourceManager TPM) : Prop :=
  sink st' = sink st /\ fatal st' = fatal st
  /\ exists l, calls st' = calls st ++ l /\ Forall load_call l.

(** [response] is [answer], possibly with the handle of its handle area
    replaced by a virtual handle. *)
Definition virtualised (answer response : Tpm2Response) : Prop :=
  response = answer \/ exists vhandle, response = tpm2_response_set_handle answer vhandle.

(** The answer to a command that was sent to the AccessBroker in TPM state
    [t]: the response of the TPM, or a response carrying the code of the
    transport failure. *)
Definition broker_answer {TPM} (broker : AccessBroker TPM) (t : TPM)
  (command : Tpm2Command) : Tpm2Response :=
  match fst (ab_send_command broker t command) with
  | inl buffer => tpm2_response_new (cmd_connection command) buffer
                    (cmd_attributes command)
  | inr rc => tpm2_response_new_rc (cmd_connection command) rc
  end.

(** What the save between commands keeps for a session [r]: the object
    itself, its place in the SessionList and the way it is looked up; and
    for every session its handle. *)
Definition session_kept {TPM} (r : nat) (st st' : ResourceManager TPM) : Prop :=
  sessions (sess st') r = sessions (sess st) r
  /\ (forall x, se_handle (sessions (sess st') x) = se_handle (sessions (sess st) x))
  /\ (In r (session_entry_slist (session_list (sess st')))
      <-> In r (session_entry_slist (session_list (sess st))))
  /\ (forall h, session_list_lookup_handle (sess st) h = Some r ->
                session_list_lookup_handle (sess st') h = Some r)
  /\ abandoned_queue (session_list (sess st')) = abandoned_queue (session_list (sess st)).

(** [v] is numerically at least [prop]. *)
Definition at_least (prop : Z) (v : Z) : bool := prop <=? v.

(** The state of the vhandle iterator with [acc] collected so far. *)
Definition iterator (n : Z) (prop : Z) (acc : list Z) (m : bool)
  : vhandle_iterator_state_t :=
  {| cap_data := {| capability := TPM2_CAP_HANDLES; handles := acc |};
     max_count := n; more_data := m; start_handle := prop |}.

(** Modelled from the spec: the wire format of a GetCapability(HANDLES)
    response (spec 6): the header, then moreData(1) | capability(4, big
    endian, = 1) | count(4, big endian) | count handles (4, big endian). *)
Definition cap_handles_wire (more : bool) (reported : list TPM2_HANDLE) : list Z :=
  response_header TPM2_ST_NO_SESSIONS
    (TPM_HEADER_SIZE + 1 + 4 + 4 + Z.of_nat (length reported) * 4) TSS2_RC_SUCCESS
  ++ [if more then 1 else 0]
  ++ be32 1
  ++ be32 (Z.of_nat (length reported))
  ++ flat_map be32 reported.

(** In the HandleMap of connection [c], vhandle [v] refers to entry [r]. *)
Definition slot (ts : TransientStore) (c : Connection) (v : TPM2_HANDLE) (r : nat) : Prop :=
  vhandle_to_entry (trans_maps ts c) !! v = Some r.

(** The HandleMaps are well formed: an entry is filed under its own
    vhandle, was allocated, and is owned by the map of one connection. *)
Definition handle_maps_wf (ts : TransientStore) : Prop :=
  (forall c v r, slot ts c v r ->
     hme_vhandle (entries ts r) = v /\ (r < next_entry ts)%nat)
  /\ (forall c1 c2 v1 v2 r, slot ts c1 v1 r -> slot ts c2 v2 r -> c1 = c2).

(** No transient object is resident in the TPM: every entry of every
    HandleMap has physical handle 0. *)
Definition all_flushed (ts : TransientStore) : Prop :=
  forall c v r, slot ts c v r -> hme_phandle (entries ts r) = 0.

(** While a command of connection [conn] is processed: the entries with a
    physical handle are in the list of loaded transients, belong to [conn],
    and both their handles are transient handles. *)
Definition loaded_in (ts : TransientStore) (slist : list nat) (conn : Connection) : Prop :=
  forall c v r, slot ts c v r -> hme_phandle (entries ts r) <> 0 ->
    In r slist
    /\ handle_type (hme_phandle (entries ts r)) = TPM2_HT_TRANSIENT
    /\ c = conn /\ handle_type v = TPM2_HT_TRANSIENT.

(** [ts'] has the objects of [ts] and no other slots than [ts]. *)
Definition slots_shrunk (ts ts' : TransientStore) : Prop :=
  entries ts' = entries ts /\ next_entry ts' = next_entry ts
  /\ forall c v r, slot ts' c v r -> slot ts c v r.

(** The AccessBroker saves and flushes every transient it is asked to. *)
Definition saveflush_succeeds {TPM} (broker : AccessBroker TPM) : Prop :=
  forall t phandle ctx,
    fst (fst (ab_context_saveflush broker t phandle ctx)) = TSS2_RC_SUCCESS.

(** The TPM loads transient objects at transient handles. *)
Definition loads_at_transient_handles {TPM} (broker : AccessBroker TPM) : Prop :=
  forall t ctx,
    fst (fst (ab_context_load broker t ctx)) = TSS2_RC_SUCCESS ->
    handle_type (snd (fst (ab_context_load broker t ctx))) = TPM2_HT_TRANSIENT.

(** ** A scripted AccessBroker, and the commands and states of the examples *)

Record MockScript := {
  mock_send : Tpm2Command -> list Z + positive;  (* buffer, or transport error *)
  mock_context_load : list Z -> TSS2_RC * TPM2_HANDLE;
  mock_saveflush : TPM2_HANDLE -> list Z -> TSS2_RC * list Z;
  mock_flush : TPM2_HANDLE -> TSS2_RC
}.

Definition mock_send_result (script : MockScript) (command : Tpm2Command)
  : list Z + TSS2_RC :=
  match mock_send script command with
  | inl buffer => inl buffer
  | inr p => inr (Z.pos p)
  end.

Definition mock_broker (script : MockScript) : AccessBroker unit.
Proof.
  refine
    {| ab_send_command := fun tpm command => (mock_send_result script command, tpm);
       ab_context_load := fun tpm ctx => (mock_context_load script ctx, tpm);
       ab_context_saveflush :=
         fun tpm phandle ctx => (mock_saveflush script phandle ctx, tpm);
       ab_context_flush := fun tpm handle => (mock_flush script handle, tpm) |}.
  intros tpm command rc tpm'. unfold mock_send_result.
  destruct (mock_send script command); intros H.
  - discriminate.
  - injection H as <- _. discriminate.
Defined.

(** The codes of the resource manager layer (layer 11 of the TSS2 return
    codes) for the examples. *)
Definition example_codes : ResMgrCodes.
Proof.
  refine {| RM_RC := fun rc => 0xB0000 + rc;
            TSS2_RESMGR_RC_OBJECT_MEMORY := 0xB0902;
            TSS2_RESMGR_RC_SESSION_MEMORY := 0xB0903 |}; discriminate.
Defined.

(** The client-opaque context of the examples, laid out like a
    TPMS_CONTEXT: sequence (8 bytes), saved handle, hierarchy, and a blob
    with its 2-byte length. *)
Definition example_client_context (c : Connection) (handle : TPM2_HANDLE) : list Z :=
  [0; 0; 0; 0; 0; 0; 0; 0] ++ be32 handle ++ be32 0x40000001 ++ [0; 1; Z.of_nat c].

(** An empty HandleMap whose first virtual handle will be 0x80000001. *)
Definition empty_handle_map (cap : nat) : HandleMap :=
  {| vhandle_to_entry := ∅; handle_count := 1; max_entries := cap |}.

Definition null_entry : HandleMapEntry := handle_map_entry_new 0 0.

Definition null_session : SessionEntry := session_entry_new [] NULL_connection 0.

(** A resource manager that tracks nothing yet: every connection has an
    empty HandleMap of capacity [cap] and may own [scap] sessions. *)
Definition initial_state (cap scap : nat) : ResourceManager unit :=
  {| transients := {| entries := fun _ => null_entry; next_entry := 0;
                      trans_maps := fun _ => empty_handle_map cap |};
     sess := {| sessions := fun _ => null_session; next_session := 0;
                session_list := {| session_entry_slist := []; abandoned_queue := [];
                                   max_per_connection := scap |} |};
     tpm := tt; calls := []; sink := []; fatal := false |}.

(** A command with the given code, handle area and parameter bytes, and no
    authorisations: the buffer behind the header is the handle area, four
    bytes a handle, followed by the parameters.  What the resource manager
    reads from the body (flush handle, capability triple, saved handle of a
    context) is decoded at its offset behind the header. *)
Definition simple_command (c : Connection) (code : Z) (attrs : TPMA_CC)
  (hs : list TPM2_HANDLE) (params : list Z) : Tpm2Command :=
  let body := flat_map be32 hs ++ params in
  {| cmd_connection := c; cmd_code := code; cmd_attributes := attrs;
     cmd_handles := hs; cmd_auths := []; cmd_body := body;
     cmd_flush_handle := (TSS2_RC_SUCCESS, be32_decode body);
     cmd_cap := be32_decode body;
     cmd_prop := be32_decode (drop 4 body);
     cmd_prop_count := be32_decode (drop 8 body);
     cmd_context_unmarshal := (TSS2_RC_SUCCESS, be32_decode (drop 8 body)) |}.

(** The TPM answers every command with success and the transient handle
    0x80000000, loads every context at 0x80000000, and saves and flushes
    without error. *)
Definition obliging_script : MockScript :=
  {| mock_send := fun _ =>
       inl (response_header TPM2_ST_NO_SESSIONS 14 TSS2_RC_SUCCESS ++ be32 0x80000000);
     mock_context_load := fun _ => (TSS2_RC_SUCCESS, 0x80000000);
     mock_saveflush := fun _ _ => (TSS2_RC_SUCCESS, [1; 2; 3]);
     mock_flush := fun _ => TSS2_RC_SUCCESS |}.

Definition example_run (script : MockScript) (st : ResourceManager unit)
  (command : Tpm2Command) : ResourceManager unit :=
  resource_manager_process_tpm2_command (mock_broker script) example_codes
    example_client_context st command.

Definition create_primary_command (c : Connection) : Tpm2Command :=
  simple_command c TPM2_CC_CreatePrimary
    (Z.lor (Z.lor TPMA_CC_RHANDLE 0x02000000) TPM2_CC_CreatePrimary) [0x40000001] [].

(** Connection 1 has created one primary object: vhandle 0x80000001. *)
Definition one_object_state : ResourceManager unit :=
  example_run obliging_script (initial_state 1 1) (create_primary_command 1).

Definition flush_context_command (c : Connection) (handle : TPM2_HANDLE) : Tpm2Command :=
  simple_command c TPM2_CC_FlushContext TPM2_CC_FlushContext [] (be32 handle).

(** The TPM answers every command with success and the session handle
    0x02000000. *)
Definition session_script : MockScript :=
  {| mock_send := fun _ =>
       inl (response_header TPM2_ST_NO_SESSIONS 14 TSS2_RC_SUCCESS ++ be32 0x02000000);
     mock_context_load := fun _ => (TSS2_RC_SUCCESS, 0x80000000);
     mock_saveflush := fun _ _ => (TSS2_RC_SUCCESS, [1; 2; 3]);
     mock_flush := fun _ => TSS2_RC_SUCCESS |}.

Definition start_auth_session_command (c : Connection) : Tpm2Command :=
  simple_command c TPM2_CC_StartAuthSession
    (Z.lor (Z.lor TPMA_CC_RHANDLE 0x04000000) TPM2_CC_StartAuthSession)
    [0x40000007; 0x40000007] [].

(** Connection 1 has started one session, 0x02000000, which the resource
    manager saved after the command (state SAVED_RM). *)
Definition one_session_state : ResourceManager unit :=
  example_run session_script (initial_state 1 1) (start_auth_session_command 1).


(** ReadPublic on [handle]. *)
Definition read_public_command (c : Connection) (handle : TPM2_HANDLE) : Tpm2Command :=
  simple_command c 0x173 (Z.lor 0x02000000 0x173) [handle] [].


(** ContextSave on [handle]. *)
Definition context_save_command (c : Connection) (handle : TPM2_HANDLE) : Tpm2Command :=
  simple_command c TPM2_CC_ContextSave (Z.lor 0x02000000 TPM2_CC_ContextSave) [handle] [].

(** The TPM rejects every command with the response code 0x1DF. *)
Definition rejecting_script : MockScript :=
  {| mock_send := fun _ =>
       inl (response_header TPM2_ST_NO_SESSIONS TPM_HEADER_SIZE 0x1DF);
     mock_context_load := fun _ => (0x000A0001, 0);
     mock_saveflush := fun _ ctx => (0x000A0001, ctx);
     mock_flush := fun _ => TSS2_RC_SUCCESS |}.

(** ContextLoad of the context [body]. *)
Definition context_load_command (c : Connection) (body : list Z) : Tpm2Command :=
  simple_command c TPM2_CC_ContextLoad (Z.lor TPMA_CC_RHANDLE TPM2_CC_ContextLoad) [] body.

(** Connection 1 has saved its session 0x02000000 with ContextSave: the
    session is in state SAVED_CLIENT and connection 1 is still open. *)
Definition saved_client_state : ResourceManager unit :=
  example_run session_script one_session_state (context_save_command 1 0x02000000).

(** What closing its connection does to a session in state SAVED_CLIENT
    (spec 4.6): the entry moves to the abandoned FIFO in state
    SAVED_CLIENT_CLOSED. *)
Definition abandon_session (st : ResourceManager unit) (r : nat) : ResourceManager unit :=
  {| transients := transients st;
     sess :=
       {| sessions := <[r := session_entry_set_state (sessions (sess st) r)
                                SESSION_ENTRY_SAVED_CLIENT_CLOSED]> (sessions (sess st));
          next_session := next_session (sess st);
          session_list :=
            {| session_entry_slist :=
                 List.filter (fun r' => negb (r' =? r)%nat)
                   (session_entry_slist (session_list (sess st)));
               abandoned_queue := abandoned_queue (session_list (sess st)) ++ [r];
               max_per_connection := max_per_connection (session_list (sess st)) |} |};
     tpm := tpm st; calls := calls st; sink := sink st; fatal := fatal st |}.

(** Connection 1 has saved its session 0x02000000 and then disconnected. *)
Definition abandoned_session_state : ResourceManager unit :=
  abandon_session saved_client_state 0.

(** A ContextLoad command that is only a header: unmarshalling the
    TPMS_CONTEXT fails for lack of bytes (TSS2_MU_RC_INSUFFICIENT_BUFFER) and
    the local tpms_context.savedHandle keeps whatever value [garbage] the
    stack held. *)
Definition truncated_context_load (c : Connection) (garbage : Z) : Tpm2Command :=
  {| cmd_connection := c; cmd_code := TPM2_CC_ContextLoad;
     cmd_attributes := Z.lor TPMA_CC_RHANDLE TPM2_CC_ContextLoad;
     cmd_handles := []; cmd_auths := []; cmd_body := [];
     cmd_flush_handle := (TSS2_RC_SUCCESS, 0);
     cmd_cap := 0; cmd_prop := 0; cmd_prop_count := 0;
     cmd_context_unmarshal := (0x00090006, garbage) |}.

(** GetCapability (cap, prop, count). *)
Definition get_capability_command (c : Connection) (cap prop count : Z) : Tpm2Command :=
  simple_command c TPM2_CC_GetCapability TPM2_CC_GetCapability []
    (be32 cap ++ be32 prop ++ be32 count).

(** Connection 1 has created three primary objects: vhandles 0x80000001,
    0x80000002 and 0x80000003. *)
Definition three_objects_state : ResourceManager unit :=
  example_run obliging_script
    (example_run obliging_script
       (example_run obliging_script (initial_state 3 1) (create_primary_command 1))
       (create_primary_command 1))
    (create_primary_command 1).

(** The TPM loads every context at 0x80000000 and answers every command
    with a bare success header, but fails to save and flush. *)
Definition saveflush_failing_script : MockScript :=
  {| mock_send := fun _ =>
       inl (response_header TPM2_ST_NO_SESSIONS TPM_HEADER_SIZE TSS2_RC_SUCCESS);
     mock_context_load := fun _ => (TSS2_RC_SUCCESS, 0x80000000);
     mock_saveflush := fun _ ctx => (0x000A0001, ctx);
     mock_flush := fun _ => TSS2_RC_SUCCESS |}.

(** What the resource manager does not answer itself: [command] is none of
    the cases that resource_manager_flush_context, _save_context,
    _load_context and get_cap_handles_response take up. *)
Definition not_virtualised (command : Tpm2Command) : Prop :=
  (cmd_code command <> TPM2_CC_FlushContext /\ cmd_code command <> TPM2_CC_ContextSave
   /\ cmd_code command <> TPM2_CC_ContextLoad /\ cmd_code command <> TPM2_CC_GetCapability)
  \/ (cmd_code command = TPM2_CC_FlushContext
      /\ fst (cmd_flush_handle command) = TSS2_RC_SUCCESS
      /\ handle_type (snd (cmd_flush_handle command)) <> TPM2_HT_TRANSIENT
      /\ is_session_type (handle_type (snd (cmd_flush_handle command))) = false)
  \/ (cmd_code command = TPM2_CC_ContextSave
      /\ is_session_type (handle_type (tpm2_command_get_handle command 0)) = false)
  \/ (cmd_code command = TPM2_CC_ContextLoad
      /\ is_session_type (handle_type (snd (cmd_context_unmarshal command))) = false)
  \/ (cmd_code command = TPM2_CC_GetCapability
      /\ (cmd_cap command <> TPM2_CAP_HANDLES
          \/ handle_type (cmd_prop command) <> TPM2_HT_TRANSIENT)).

(** While the resource manager went from [st] to [st'], [command] reached
    the AccessBroker, once the contexts it refers to were loaded and with
    nothing but its handles rewritten. *)
Definition forwarded {TPM} (st st' : ResourceManager TPM) (command : Tpm2Command) : Prop :=
  exists (command1 : Tpm2Command) (loads rest : list BrokerCall),
    same_but_handles command command1
    /\ Forall load_call loads
    /\ calls st' = calls st ++ loads ++ CallSendCommand command1 :: rest.

(** Connection 1 starts a session: the state when the TPM has answered and
    the new session is tracked, before the response is sent.  The session
    0x02000000 is resident in the TPM (state LOADED). *)
Definition session_in_use_state : ResourceManager unit :=
  fst (dispatch_to_tpm (mock_broker session_script) example_client_context
         (initial_state 1 1) (start_auth_session_command 1)).

(** A FlushContext command that is only a header: reading the handle to
    flush fails for lack of bytes (TSS2_MU_RC_INSUFFICIENT_BUFFER). *)
Definition truncated_flush_context (c : Connection) : Tpm2Command :=
  {| cmd_connection := c; cmd_code := TPM2_CC_FlushContext;
     cmd_attributes := TPM2_CC_FlushContext;
     cmd_handles := []; cmd_auths := []; cmd_body := [];
     cmd_flush_handle := (0x00090006, 0);
     cmd_cap := 0; cmd_prop := 0; cmd_prop_count := 0;
     cmd_context_unmarshal := (0x00090006, 0) |}.

(** Every vhandle filed in a HandleMap was handed out by the counter of
    that map: it is below the next vhandle of the map. *)
Definition vhandles_below_counter (ts : TransientStore) : Prop :=
  forall c v r, slot ts c v r ->
    v < TPM2_HR_TRANSIENT + Z.of_nat (handle_count (trans_maps ts c)).

(** From [ts] to [ts'] the counters of the HandleMaps have not gone back,
    and a vhandle filed in [ts'] was filed in [ts] for the same entry or
    has been handed out in between. *)
Definition vhandles_advance (ts ts' : TransientStore) : Prop :=
  forall c,
    (handle_count (trans_maps ts c) <= handle_count (trans_maps ts' c))%nat
    /\ forall v r, slot ts' c v r ->
         slot ts c v r
         \/ (TPM2_HR_TRANSIENT + Z.of_nat (handle_count (trans_maps ts c)) <= v
             < TPM2_HR_TRANSIENT + Z.of_nat (handle_count (trans_maps ts' c))).
(** The response of the TPM to a CreatePrimary of connection [c]: success,
    and the new object at the physical handle 0x80000000. *)
Definition create_primary_response (c : Connection) : Tpm2Response :=
  tpm2_response_new c
    (response_header TPM2_ST_NO_SESSIONS 14 TSS2_RC_SUCCESS ++ be32 0x80000000)
    (Z.lor TPMA_CC_RHANDLE TPM2_CC_CreatePrimary).

(** A resource manager whose connections have each been handed all the
    0xFFFFFF vhandles of the transient range, and track no object. *)
Definition exhausted_state : ResourceManager unit :=
  {| transients := {| entries := fun _ => null_entry; next_entry := 0;
                      trans_maps := fun _ =>
                        {| vhandle_to_entry := ∅;
                           handle_count := Z.to_nat TPM2_HR_RANGE_MASK;
                           max_entries := 1 |} |};
     sess := sess (initial_state 1 1);
     tpm := tt; calls := []; sink := []; fatal := false |}.

(** The response of the TPM to a StartAuthSession of connection [c]:
    success, and the new session at the handle 0x02000000. *)
Definition start_auth_session_response (c : Connection) : Tpm2Response :=
  tpm2_response_new c
    (response_header TPM2_ST_NO_SESSIONS 14 TSS2_RC_SUCCESS ++ be32 0x02000000)
    (Z.lor TPMA_CC_RHANDLE TPM2_CC_StartAuthSession).

(** ** Closing a connection, control messages and the thread *)

Definition MAX_ABANDONED : nat := 4.

(** Modelled from the spec: session_list_abandon_handle (session-list.c is
    not among the sources).  The active entry that [handle] is looked up to
    moves to the abandoned FIFO, as its newest entry, in state
    SAVED_CLIENT_CLOSED (spec 4.6); the answer is FALSE when the handle is
    not known. *)
Definition session_list_abandon_handle (ss : SessionStore) (connection : Connection)
  (handle : TPM2_HANDLE) : bool * SessionStore :=
  match session_list_lookup_handle ss handle with
  | None => (false, ss)
  | Some r =>
      (true,
       {| sessions := <[r := session_entry_set_state (sessions ss r)
                                SESSION_ENTRY_SAVED_CLIENT_CLOSED]> (sessions ss);
          next_session := next_session ss;
          session_list :=
            {| session_entry_slist :=
                 List.filter (fun r' => negb (r' =? r)%nat)
                   (session_entry_slist (session_list ss));
               abandoned_queue := abandoned_queue (session_list ss) ++ [r];
               max_per_connection := max_per_connection (session_list ss) |} |})
  end.

(** The oldest entry leaves the abandoned FIFO. *)
Definition session_list_pop_abandoned (ss : SessionStore) : SessionStore :=
  store_set_list ss
    {| session_entry_slist := session_entry_slist (session_list ss);
       abandoned_queue := tail (abandoned_queue (session_list ss));
       max_per_connection := max_per_connection (session_list ss) |}.

(** The objects the input queue hands to the thread and the objects the
    thread hands to the sink.  Modelled from the spec: a control message has
    a code, CHECK_CANCEL or CONNECTION_REMOVED, and the latter carries the
    connection (control-message.c is not among the sources); any other value
    of the code is [CONTROL_CODE_OTHER]. *)
Inductive ControlCode :=
| CHECK_CANCEL
| CONNECTION_REMOVED
| CONTROL_CODE_OTHER (code : Z).

Record ControlMessage := {
  control_message_get_code : ControlCode;
  control_message_get_object : Connection
}.

Inductive GObject :=
| ObjTpm2Command (command : Tpm2Command)
| ObjControlMessage (msg : ControlMessage)
| ObjOther.

Inductive SinkObject :=
| SinkResponse (response : Tpm2Response)
| SinkControlMessage (msg : ControlMessage).

Section ConnectionClose.

Context {TPM : Type}.
Variable broker : AccessBroker TPM.
Variable codes : ResMgrCodes.
Variable client_context : Connection -> TPM2_HANDLE -> list Z.

Abbreviation State := (ResourceManager TPM).

(** Modelled from the spec: session_list_prune_abandoned.  While the
    abandoned FIFO holds more than MAX_ABANDONED entries, its oldest entry is
    taken out and handed to [prune_func]; the entry is left out whatever
    the function answers (spec 4.6 and 7). *)
Definition session_list_prune_abandoned (st : State)
  (prune_func : State -> nat -> State * bool) : State :=
  let queue := abandoned_queue (session_list (sess st)) in
  fold_left
    (fun s entry => fst (prune_func (with_sess s (session_list_pop_abandoned (sess s))) entry))
    (take (length queue - MAX_ABANDONED) queue) st.

Definition flush_session_callback (st : State) (entry : nat) : State * bool :=
  let handle := se_handle (get_session st entry) in
  let fl := ab_context_flush broker (tpm st) handle in
  let st1 := with_broker st (snd fl) (CallContextFlush handle) in
  if negb (fst fl =? TSS2_RC_SUCCESS) then (st1, false) else (st1, true).

Definition connection_close_session_callback (connection : Connection) (st : State)
  (session_entry : nat) : State :=
  let session_state := se_state (get_session st session_entry) in
  if negb (se_connection (get_session st session_entry) =? connection)%nat then st
  else
    let handle := se_handle (get_session st session_entry) in
    match session_state with
    | SESSION_ENTRY_SAVED_CLIENT =>
        let st1 := with_sess st
                     (snd (session_list_abandon_handle (sess st) connection handle)) in
        session_list_prune_abandoned st1 flush_session_callback
    | SESSION_ENTRY_SAVED_RM =>
        let fl := ab_context_flush broker (tpm st) handle in
        let st1 := with_broker st (snd fl) (CallContextFlush handle) in
        with_sess st1 (session_list_remove (sess st1) session_entry)
    | _ => g_error st
    end.

(** g_error does not return: once the daemon has aborted, the callback is
    not run on the entries that are left. *)
Definition until_abort (callback : State -> nat -> State) (st : State) (entry : nat)
  : State :=
  if fatal st then st else callback st entry.

Definition resource_manager_remove_connection (st : State) (connection : Connection)
  : State :=
  session_list_foreach st (until_abort (connection_close_session_callback connection)).

(** The result is the state, the control message handed to the sink (if
    any) and the return value: FALSE terminates the thread.  When closing
    the connection aborts the daemon, the message is not handed on. *)
Definition resource_manager_process_control (st : State) (msg : ControlMessage)
  : State * option ControlMessage * bool :=
  match control_message_get_code msg with
  | CHECK_CANCEL => (st, Some msg, false)
  | CONNECTION_REMOVED =>
      let conn := control_message_get_object msg in
      let st1 := resource_manager_remove_connection st conn in
      if fatal st1 then (st1, None, true) else (st1, Some msg, true)
  | CONTROL_CODE_OTHER _ => (st, None, true)
  end.

(** What the sink has received while the resource manager went from [st]
    to [st']: the responses added to [sink]. *)
Definition responses_since (st st' : State) : list SinkObject :=
  map SinkResponse (drop (length (sink st)) (sink st')).

(** The thread, run on the objects [in_queue] that message_queue_dequeue
    hands out one after the other ([None] is the NULL object), with [out]
    the objects handed to the sink so far, in order.  The last component
    tells whether the thread has returned; it has not when the queue has
    nothing more to hand out (the thread blocks) and when the daemon has
    aborted. *)
Fixpoint resource_manager_thread (st : State) (out : list SinkObject)
  (in_queue : list (option GObject)) : State * list SinkObject * bool :=
  match in_queue with
  | [] => (st, out, false)
  | None :: _ => (st, out, true)
  | Some obj :: rest =>
      match obj with
      | ObjTpm2Command command =>
          let st' := resource_manager_process_tpm2_command broker codes client_context
                       st command in
          let out' := out ++ responses_since st st' in
          if fatal st' then (st', out', false)
          else resource_manager_thread st' out' rest
      | ObjControlMessage msg =>
          let res := resource_manager_process_control st msg in
          let st' := fst (fst res) in
          let out' := match snd (fst res) with
                      | Some m => out ++ [SinkControlMessage m]
                      | None => out
                      end in
          if fatal st' then (st', out', false)
          else if negb (snd res) then (st', out', true)
          else resource_manager_thread st' out' rest
      | ObjOther => resource_manager_thread st out rest
      end
  end.

End ConnectionClose.

Arguments session_list_prune_abandoned {TPM} st prune_func.
Arguments flush_session_callback {TPM} broker st entry.
Arguments resource_manager_remove_connection {TPM} broker st connection.
Arguments connection_close_session_callback {TPM} broker connection st session_entry.
Arguments resource_manager_process_control {TPM} broker st msg.
Arguments resource_manager_thread {TPM} broker codes client_context st out in_queue.

(** An active entry is the one its handle is looked up to: no two active
    entries have the same session handle. *)
Definition session_handles_unique {TPM} (st : ResourceManager TPM) : Prop :=
  forall r, In r (session_entry_slist (session_list (sess st))) ->
    session_list_lookup_handle (sess st) (se_handle (sessions (sess st) r)) = Some r.

(** The objects of the queue the thread gets to: those up to the first NULL
    object or CHECK_CANCEL message. *)
Fixpoint processed (in_queue : list (option GObject)) : list GObject :=
  match in_queue with
  | [] => []
  | None :: _ => []
  | Some obj :: rest =>
      match obj with
      | ObjControlMessage {| control_message_get_code := CHECK_CANCEL |} => [obj]
      | _ => obj :: processed rest
      end
  end.

(** The objects of the queue that are answered with an object to the sink:
    the commands, and the control messages with a known code. *)
Definition is_answered (obj : GObject) : bool :=
  match obj with
  | ObjTpm2Command _ => true
  | ObjControlMessage msg =>
      match control_message_get_code msg with
      | CONTROL_CODE_OTHER _ => false
      | _ => true
      end
  | ObjOther => false
  end.

(** [out] is what the sink gets for [obj]: a response addressed to the
    connection of the command, or the control message itself. *)
Definition answer_of (obj : GObject) (out : SinkObject) : Prop :=
  match obj, out with
  | ObjTpm2Command command, SinkResponse response =>
      resp_connection response = cmd_connection command
  | ObjControlMessage msg, SinkControlMessage msg' => msg' = msg
  | _, _ => False
  end.

(** NULL, or a control message with the code CHECK_CANCEL. *)
Definition stops_thread (obj : option GObject) : Prop :=
  match obj with
  | None => True
  | Some (ObjControlMessage msg) => control_message_get_code msg = CHECK_CANCEL
  | Some _ => False
  end.

Definition cancel_message : ControlMessage :=
  {| control_message_get_code := CHECK_CANCEL;
     control_message_get_object := NULL_connection |}.

Definition connection_removed_message (c : Connection) : ControlMessage :=
  {| control_message_get_code := CONNECTION_REMOVED;
     control_message_get_object := c |}.

(** The thread of the examples. *)
Definition example_thread (script : MockScript) (st : ResourceManager unit)
  (in_queue : list (option GObject)) : ResourceManager unit * list SinkObject * bool :=
  resource_manager_thread (mock_broker script) example_codes example_client_context
    st [] in_queue.

(** The boundary between two objects of the queue: no tracked session and
    no transient object is resident in the TPM, and the HandleMaps are well
    formed. *)
Definition quiescent {TPM} (st : ResourceManager TPM) : Prop :=
  no_session_loaded st
  /\ handle_maps_wf (transients st) /\ all_flushed (transients st).

(** The abandoned FIFO is within its bound. *)
Definition abandoned_bounded {TPM} (st : ResourceManager TPM) : Prop :=
  (length (abandoned_queue (session_list (sess st))) <= MAX_ABANDONED)%nat.

(** A command of connection [c] that is none of the virtualised ones, with
    the handle area [hs] and one authorisation, by the session [handle]
    with the session attributes [attrs]: behind the header the buffer holds
    the handle area, the size of the authorisation area, and the
    authorisation (session handle, empty nonce, attributes, empty HMAC). *)
Definition authorised_command (c : Connection) (hs : list TPM2_HANDLE)
  (handle : TPM2_HANDLE) (attrs : Z) : Tpm2Command :=
  {| cmd_connection := c; cmd_code := 0x176; cmd_attributes := 0x176;
     cmd_handles := hs; cmd_auths := [(handle, attrs)];
     cmd_body := flat_map be32 hs ++ be32 9 ++ be32 handle
                 ++ [0; 0; Z.land attrs 0xFF; 0; 0];
     cmd_flush_handle := (TSS2_RC_SUCCESS, 0);
     cmd_cap := 0; cmd_prop := 0; cmd_prop_count := 0;
     cmd_context_unmarshal := (TSS2_RC_SUCCESS, 0) |}.

(** * Properties of the resource manager *)

(** ** Wire format *)

Lemma be32_decode_be32 (v : Z) (rest : list Z) :
  0 <= v < 2 ^ 32 -> be32_decode (be32 v ++ rest) = v.
Proof.
  intros Hv. unfold be32, be32_decode. cbn [app].
  apply Z.bits_inj'. intros n Hn.
  rewrite !Z.lor_spec.
  rewrite !Z.shiftl_spec by lia.
  rewrite !Z.land_spec. change 255 with (Z.ones 8).
  destruct (Z.ltb_spec n 8);
    [|destruct (Z.ltb_spec n 16);
      [|destruct (Z.ltb_spec n 24); [|destruct (Z.ltb_spec n 32)]]].
  - rewrite (Z.testbit_neg_r _ (n - 24)), (Z.testbit_neg_r _ (n - 16)),
      (Z.testbit_neg_r _ (n - 8)) by lia.
    cbn [orb andb]. rewrite Z.ones_spec_low by lia. apply andb_true_r.
  - rewrite (Z.testbit_neg_r _ (n - 24)), (Z.testbit_neg_r _ (n - 16)) by lia.
    cbn [orb andb].
    rewrite (Z.ones_spec_high 8 n) by lia. rewrite Z.ones_spec_low by lia.
    rewrite Z.shiftr_spec by lia.
    rewrite andb_false_r, orb_false_r, andb_true_r. f_equal. lia.
  - rewrite (Z.testbit_neg_r _ (n - 24)) by lia.
    cbn [orb andb].
    rewrite (Z.ones_spec_high 8 n), (Z.ones_spec_high 8 (n - 8)) by lia.
    rewrite Z.ones_spec_low by lia. rewrite Z.shiftr_spec by lia.
    rewrite !andb_false_r, !orb_false_r, andb_true_r. f_equal. lia.
  - rewrite (Z.ones_spec_high 8 n), (Z.ones_spec_high 8 (n - 8)),
      (Z.ones_spec_high 8 (n - 16)) by lia.
    rewrite Z.ones_spec_low by lia. rewrite Z.shiftr_spec by lia.
    rewrite !andb_false_r, !orb_false_r, andb_true_r. f_equal. lia.
  - rewrite !(Z.ones_spec_high 8) by lia.
    rewrite !andb_false_r. cbn [orb].
    symmetry. destruct (Z.eq_dec v 0) as [->|Hne]; [apply Z.testbit_0_l|].
    apply Z.bits_above_log2; [lia|].
    assert (Z.log2 v < 32) by (apply Z.log2_lt_pow2; lia). lia.
Qed.

(** The code field of a header-only response is the code it was built with. *)
Lemma response_new_rc_code (c : Connection) (rc : TSS2_RC) :
  0 <= rc < 2 ^ 32 -> tpm2_response_get_code (tpm2_response_new_rc c rc) = rc.
Proof.
  intros Hrc. unfold tpm2_response_get_code, tpm2_response_new_rc, tpm2_response_new,
    response_header. cbn [resp_buffer].
  change (drop 6 (be16 TPM2_ST_NO_SESSIONS ++ be32 TPM_HEADER_SIZE ++ be32 rc))
    with (be32 rc).
  rewrite <- (app_nil_r (be32 rc)). apply be32_decode_be32. exact Hrc.
Qed.

(** ** Saving the sessions between two commands *)

Section SessionSaving.

Context {TPM : Type}.
Variable broker : AccessBroker TPM.

Abbreviation State := (ResourceManager TPM).

Lemma save_session_not_loaded (st : State) (r : nat) :
  se_state (sessions (sess st) r) <> SESSION_ENTRY_LOADED ->
  resource_manager_save_session_context broker st r = st.
Proof.
  intros H. unfold resource_manager_save_session_context, get_session.
  rewrite bool_decide_eq_false_2 by exact H. reflexivity.
Qed.

Lemma save_session_frame (st : State) (r : nat) :
  let st' := resource_manager_save_session_context broker st r in
  transients st' = transients st /\ sink st' = sink st /\ fatal st' = fatal st /\
  exists l, calls st' = calls st ++ l /\ Forall housekeeping_call l.
Proof.
  unfold resource_manager_save_session_context, access_broker_send_command.
  destruct (bool_decide _); cbn [negb].
  2:{ repeat split; try reflexivity. exists []. rewrite app_nil_r. auto. }
  destruct (fst (ab_send_command broker (tpm st) _)) as [buf|rc]; cbn [fst snd].
  - cbn. repeat split; try reflexivity. eexists. split; [reflexivity|].
    repeat constructor.
  - destruct (rc =? TSS2_RC_SUCCESS); cbn; repeat split; try reflexivity;
      (eexists; split; [rewrite <- app_assoc; reflexivity|]); repeat constructor.
Qed.

Lemma save_sessions_frame (l : list nat) (st : State) :
  let st' := fold_left (resource_manager_save_session_context broker) l st in
  transients st' = transients st /\ sink st' = sink st /\ fatal st' = fatal st /\
  exists k, calls st' = calls st ++ k /\ Forall housekeeping_call k.
Proof.
  revert st. induction l as [|r l IH]; intros st; cbn [fold_left].
  - repeat split; try reflexivity. exists []. rewrite app_nil_r. auto.
  - destruct (save_session_frame st r) as (Ht & Hs & Hf & k1 & Hc & Hk1).
    destruct (IH (resource_manager_save_session_context broker st r))
      as (Ht' & Hs' & Hf' & k2 & Hc' & Hk2).
    cbn zeta in *. rewrite Ht', Hs', Hf', Hc', Ht, Hs, Hf, Hc.
    repeat split; try reflexivity.
    exists (k1 ++ k2). rewrite app_assoc. split; [reflexivity|].
    apply Forall_app; auto.
Qed.

Lemma save_sessions_none_loaded (l : list nat) (st : State) :
  (forall r, In r l -> se_state (sessions (sess st) r) <> SESSION_ENTRY_LOADED) ->
  fold_left (resource_manager_save_session_context broker) l st = st.
Proof.
  induction l as [|r l IH]; intros H; cbn [fold_left]; [reflexivity|].
  rewrite save_session_not_loaded by (apply H; left; reflexivity).
  apply IH. intros r' Hr'. apply H. right. exact Hr'.
Qed.

(** What follows the label send_response when no transient was loaded: the
    response is emitted, and the AccessBroker only sees housekeeping. *)
Lemma send_response_nil (st : State) (command : Tpm2Command) (response : Tpm2Response) :
  let st' := send_response broker st command response [] in
  transients st' = transients st /\ sink st' = sink st ++ [response] /\
  fatal st' = fatal st /\
  exists k, calls st' = calls st ++ k /\ Forall housekeeping_call k
            /\ (no_session_loaded st -> k = [] /\ sess st' = sess st).
Proof.
  unfold send_response, post_process_loaded_transients, session_list_foreach.
  set (st1 := sink_enqueue st response).
  assert (Hpost : forall s : State,
             (if Z.land (cmd_attributes command) TPMA_CC_FLUSHED =? 0
              then fold_left (resource_manager_flushsave_context broker) [] s
              else fold_left (remove_entry_from_handle_map (cmd_connection command)) [] s)
             = s) by (intros s; destruct (_ =? 0); reflexivity).
  rewrite Hpost.
  destruct (save_sessions_frame (session_entry_slist (session_list (sess st1))) st1)
    as (Ht & Hs & Hf & k & Hc & Hk).
  cbn zeta in *. rewrite Ht, Hs, Hf, Hc. repeat split; try reflexivity.
  exists k. repeat split; auto.
  - rewrite save_sessions_none_loaded in Hc by exact H.
    change (calls st1) with (calls st) in Hc.
    rewrite <- (app_nil_r (calls st)) in Hc at 1.
    apply app_inv_head in Hc. congruence.
  - rewrite save_sessions_none_loaded by exact H. reflexivity.
Qed.

End SessionSaving.

(** ** The dispatcher: quota check and virtualised commands *)

Section Dispatcher.

Context {TPM : Type}.
Variable broker : AccessBroker TPM.
Variable codes : ResMgrCodes.
Variable client_context : Connection -> TPM2_HANDLE -> list Z.

Abbreviation State := (ResourceManager TPM).
Abbreviation process :=
  (resource_manager_process_tpm2_command broker codes client_context).

(** Only four command codes are subject to a quota. *)
Lemma quota_check_other (st : State) (command : Tpm2Command) :
  cmd_code command <> TPM2_CC_CreatePrimary ->
  cmd_code command <> TPM2_CC_Load ->
  cmd_code command <> TPM2_CC_LoadExternal ->
  cmd_code command <> TPM2_CC_StartAuthSession ->
  resource_manager_quota_check codes st command = TSS2_RC_SUCCESS.
Proof.
  intros H1 H2 H3 H4. unfold resource_manager_quota_check.
  apply Z.eqb_neq in H1, H2, H3, H4. rewrite H1, H2, H3, H4. reflexivity.
Qed.

(** A command that is rejected or answered before it reaches the TPM. *)
Lemma process_rejected (st : State) (command : Tpm2Command) :
  resource_manager_quota_check codes st command <> TSS2_RC_SUCCESS ->
  process st command =
  send_response broker st command
    (tpm2_response_new_rc (cmd_connection command)
       (resource_manager_quota_check codes st command)) [].
Proof.
  intros H. unfold resource_manager_process_tpm2_command.
  apply Z.eqb_neq in H. rewrite H. reflexivity.
Qed.

Lemma process_special (st st1 : State) (command : Tpm2Command) (response : Tpm2Response) :
  resource_manager_quota_check codes st command = TSS2_RC_SUCCESS ->
  command_special_processing codes st command = (st1, Some response) ->
  process st command = send_response broker st1 command response [].
Proof.
  intros Hq Hs. unfold resource_manager_process_tpm2_command.
  rewrite Hq, Hs. reflexivity.
Qed.

Lemma process_forwarded (st st1 : State) (command : Tpm2Command) :
  resource_manager_quota_check codes st command = TSS2_RC_SUCCESS ->
  command_special_processing codes st command = (st1, None) ->
  process st command =
  match snd (dispatch_to_tpm broker client_context st1 command) with
  | Some (response, transient_slist) =>
      send_response broker (fst (dispatch_to_tpm broker client_context st1 command))
        command response transient_slist
  | None => fst (dispatch_to_tpm broker client_context st1 command)
  end.
Proof.
  intros Hq Hs. unfold resource_manager_process_tpm2_command.
  rewrite Hq, Hs. reflexivity.
Qed.

(** C1: a FlushContext whose target handle, taken from the command body, is
    a transient handle is never forwarded to the AccessBroker: the only
    calls the broker sees while the command is processed are the resource
    manager's own session housekeeping (none at all when no session is
    loaded).  If the vhandle is in the HandleMap of the calling connection
    the entry is removed and the response carries success; if it is not, the
    map is unchanged and the response carries the code RC_HANDLE | RC_P |
    RC_1, tagged by RM_RC as coming from the resource manager. *)
Theorem flush_context_transient_virtualised (st : State) (command : Tpm2Command)
  (handle : TPM2_HANDLE) :
  cmd_code command = TPM2_CC_FlushContext ->
  cmd_flush_handle command = (TSS2_RC_SUCCESS, handle) ->
  handle_type handle = TPM2_HT_TRANSIENT ->
  let c := cmd_connection command in
  let st' := process st command in
  not_forwarded st st' command
  /\ (forall entry, handle_table st c !! handle = Some entry ->
        handle_table st' c = delete handle (handle_table st c)
        /\ sink st' = sink st ++ [tpm2_response_new_rc c TSS2_RC_SUCCESS])
  /\ (handle_table st c !! handle = None ->
        handle_table st' c = handle_table st c
        /\ sink st' = sink st ++
             [tpm2_response_new_rc c
                (RM_RC codes (Z.lor TPM2_RC_HANDLE (Z.lor TPM2_RC_P TPM2_RC_1)))]).
Proof.
  intros Hcode Hflush Htype c st'.
  assert (Hq : resource_manager_quota_check codes st command = TSS2_RC_SUCCESS)
    by (apply quota_check_other; rewrite Hcode; discriminate).
  assert (Hsp : exists st1 response,
             command_special_processing codes st command = (st1, Some response)
             /\ sess st1 = sess st /\ calls st1 = calls st /\ sink st1 = sink st
             /\ (forall entry, handle_table st c !! handle = Some entry ->
                   handle_table st1 c = delete handle (handle_table st c)
                   /\ response = tpm2_response_new_rc c TSS2_RC_SUCCESS)
             /\ (handle_table st c !! handle = None ->
                   handle_table st1 c = handle_table st c
                   /\ response = tpm2_response_new_rc c
                        (RM_RC codes (Z.lor TPM2_RC_HANDLE (Z.lor TPM2_RC_P TPM2_RC_1))))).
  { unfold command_special_processing, resource_manager_flush_context.
    rewrite Hcode, Hflush. cbn [fst snd]. rewrite Htype.
    change (TPM2_CC_FlushContext =? TPM2_CC_FlushContext) with true.
    change (TSS2_RC_SUCCESS =? TSS2_RC_SUCCESS) with true.
    change (TPM2_HT_TRANSIENT =? TPM2_HT_TRANSIENT) with true. cbn [negb].
    unfold handle_map_vlookup, connection_get_trans_map. fold c.
    change (vhandle_to_entry (trans_maps (transients st) c)) with (handle_table st c).
    destruct (handle_table st c !! handle) as [entry|] eqn:Hl.
    - eexists _, _. split; [reflexivity|]. repeat split; try discriminate.
      + unfold handle_table, set_trans_map. cbn. rewrite fn_lookup_insert. reflexivity.
    - eexists _, _. split; [reflexivity|]. repeat split; try discriminate. }
  destruct Hsp as (st1 & response & Hsp & Hsess & Hcalls & Hsink & Hsome & Hnone).
  subst st'. rewrite (process_special st st1 command response Hq Hsp).
  destruct (send_response_nil broker st1 command response)
    as (Ht & Hs & _ & l & Hc & Hl & Hnl).
  cbn zeta in *. split; [|split].
  - exists l. rewrite Hc, Hcalls. repeat split; auto.
    + intros Hin. rewrite List.Forall_forall in Hl. apply Hl in Hin.
      destruct Hin as [Hin _]. rewrite Hcode in Hin. discriminate.
    + intros Hno. apply Hnl. unfold no_session_loaded. rewrite Hsess. exact Hno.
  - intros entry Hentry. destruct (Hsome entry Hentry) as [Hmap ->].
    unfold handle_table in *. rewrite Ht, Hs, Hsink. auto.
  - intros Hentry. destruct (Hnone Hentry) as [Hmap ->].
    unfold handle_table in *. rewrite Ht, Hs, Hsink. auto.
Qed.

End Dispatcher.

(** An instance of C1: connection 1 flushes its object 0x80000001. *)
Lemma flush_context_transient_virtualised_witness :
  let command := flush_context_command 1 0x80000001 in
  let st := one_object_state in
  let st' := example_run obliging_script st command in
  not_forwarded st st' command
  /\ (forall entry, handle_table st 1%nat !! 0x80000001 = Some entry ->
        handle_table st' 1%nat = delete 0x80000001 (handle_table st 1%nat)
        /\ sink st' = sink st ++ [tpm2_response_new_rc 1%nat TSS2_RC_SUCCESS])
  /\ (handle_table st 1%nat !! 0x80000001 = None ->
        handle_table st' 1%nat = handle_table st 1%nat
        /\ sink st' = sink st ++
             [tpm2_response_new_rc 1%nat
                (RM_RC example_codes
                   (Z.lor TPM2_RC_HANDLE (Z.lor TPM2_RC_P TPM2_RC_1)))]).
Proof.
  apply (flush_context_transient_virtualised (mock_broker obliging_script)
           example_codes example_client_context one_object_state
           (flush_context_command 1 0x80000001) 0x80000001);
    reflexivity.
Defined.

(** ** Quotas *)

Section Quota.

Context {TPM : Type}.
Variable broker : AccessBroker TPM.
Variable codes : ResMgrCodes.
Variable client_context : Connection -> TPM2_HANDLE -> list Z.

Abbreviation State := (ResourceManager TPM).
Abbreviation process :=
  (resource_manager_process_tpm2_command broker codes client_context).

Lemma rejected_not_forwarded (st : State) (command : Tpm2Command) :
  resource_manager_quota_check codes st command <> TSS2_RC_SUCCESS ->
  cmd_code command <> TPM2_CC_ContextSave ->
  let st' := process st command in
  sink st' = sink st ++
    [tpm2_response_new_rc (cmd_connection command)
       (resource_manager_quota_check codes st command)]
  /\ transients st' = transients st
  /\ not_forwarded st st' command.
Proof.
  intros H Hcode. cbn zeta.
  rewrite (process_rejected broker codes client_context st command H).
  destruct (send_response_nil broker st command
              (tpm2_response_new_rc (cmd_connection command)
                 (resource_manager_quota_check codes st command)))
    as (Ht & Hs & _ & l & Hc & Hl & Hnl).
  cbn zeta in *. repeat split; auto.
  exists l. repeat split; auto.
  - intros Hin. rewrite List.Forall_forall in Hl. apply Hl in Hin.
    destruct Hin as [Hin _]. contradiction.
  - intros Hno. apply Hnl. exact Hno.
Qed.

(** C2: a CreatePrimary, Load or LoadExternal received while the transient
    HandleMap of the calling connection is full is answered with
    RESMGR_RC_OBJECT_MEMORY, and a StartAuthSession received while the
    connection owns as many sessions as the per-connection cap allows is
    answered with RESMGR_RC_SESSION_MEMORY; in both cases the AccessBroker
    is not called for the command (it only sees the resource manager's own
    session housekeeping, and nothing when no session is loaded) and the
    transient objects are untouched. *)
Theorem quota_exceeded_rejected (st : State) (command : Tpm2Command) :
  let c := cmd_connection command in
  let st' := process st command in
  (loads_transient_object (cmd_code command) ->
   handle_map_is_full (connection_get_trans_map st c) = true ->
   sink st' = sink st ++ [tpm2_response_new_rc c (TSS2_RESMGR_RC_OBJECT_MEMORY codes)]
   /\ transients st' = transients st
   /\ not_forwarded st st' command)
  /\ (cmd_code command = TPM2_CC_StartAuthSession ->
      session_list_is_full (sess st) c = true ->
      sink st' = sink st ++ [tpm2_response_new_rc c (TSS2_RESMGR_RC_SESSION_MEMORY codes)]
      /\ transients st' = transients st
      /\ not_forwarded st st' command).
Proof.
  intros c st'. split.
  - intros Hcode Hfull.
    assert (Hq : resource_manager_quota_check codes st command
                 = TSS2_RESMGR_RC_OBJECT_MEMORY codes).
    { unfold resource_manager_quota_check. fold c. rewrite Hfull.
      destruct Hcode as [-> | [-> | ->]]; reflexivity. }
    rewrite <- Hq. apply rejected_not_forwarded.
    + rewrite Hq. apply object_memory_is_error.
    + destruct Hcode as [-> | [-> | ->]]; discriminate.
  - intros Hcode Hfull.
    assert (Hq : resource_manager_quota_check codes st command
                 = TSS2_RESMGR_RC_SESSION_MEMORY codes).
    { unfold resource_manager_quota_check. fold c. rewrite Hfull, Hcode. reflexivity. }
    rewrite <- Hq. apply rejected_not_forwarded.
    + rewrite Hq. apply session_memory_is_error.
    + rewrite Hcode. discriminate.
Qed.

End Quota.

(** Two instances of C2: connection 1, whose HandleMap of capacity 1 holds
    one object, sends CreatePrimary; connection 1, which owns one session
    with a cap of one, sends StartAuthSession. *)
Lemma quota_exceeded_rejected_witness :
  (let st := one_object_state in
   let command := create_primary_command 1 in
   let st' := example_run obliging_script st command in
   sink st' = sink st ++
     [tpm2_response_new_rc 1 (TSS2_RESMGR_RC_OBJECT_MEMORY example_codes)]
   /\ transients st' = transients st
   /\ not_forwarded st st' command)
  /\ (let st := one_session_state in
      let command := start_auth_session_command 1 in
      let st' := example_run session_script st command in
      sink st' = sink st ++
        [tpm2_response_new_rc 1 (TSS2_RESMGR_RC_SESSION_MEMORY example_codes)]
      /\ transients st' = transients st
      /\ not_forwarded st st' command).
Proof.
  split.
  - apply (proj1 (quota_exceeded_rejected (mock_broker obliging_script) example_codes
                    example_client_context one_object_state (create_primary_command 1))).
    + left. reflexivity.
    + reflexivity.
  - apply (proj2 (quota_exceeded_rejected (mock_broker session_script) example_codes
                    example_client_context one_session_state
                    (start_auth_session_command 1))).
    + reflexivity.
    + reflexivity.
Defined.

(** ** Loading the contexts a command refers to, and forwarding it *)

Section Forwarding.

Context {TPM : Type}.
Variable broker : AccessBroker TPM.
Variable codes : ResMgrCodes.
Variable client_context : Connection -> TPM2_HANDLE -> list Z.

Abbreviation State := (ResourceManager TPM).
Abbreviation process :=
  (resource_manager_process_tpm2_command broker codes client_context).

Lemma same_but_handles_refl (a : Tpm2Command) : same_but_handles a a.
Proof. unfold same_but_handles. repeat split. Qed.

Lemma same_but_handles_trans (a b c : Tpm2Command) :
  same_but_handles a b -> same_but_handles b c -> same_but_handles a c.
Proof.
  unfold same_but_handles. intros H1 H2.
  destruct H1 as (A1&A2&A3&A4&A5&A6&A7), H2 as (B1&B2&B3&B4&B5&B6&B7).
  rewrite A4 in B7. repeat split; congruence.
Qed.

Lemma be32_length (v : Z) : length (be32 v) = 4%nat.
Proof. reflexivity. Qed.

Lemma same_but_handles_set (a : Tpm2Command) (h : TPM2_HANDLE) (n : nat) :
  same_but_handles a (tpm2_command_set_handle a h n).
Proof.
  unfold tpm2_command_set_handle.
  destruct (Nat.ltb_spec n (length (cmd_handles a))) as [Hn|Hn];
    [|apply same_but_handles_refl].
  unfold same_but_handles. cbn [cmd_connection cmd_code cmd_attributes cmd_handles
    cmd_auths cmd_body].
  split; [reflexivity|]. split; [reflexivity|]. split; [reflexivity|].
  split; [apply length_insert|]. split; [reflexivity|].
  split; [apply length_inserts|].
  apply list_eq. intros j. rewrite !lookup_drop.
  apply list_lookup_inserts_ge. rewrite be32_length. lia.
Qed.

Lemma flat_be32_length (hs : list TPM2_HANDLE) :
  length (flat_map be32 hs) = (4 * length hs)%nat.
Proof.
  induction hs as [|a hs IH]; [reflexivity|].
  cbn [flat_map]. rewrite length_app, be32_length, IH. cbn [length]. lia.
Qed.

Lemma inserts_flat (hs : list TPM2_HANDLE) (n : nat) (h : TPM2_HANDLE) (rest : list Z) :
  (n < length hs)%nat ->
  list_inserts (4 * n) (be32 h) (flat_map be32 hs ++ rest)
  = flat_map be32 (<[n := h]> hs) ++ rest.
Proof.
  revert n. induction hs as [|a hs IH]; intros n Hn; [cbn in Hn; lia|].
  destruct n as [|n].
  - cbn [flat_map]. change (<[0%nat := h]> (a :: hs)) with (h :: hs).
    cbn [flat_map]. rewrite <- !app_assoc.
    apply (list_inserts_0_r (be32 h) (be32 a)). reflexivity.
  - change (<[S n := h]> (a :: hs)) with (a :: <[n := h]> hs).
    cbn [flat_map]. rewrite <- !app_assoc.
    replace (4 * S n)%nat with (length (be32 a) + 4 * n)%nat
      by (rewrite be32_length; lia).
    rewrite list_inserts_app_r. f_equal. apply IH. cbn [length] in Hn. lia.
Qed.

(** Rewriting a handle keeps the handle area of the buffer in step with the
    handles of the command. *)
Lemma set_handle_in_buffer (command : Tpm2Command) (h : TPM2_HANDLE) (n : nat) :
  handle_area_in_buffer command ->
  handle_area_in_buffer (tpm2_command_set_handle command h n).
Proof.
  unfold handle_area_in_buffer, tpm2_command_set_handle. intros H.
  destruct (Nat.ltb_spec n (length (cmd_handles command))) as [Hn|Hn]; [|exact H].
  cbn [cmd_handles cmd_body].
  rewrite <- (take_drop (4 * length (cmd_handles command)) (cmd_body command)), H.
  rewrite inserts_flat by exact Hn.
  rewrite length_insert.
  replace (4 * length (cmd_handles command))%nat
    with (length (flat_map be32 (<[n := h]> (cmd_handles command))))
    by (rewrite flat_be32_length, length_insert; reflexivity).
  apply take_app_length.
Qed.

Lemma load_step_refl (st : State) : load_step st st.
Proof.
  unfold load_step. repeat split. exists []. rewrite app_nil_r. auto.
Qed.

Lemma load_step_trans (a b c : State) : load_step a b -> load_step b c -> load_step a c.
Proof.
  unfold load_step. intros (Hs1 & Hf1 & l1 & Hc1 & Hl1) (Hs2 & Hf2 & l2 & Hc2 & Hl2).
  repeat split; try congruence.
  exists (l1 ++ l2). rewrite Hc2, Hc1, app_assoc. split; [reflexivity|].
  apply Forall_app; auto.
Qed.

Lemma load_step_one (st st' : State) (call : BrokerCall) :
  sink st' = sink st -> fatal st' = fatal st -> calls st' = calls st ++ [call] ->
  load_call call -> load_step st st'.
Proof.
  intros Hs Hf Hc Hl. unfold load_step. repeat split; auto.
  exists [call]. split; [exact Hc|]. repeat constructor. exact Hl.
Qed.

Lemma virt_to_phys_load_step (st : State) command entry n :
  let res := resource_manager_virt_to_phys broker st command entry n in
  load_step st (fst (fst res)) /\ same_but_handles command (snd (fst res))
  /\ sess (fst (fst res)) = sess st.
Proof.
  unfold resource_manager_virt_to_phys.
  destruct (fst (fst (ab_context_load broker (tpm st) _)) =? TSS2_RC_SUCCESS);
    cbn [fst snd]; (split; [|split]); try reflexivity;
    try (eapply load_step_one; [reflexivity|reflexivity|reflexivity|exact I]).
  - apply same_but_handles_set.
  - apply same_but_handles_refl.
Qed.

Lemma load_transient_load_step (st : State) command slist handle n :
  let res := resource_manager_load_transient broker st command slist handle n in
  load_step st (fst (fst (fst res))) /\ same_but_handles command (snd (fst (fst res)))
  /\ sess (fst (fst (fst res))) = sess st.
Proof.
  unfold resource_manager_load_transient.
  destruct (handle_map_vlookup _ handle) as [entry|]; cbn [fst snd].
  - pose proof (virt_to_phys_load_step st command entry n) as H. cbn zeta in H.
    destruct (negb _); cbn [fst snd]; exact H.
  - split; [apply load_step_refl|split; [apply same_but_handles_refl|reflexivity]].
Qed.

Lemma send_command_calls (st : State) (command : Tpm2Command) :
  let res := access_broker_send_command broker st command in
  calls (fst (fst res)) = calls st ++ [CallSendCommand command]
  /\ sink (fst (fst res)) = sink st /\ fatal (fst (fst res)) = fatal st
  /\ transients (fst (fst res)) = transients st /\ sess (fst (fst res)) = sess st.
Proof.
  unfold access_broker_send_command.
  destruct (fst (ab_send_command broker (tpm st) command)); cbn; repeat split.
Qed.

Lemma load_session_load_step (st : State) conn handle will_flush :
  let res := resource_manager_load_session_from_handle broker st conn handle will_flush in
  load_step st (fst res) /\ transients (fst res) = transients st.
Proof.
  unfold resource_manager_load_session_from_handle.
  destruct (session_list_lookup_handle (sess st) handle) as [r|]; cbn [fst snd];
    [|split; [apply load_step_refl|reflexivity]].
  destruct (negb (conn =? _)%nat); cbn [fst snd];
    [split; [apply load_step_refl|reflexivity]|].
  destruct (negb (bool_decide _)); cbn [fst snd];
    [split; [apply load_step_refl|reflexivity]|].
  destruct (send_command_calls st
              (tpm2_command_new_context_load (se_context (get_session st r))))
    as (Hc & Hs & Hf & Ht & _).
  cbn zeta in Hc, Hs, Hf, Ht.
  set (res := access_broker_send_command broker st _) in *.
  destruct (negb (snd res =? TSS2_RC_SUCCESS)); [|destruct will_flush]; cbn [fst snd];
    (split; [|exact Ht]);
    (eapply load_step_one; [exact Hs|exact Hf|exact Hc|]); split; reflexivity.
Qed.

Lemma load_auth_load_step (st : State) command auth :
  let st' := resource_manager_load_auth_callback broker st command auth in
  load_step st st' /\ transients st' = transients st.
Proof.
  unfold resource_manager_load_auth_callback.
  destruct (is_session_type _); [|split; [apply load_step_refl|reflexivity]].
  apply load_session_load_step.
Qed.

Lemma load_auths_load_step (command : Tpm2Command) (auths : list (TPM2_HANDLE * Z))
  (st : State) :
  let st' := fold_left (fun s auth => resource_manager_load_auth_callback broker s
                                        command auth) auths st in
  load_step st st' /\ transients st' = transients st.
Proof.
  revert st. induction auths as [|a auths IH]; intros st; cbn [fold_left].
  - split; [apply load_step_refl|reflexivity].
  - destruct (load_auth_load_step st command a) as [H1 Ht1].
    destruct (IH (resource_manager_load_auth_callback broker st command a)) as [H2 Ht2].
    cbn zeta in *. split; [eapply load_step_trans; eauto|congruence].
Qed.

Lemma load_handles_loop_load_step (hs : list TPM2_HANDLE) (i : nat)
  (st : State) command slist rc :
  let res := load_handles_loop broker hs i (st, command, slist, rc) in
  load_step st (fst (fst (fst res))) /\ same_but_handles command (snd (fst (fst res))).
Proof.
  revert i st command slist rc.
  induction hs as [|h hs IH]; intros i st command slist rc; cbn [load_handles_loop fst snd].
  - split; [apply load_step_refl|apply same_but_handles_refl].
  - destruct (handle_type h =? TPM2_HT_TRANSIENT).
    + destruct (load_transient_load_step st command slist h i) as (H1 & H2 & _).
      cbn zeta in H1, H2.
      destruct (resource_manager_load_transient broker st command slist h i)
        as [[[st1 command1] slist1] rc1]. cbn [fst snd] in *.
      destruct (IH (S i) st1 command1 slist1 rc1) as [H3 H4]. cbn zeta in *.
      split; [eapply load_step_trans; eauto|eapply same_but_handles_trans; eauto].
    + destruct (is_session_type (handle_type h)).
      * destruct (load_session_load_step st (cmd_connection command) h false) as [H1 _].
        cbn zeta in H1.
        destruct (IH (S i)
                    (fst (resource_manager_load_session_from_handle broker st
                            (cmd_connection command) h false))
                    command slist
                    (snd (resource_manager_load_session_from_handle broker st
                            (cmd_connection command) h false))) as [H3 H4].
        cbn zeta in *. split; [eapply load_step_trans; eauto|exact H4].
      * apply IH.
Qed.

(** The handle area is loaded when the command has handles: the daemon
    aborts when the handle area cannot be read, and the loop runs over the
    handles otherwise. *)
Lemma load_phase (st : State) (command : Tpm2Command) :
  (if (0 <? length (cmd_handles command))%nat
   then resource_manager_load_handles broker st command []
   else Some (st, command, [], TSS2_RC_SUCCESS))
  = if (length (cmd_handles command) <=? TPM2_COMMAND_MAX_HANDLES)%nat
    then Some (if (0 <? length (cmd_handles command))%nat
               then load_handles_loop broker (cmd_handles command) 0
                      (st, command, [], TSS2_RC_SUCCESS)
               else (st, command, [], TSS2_RC_SUCCESS))
    else None.
Proof.
  unfold resource_manager_load_handles, tpm2_command_get_handles.
  destruct (Nat.ltb_spec 0 (length (cmd_handles command))) as [H0|H0];
    destruct (Nat.leb_spec (length (cmd_handles command)) TPM2_COMMAND_MAX_HANDLES)
      as [H1|H1]; try reflexivity.
  unfold TPM2_COMMAND_MAX_HANDLES in H1. lia.
Qed.

Lemma dispatch_unreadable (st : State) (command : Tpm2Command) :
  ~ handle_area_readable command ->
  dispatch_to_tpm broker client_context st command = (g_error st, None).
Proof.
  intros Hr. unfold dispatch_to_tpm. rewrite load_phase.
  destruct (Nat.leb_spec (length (cmd_handles command)) TPM2_COMMAND_MAX_HANDLES)
    as [H1|H1]; [contradiction|reflexivity].
Qed.

(** What reaches the AccessBroker when a command is dispatched whose handle
    area can be read: first the loads of the contexts it refers to, then
    the command itself with its handle area rewritten, whatever the loads
    returned.  The response is the AccessBroker's, or carries the code of
    the transport failure. *)
Lemma dispatch_to_tpm_forwards (st : State) (command : Tpm2Command) :
  handle_area_readable command ->
  exists (st2 : State) (command1 : Tpm2Command) (slist : list nat),
    load_step st st2 /\ same_but_handles command command1
    /\ dispatch_to_tpm broker client_context st command
       = resource_manager_create_context_mapping client_context
           (fst (fst (access_broker_send_command broker st2 command1)))
           (match fst (ab_send_command broker (tpm st2) command1) with
            | inl buffer => tpm2_response_new (cmd_connection command) buffer
                              (cmd_attributes command)
            | inr rc => tpm2_response_new_rc (cmd_connection command) rc
            end) slist.
Proof.
  intros Hr. unfold dispatch_to_tpm. rewrite load_phase.
  rewrite (proj2 (Nat.leb_le _ _) Hr).
  set (loaded := if (0 <? length (cmd_handles command))%nat
                 then load_handles_loop broker (cmd_handles command) 0
                        (st, command, [], TSS2_RC_SUCCESS)
                 else (st, command, [], TSS2_RC_SUCCESS)).
  assert (Hl : load_step st (fst (fst (fst loaded)))
               /\ same_but_handles command (snd (fst (fst loaded)))).
  { subst loaded. destruct (0 <? length (cmd_handles command))%nat; cbn [fst snd].
    - apply load_handles_loop_load_step.
    - split; [apply load_step_refl|apply same_but_handles_refl]. }
  destruct Hl as [Hl Hsame].
  set (st1 := fst (fst (fst loaded))) in *.
  set (command1 := snd (fst (fst loaded))) in *.
  set (st2 := if (0 <? length (cmd_auths command1))%nat
              then fold_left (fun s auth => resource_manager_load_auth_callback broker s
                                              command1 auth) (cmd_auths command1) st1
              else st1).
  assert (Hl2 : load_step st1 st2).
  { subst st2. destruct (0 <? length (cmd_auths command1))%nat;
      [apply (load_auths_load_step command1)|apply load_step_refl]. }
  exists st2, command1, (snd (fst loaded)).
  split; [eapply load_step_trans; eauto|]. split; [exact Hsame|].
  f_equal. unfold access_broker_send_command.
  destruct Hsame as (Hc & _ & Ha & _).
  destruct (fst (ab_send_command broker (tpm st2) command1)); cbn [fst snd];
    rewrite ?Hc, ?Ha; reflexivity.
Qed.

End Forwarding.

Section Dispatching.

Context {TPM : Type}.
Variable broker : AccessBroker TPM.
Variable codes : ResMgrCodes.
Variable client_context : Connection -> TPM2_HANDLE -> list Z.

Abbreviation State := (ResourceManager TPM).
Abbreviation process :=
  (resource_manager_process_tpm2_command broker codes client_context).

(** Special processing never talks to the AccessBroker nor to the sink. *)
Lemma special_processing_frame (st : State) (command : Tpm2Command) :
  let st1 := fst (command_special_processing codes st command) in
  calls st1 = calls st /\ sink st1 = sink st /\ fatal st1 = fatal st /\ tpm st1 = tpm st.
Proof.
  unfold command_special_processing, resource_manager_flush_context,
    resource_manager_save_context, resource_manager_save_context_session,
    resource_manager_load_context, resource_manager_load_context_session.
  repeat match goal with
         | |- context [if ?b then _ else _] => destruct b
         | |- context [match ?o with Some _ => _ | None => _ end] => destruct o
         end; cbn; repeat split.
Qed.

Lemma create_context_mapping_frame (st : State) response slist :
  let res := resource_manager_create_context_mapping client_context st response slist in
  calls (fst res) = calls st /\ sink (fst res) = sink st /\ tpm (fst res) = tpm st
  /\ match snd res with
     | Some (response', _) => fatal (fst res) = fatal st /\ virtualised response response'
     | None => fatal (fst res) = true
     end.
Proof.
  unfold resource_manager_create_context_mapping, virtualised.
  destruct (negb (tpm2_response_has_handle response)); cbn [fst snd];
    [repeat split; left; reflexivity|].
  destruct (handle_type _ =? TPM2_HT_TRANSIENT).
  - unfold create_context_mapping_transient.
    destruct (fst (handle_map_next_vhandle _) =? 0); cbn [fst snd].
    + repeat split.
    + cbn. repeat split. right. eexists. reflexivity.
  - destruct (is_session_type _); cbn [fst snd];
      [|repeat split; left; reflexivity].
    unfold create_context_mapping_session.
    destruct (session_list_lookup_handle _ _); cbn; repeat split; left; reflexivity.
Qed.

Lemma flushsave_frame (st : State) (entry : nat) :
  let st' := resource_manager_flushsave_context broker st entry in
  sink st' = sink st /\ fatal st' = fatal st /\ sess st' = sess st
  /\ exists l, calls st' = calls st ++ l.
Proof.
  unfold resource_manager_flushsave_context.
  destruct (handle_type _ =? TPM2_HT_TRANSIENT).
  - destruct (fst (fst (ab_context_saveflush broker _ _ _)) =? TSS2_RC_SUCCESS);
      cbn; repeat split; eexists; reflexivity.
  - repeat split. exists []. symmetry. apply app_nil_r.
Qed.

Lemma post_process_frame (slist : list nat) (st : State) connection attrs :
  let st' := post_process_loaded_transients broker st slist connection attrs in
  sink st' = sink st /\ fatal st' = fatal st /\ sess st' = sess st
  /\ exists l, calls st' = calls st ++ l.
Proof.
  unfold post_process_loaded_transients. destruct (_ =? 0).
  - revert st. induction slist as [|e slist IH]; intros st; cbn [fold_left].
    + repeat split. exists []. symmetry. apply app_nil_r.
    + destruct (flushsave_frame st e) as (H1 & H2 & H3 & l1 & H4).
      destruct (IH (resource_manager_flushsave_context broker st e))
        as (H1' & H2' & H3' & l2 & H4').
      cbn zeta in *. repeat split; try congruence.
      exists (l1 ++ l2). rewrite H4', H4, app_assoc. reflexivity.
  - revert st. induction slist as [|e slist IH]; intros st; cbn [fold_left].
    + repeat split. exists []. symmetry. apply app_nil_r.
    + destruct (IH (remove_entry_from_handle_map connection st e))
        as (H1' & H2' & H3' & l2 & H4').
      unfold remove_entry_from_handle_map in *.
      destruct (handle_type _ =? TPM2_HT_TRANSIENT); cbn in *; repeat split; eauto.
Qed.

Lemma send_response_frame (st : State) command response slist :
  let st' := send_response broker st command response slist in
  sink st' = sink st ++ [response] /\ fatal st' = fatal st
  /\ exists l, calls st' = calls st ++ l.
Proof.
  unfold send_response, session_list_foreach.
  set (st1 := sink_enqueue st response).
  destruct (save_sessions_frame broker (session_entry_slist (session_list (sess st1))) st1)
    as (_ & Hs & Hf & k & Hc & _).
  set (st2 := fold_left _ _ st1) in *.
  destruct (post_process_frame slist st2 (cmd_connection command) (cmd_attributes command))
    as (Hs' & Hf' & _ & l & Hc').
  cbn zeta in *. rewrite Hs', Hf', Hc', Hs, Hf, Hc. repeat split.
  exists (k ++ l). rewrite app_assoc. reflexivity.
Qed.

(** A command that passes the quota check, that special processing does
    not answer and whose handle area can be read reaches the AccessBroker
    after the load calls, and the response that goes to the sink is the
    answer to it. *)
Lemma process_forwards_command (st st1 : State) (command : Tpm2Command) :
  resource_manager_quota_check codes st command = TSS2_RC_SUCCESS ->
  command_special_processing codes st command = (st1, None) ->
  handle_area_readable command ->
  let st' := process st command in
  exists (st2 : State) (command1 : Tpm2Command) (loads rest : list BrokerCall),
    same_but_handles command command1
    /\ calls st2 = calls st ++ loads /\ Forall load_call loads
    /\ calls st' = calls st2 ++ CallSendCommand command1 :: rest
    /\ ((exists response, sink st' = sink st ++ [response]
                          /\ virtualised (broker_answer broker (tpm st2) command1) response)
        \/ (sink st' = sink st /\ fatal st' = true)).
Proof.
  intros Hq Hsp Hr st'. subst st'.
  rewrite (process_forwarded broker codes client_context st st1 command Hq Hsp).
  pose proof (special_processing_frame st command) as Hfr.
  rewrite Hsp in Hfr. cbn [fst] in Hfr. destruct Hfr as (Hc1 & Hs1 & Hf1 & _).
  destruct (dispatch_to_tpm_forwards broker client_context st1 command Hr)
    as (st2 & command1 & slist & Hload & Hsame & Hd).
  destruct Hload as (Hs2 & Hf2 & loads & Hc2 & Hloads).
  exists st2, command1, loads.
  rewrite Hd. clear Hd.
  destruct (send_command_calls broker st2 command1) as (Hc3 & Hs3 & Hf3 & _).
  cbn zeta in Hc3, Hs3, Hf3.
  set (st3 := fst (fst (access_broker_send_command broker st2 command1))) in *.
  assert (Hans : broker_answer broker (tpm st2) command1
                 = match fst (ab_send_command broker (tpm st2) command1) with
                   | inl buffer => tpm2_response_new (cmd_connection command) buffer
                                     (cmd_attributes command)
                   | inr rc => tpm2_response_new_rc (cmd_connection command) rc
                   end).
  { unfold broker_answer. destruct Hsame as (-> & _ & -> & _). reflexivity. }
  rewrite <- Hans.
  destruct (create_context_mapping_frame st3 (broker_answer broker (tpm st2) command1) slist)
    as (Hc4 & Hs4 & _ & Hres).
  cbn zeta in Hc4, Hs4, Hres.
  set (res := resource_manager_create_context_mapping client_context st3 _ slist) in *.
  clearbody res. destruct res as [st4 [[response slist']|]]; cbn [fst snd] in *.
  - destruct Hres as [Hf4 Hv].
    destruct (send_response_frame st4 command response slist')
      as (Hs5 & Hf5 & l & Hc5).
    cbn zeta in *. exists l.
    split; [exact Hsame|]. split; [rewrite Hc2, Hc1; reflexivity|].
    split; [exact Hloads|]. split.
    + rewrite Hc5, Hc4, Hc3, <- app_assoc. reflexivity.
    + left. exists response. split; [|exact Hv].
      rewrite Hs5, Hs4, Hs3, Hs2, Hs1. reflexivity.
  - exists [].
    split; [exact Hsame|]. split; [rewrite Hc2, Hc1; reflexivity|].
    split; [exact Hloads|]. split.
    + rewrite Hc4, Hc3. reflexivity.
    + right. split; [|exact Hres]. rewrite Hs4, Hs3, Hs2, Hs1. reflexivity.
Qed.

(** A command whose handle area cannot be read, when it gets to the load
    of its handles: the daemon aborts, with no call on the AccessBroker and
    no response. *)
Lemma process_unreadable (st st1 : State) (command : Tpm2Command) :
  resource_manager_quota_check codes st command = TSS2_RC_SUCCESS ->
  command_special_processing codes st command = (st1, None) ->
  ~ handle_area_readable command ->
  process st command = g_error st1.
Proof.
  intros Hq Hsp Hr.
  rewrite (process_forwarded broker codes client_context st st1 command Hq Hsp).
  rewrite (dispatch_unreadable broker client_context st1 command Hr). reflexivity.
Qed.


End Dispatching.



(** ** FlushContext on a session *)

Section FlushSession.

Context {TPM : Type}.
Variable broker : AccessBroker TPM.
Variable codes : ResMgrCodes.
Variable client_context : Connection -> TPM2_HANDLE -> list Z.

Abbreviation State := (ResourceManager TPM).
Abbreviation process :=
  (resource_manager_process_tpm2_command broker codes client_context).

Lemma session_type_not_transient (h : TPM2_HANDLE) :
  is_session_type (handle_type h) = true ->
  (handle_type h =? TPM2_HT_TRANSIENT) = false.
Proof.
  unfold is_session_type. intros H. apply orb_true_iff in H.
  destruct H as [H|H]; apply Z.eqb_eq in H; rewrite H; reflexivity.
Qed.

Lemma remove_handle_gone (ss : SessionStore) (handle : TPM2_HANDLE) (r : nat) :
  let ss' := session_list_remove_handle ss handle in
  (In r (session_entry_slist (session_list ss'))
   <-> In r (session_entry_slist (session_list ss)) /\ se_handle (sessions ss r) <> handle)
  /\ (In r (abandoned_queue (session_list ss'))
      <-> In r (abandoned_queue (session_list ss)) /\ se_handle (sessions ss r) <> handle)
  /\ sessions ss' = sessions ss.
Proof.
  cbn. rewrite !filter_In, !negb_true_iff, !Z.eqb_neq. repeat split; tauto.
Qed.

(** C4 (amended): a FlushContext whose target handle is a session handle
    makes the resource manager drop every entry with that handle from both
    collections of the SessionList (the other entries stay) and answer
    nothing itself: the command, its handle area being readable, is then
    forwarded to the AccessBroker whatever the state of the session was,
    LOADED or saved, tracked or not. *)
Theorem flush_context_session_always_forwarded (st : State) (command : Tpm2Command)
  (handle : TPM2_HANDLE) :
  cmd_code command = TPM2_CC_FlushContext ->
  cmd_flush_handle command = (TSS2_RC_SUCCESS, handle) ->
  is_session_type (handle_type handle) = true ->
  handle_area_readable command ->
  let st1 := fst (command_special_processing codes st command) in
  let st' := process st command in
  snd (command_special_processing codes st command) = None
  /\ sess st1 = session_list_remove_handle (sess st) handle
  /\ (forall r,
        (In r (session_entry_slist (session_list (sess st1)))
         <-> In r (session_entry_slist (session_list (sess st)))
             /\ se_handle (sessions (sess st) r) <> handle)
        /\ (In r (abandoned_queue (session_list (sess st1)))
            <-> In r (abandoned_queue (session_list (sess st)))
                /\ se_handle (sessions (sess st) r) <> handle))
  /\ exists (command1 : Tpm2Command) (loads rest : list BrokerCall),
       same_but_handles command command1 /\ Forall load_call loads
       /\ calls st' = calls st ++ loads ++ CallSendCommand command1 :: rest.
Proof.
  intros Hcode Hflush Htype Hr st1 st'.
  assert (Hq : resource_manager_quota_check codes st command = TSS2_RC_SUCCESS)
    by (apply quota_check_other; rewrite Hcode; discriminate).
  assert (Hsp : command_special_processing codes st command
                = (with_sess st (session_list_remove_handle (sess st) handle), None)).
  { unfold command_special_processing, resource_manager_flush_context.
    rewrite Hcode, Hflush. cbn [fst snd].
    rewrite (session_type_not_transient handle Htype), Htype. reflexivity. }
  subst st1. rewrite Hsp. cbn [fst snd].
  split; [reflexivity|]. split; [reflexivity|]. split.
  - intros r. destruct (remove_handle_gone (sess st) handle r) as (H1 & H2 & _).
    split; assumption.
  - destruct (process_forwards_command broker codes client_context st _ command Hq Hsp Hr)
      as (st2 & command1 & loads & rest & Hsame & Hc2 & Hloads & Hc & _).
    exists command1, loads, rest.
    split; [exact Hsame|]. split; [exact Hloads|].
    subst st'. rewrite Hc, Hc2, <- app_assoc. reflexivity.
Qed.

End FlushSession.

(** A counterexample to C4 as stated: connection 1 flushes its session
    0x02000000, which the resource manager holds in state SAVED_RM, and the
    FlushContext command is sent to the AccessBroker all the same. *)
Lemma flush_context_saved_session_counterexample :
  let st := one_session_state in
  let command := flush_context_command 1 0x02000000 in
  let st' := example_run session_script st command in
  (exists r, session_list_lookup_handle (sess st) 0x02000000 = Some r
             /\ se_state (sessions (sess st) r) = SESSION_ENTRY_SAVED_RM)
  /\ calls st' = calls st ++ [CallSendCommand command]
  /\ ~ not_forwarded st st' command.
Proof.
  cbn zeta. split; [exists 0%nat; split; reflexivity|].
  assert (Hc : calls (example_run session_script one_session_state
                        (flush_context_command 1 0x02000000))
               = calls one_session_state
                 ++ [CallSendCommand (flush_context_command 1 0x02000000)])
    by reflexivity.
  split; [exact Hc|].
  intros (l & Hl & _ & Hnot & _). rewrite Hc in Hl.
  apply app_inv_head in Hl. subst l. apply Hnot. left. reflexivity.
Qed.

(** An instance of the amended C4, on the same input. *)
Lemma flush_context_session_always_forwarded_witness :
  let st := one_session_state in
  let command := flush_context_command 1 0x02000000 in
  let st1 := fst (command_special_processing example_codes st command) in
  let st' := example_run session_script st command in
  snd (command_special_processing example_codes st command) = None
  /\ sess st1 = session_list_remove_handle (sess st) 0x02000000
  /\ (forall r,
        (In r (session_entry_slist (session_list (sess st1)))
         <-> In r (session_entry_slist (session_list (sess st)))
             /\ se_handle (sessions (sess st) r) <> 0x02000000)
        /\ (In r (abandoned_queue (session_list (sess st1)))
            <-> In r (abandoned_queue (session_list (sess st)))
                /\ se_handle (sessions (sess st) r) <> 0x02000000))
  /\ exists (command1 : Tpm2Command) (loads rest : list BrokerCall),
       same_but_handles command command1 /\ Forall load_call loads
       /\ calls st' = calls st ++ loads ++ CallSendCommand command1 :: rest.
Proof.
  apply (flush_context_session_always_forwarded (mock_broker session_script)
           example_codes example_client_context one_session_state
           (flush_context_command 1 0x02000000) 0x02000000).
  - reflexivity.
  - reflexivity.
  - reflexivity.
  - vm_compute. lia.
Defined.

(** ** Sessions that are not loaded survive the save between commands *)

Section SessionsKept.

Context {TPM : Type}.
Variable broker : AccessBroker TPM.

Abbreviation State := (ResourceManager TPM).

Lemma session_kept_refl (r : nat) (st : State) : session_kept r st st.
Proof. unfold session_kept. repeat split; auto. Qed.

Lemma session_kept_trans (r : nat) (a b c : State) :
  session_kept r a b -> session_kept r b c -> session_kept r a c.
Proof.
  unfold session_kept. intros (H1 & H2 & H3 & H4 & H5) (H1' & H2' & H3' & H4' & H5').
  split; [congruence|]. split; [intros x; rewrite H2'; apply H2|].
  split; [rewrite H3'; exact H3|]. split; [|congruence].
  intros h H. apply H4', H4. exact H.
Qed.

Lemma find_filter_other (p : nat -> bool) (l : list nat) (r e : nat) :
  e <> r -> List.find p l = Some r ->
  List.find p (List.filter (fun r' => negb (r' =? e)%nat) l) = Some r.
Proof.
  intros Hne. induction l as [|x l IH]; cbn [List.find List.filter]; [discriminate|].
  destruct (p x) eqn:Hpx.
  - intros [= ->]. apply Nat.eqb_neq in Hne. rewrite Nat.eqb_sym in Hne.
    rewrite Hne. cbn [negb List.find]. rewrite Hpx. reflexivity.
  - intros H. destruct (negb (x =? e)%nat); cbn [List.find]; [rewrite Hpx|]; auto.
Qed.

Lemma find_ext_in (p q : nat -> bool) (l : list nat) :
  (forall x, p x = q x) -> List.find p l = List.find q l.
Proof.
  intros H. induction l as [|x l IH]; cbn [List.find]; [reflexivity|].
  rewrite H, IH. reflexivity.
Qed.

Lemma remove_session_kept (r e : nat) (st : State) :
  e <> r -> session_kept r st (with_sess st (session_list_remove (sess st) e)).
Proof.
  intros Hne. unfold session_kept, session_list_lookup_handle. cbn.
  repeat split; auto.
  - rewrite filter_In. tauto.
  - intros H. apply filter_In. split; [exact H|].
    apply negb_true_iff, Nat.eqb_neq. congruence.
  - intros h H. apply find_filter_other; assumption.
Qed.

Lemma set_session_kept (r e : nat) (st : State) (entry : SessionEntry) :
  e <> r -> se_handle entry = se_handle (sessions (sess st) e) ->
  session_kept r st (set_session st e entry).
Proof.
  intros Hne Hh. unfold session_kept, session_list_lookup_handle. cbn.
  assert (Hall : forall x, se_handle ((<[e:=entry]> (sessions (sess st))) x)
                           = se_handle (sessions (sess st) x)).
  { intros x. destruct (decide (e = x)) as [->|Hx].
    - rewrite fn_lookup_insert. exact Hh.
    - rewrite fn_lookup_insert_ne by exact Hx. reflexivity. }
  repeat split; auto.
  - apply fn_lookup_insert_ne. exact Hne.
  - intros h H. rewrite <- H. apply find_ext_in. intros x. rewrite Hall. reflexivity.
Qed.

Lemma with_broker_kept (r : nat) (st : State) t call :
  session_kept r st (with_broker st t call).
Proof. unfold session_kept. repeat split; auto. Qed.

Lemma save_session_kept (r e : nat) (st : State) :
  se_state (sessions (sess st) r) <> SESSION_ENTRY_LOADED ->
  session_kept r st (resource_manager_save_session_context broker st e).
Proof.
  intros Hr. unfold resource_manager_save_session_context.
  destruct (bool_decide (se_state (get_session st e) = SESSION_ENTRY_LOADED)) eqn:He;
    cbn [negb]; [|apply session_kept_refl].
  apply bool_decide_eq_true in He.
  assert (Hne : e <> r) by (intros ->; contradiction).
  unfold access_broker_send_command.
  set (cmd := tpm2_command_new_context_save _).
  destruct (fst (ab_send_command broker (tpm st) cmd)) as [buf|rc]; cbn [fst snd].
  - change (negb (TSS2_RC_SUCCESS =? TSS2_RC_SUCCESS)) with false. cbv iota.
    set (st1 := with_broker st _ _).
    apply (session_kept_trans r st st1); [apply with_broker_kept|].
    set (st2 := set_session st1 e _).
    apply (session_kept_trans r st1 st2);
      [apply set_session_kept; [exact Hne|reflexivity]|].
    apply set_session_kept; [exact Hne|]. reflexivity.
  - assert (Herr : forall s : State,
               session_kept r s
                 (with_sess
                    (with_broker s (snd (ab_context_flush broker (tpm s)
                                           (se_handle (get_session s e))))
                       (CallContextFlush (se_handle (get_session s e))))
                    (session_list_remove
                       (sess (with_broker s (snd (ab_context_flush broker (tpm s)
                                                    (se_handle (get_session s e))))
                                (CallContextFlush (se_handle (get_session s e))))) e))).
    { intros s. eapply session_kept_trans; [apply with_broker_kept|].
      apply remove_session_kept. exact Hne. }
    set (st1 := with_broker st _ _).
    destruct (negb (rc =? TSS2_RC_SUCCESS));
      (apply (session_kept_trans r st st1); [apply with_broker_kept|]); apply Herr.
Qed.

Lemma save_sessions_kept (r : nat) (l : list nat) (st : State) :
  se_state (sessions (sess st) r) <> SESSION_ENTRY_LOADED ->
  session_kept r st (fold_left (resource_manager_save_session_context broker) l st).
Proof.
  revert st. induction l as [|e l IH]; intros st Hr; cbn [fold_left].
  - apply session_kept_refl.
  - pose proof (save_session_kept r e st Hr) as H1.
    eapply session_kept_trans; [exact H1|]. apply IH.
    destruct H1 as (-> & _). exact Hr.
Qed.

(** After the label send_response, a session that is not loaded is as it
    was, and the response is in the sink. *)
Lemma send_response_kept (r : nat) (st : State) command response :
  se_state (sessions (sess st) r) <> SESSION_ENTRY_LOADED ->
  session_kept r st (send_response broker st command response []).
Proof.
  intros Hr. unfold send_response, session_list_foreach.
  set (st1 := sink_enqueue st response).
  pose proof (save_sessions_kept r (session_entry_slist (session_list (sess st1))) st1 Hr)
    as H1.
  set (st2 := fold_left _ _ st1) in *.
  destruct (post_process_frame broker [] st2 (cmd_connection command) (cmd_attributes command))
    as (_ & _ & Hsess & _).
  cbn zeta in Hsess. unfold session_kept in *. rewrite Hsess. exact H1.
Qed.

End SessionsKept.

(** ** ContextSave on a session *)

Section ContextSaveSession.

Context {TPM : Type}.
Variable broker : AccessBroker TPM.
Variable codes : ResMgrCodes.
Variable client_context : Connection -> TPM2_HANDLE -> list Z.

Abbreviation State := (ResourceManager TPM).
Abbreviation process :=
  (resource_manager_process_tpm2_command broker codes client_context).

Lemma context_save_response_code (c : Connection) (entry : SessionEntry) :
  tpm2_response_get_code (tpm2_response_new_context_save c entry) = TSS2_RC_SUCCESS.
Proof. reflexivity. Qed.

(** One ContextSave by the owner, whatever the state of the session. *)
Lemma context_save_session_once (st : State) (command : Tpm2Command) (r : nat) :
  cmd_code command = TPM2_CC_ContextSave ->
  is_session_type (handle_type (tpm2_command_get_handle command 0)) = true ->
  session_list_lookup_handle (sess st) (tpm2_command_get_handle command 0) = Some r ->
  se_connection (sessions (sess st) r) = cmd_connection command ->
  let st' := process st command in
  let saved := session_entry_set_state (sessions (sess st) r) SESSION_ENTRY_SAVED_CLIENT in
  sessions (sess st') r = saved
  /\ sink st' = sink st ++ [tpm2_response_new_context_save (cmd_connection command) saved]
  /\ session_list_lookup_handle (sess st') (tpm2_command_get_handle command 0) = Some r
  /\ exists l, calls st' = calls st ++ l /\ Forall housekeeping_call l.
Proof.
  intros Hcode Htype Hlook Hconn st' saved.
  assert (Hq : resource_manager_quota_check codes st command = TSS2_RC_SUCCESS)
    by (apply quota_check_other; rewrite Hcode; discriminate).
  set (st1 := set_session st r saved).
  assert (Hsp : command_special_processing codes st command
                = (st1, Some (tpm2_response_new_context_save (cmd_connection command) saved))).
  { unfold command_special_processing, resource_manager_save_context,
      resource_manager_save_context_session.
    rewrite Hcode. change (TPM2_CC_ContextSave =? TPM2_CC_FlushContext) with false.
    change (TPM2_CC_ContextSave =? TPM2_CC_ContextSave) with true. cbv iota.
    rewrite Htype, Hlook. unfold get_session at 1. rewrite Hconn, Nat.eqb_refl.
    cbn [negb]. unfold get_session. cbn. rewrite fn_lookup_insert. reflexivity. }
  subst st'. rewrite (process_special broker codes client_context st st1 command _ Hq Hsp).
  assert (Hst1 : sessions (sess st1) r = saved) by (cbn; apply fn_lookup_insert).
  assert (Hnl : se_state (sessions (sess st1) r) <> SESSION_ENTRY_LOADED)
    by (rewrite Hst1; discriminate).
  destruct (send_response_kept broker r st1 command
              (tpm2_response_new_context_save (cmd_connection command) saved) Hnl)
    as (Hobj & _ & _ & Hfind & _).
  destruct (send_response_nil broker st1 command
              (tpm2_response_new_context_save (cmd_connection command) saved))
    as (_ & Hs & _ & l & Hc & Hl & _).
  cbn zeta in *. split; [congruence|]. split; [exact Hs|]. split.
  - apply Hfind. unfold session_list_lookup_handle in *. cbn.
    rewrite <- Hlook. apply find_ext_in. intros x.
    destruct (decide (r = x)) as [->|Hx].
    + rewrite fn_lookup_insert. reflexivity.
    + rewrite fn_lookup_insert_ne by exact Hx. reflexivity.
  - exists l. split; [exact Hc|exact Hl].
Qed.

(** C10: a ContextSave on a session handle whose session is tracked and
    owned by the calling connection sets the session to SAVED_CLIENT and
    is answered with the synthesised ContextSave response (a success
    response carrying the client context of the entry), whatever the state
    of the session was: there is no hypothesis on it.  The session is then
    still found under its handle, so a second ContextSave by the owner is
    answered the same way and leaves the state SAVED_CLIENT. *)
Theorem context_save_session_ignores_state (st : State) (command : Tpm2Command) (r : nat) :
  cmd_code command = TPM2_CC_ContextSave ->
  is_session_type (handle_type (tpm2_command_get_handle command 0)) = true ->
  session_list_lookup_handle (sess st) (tpm2_command_get_handle command 0) = Some r ->
  se_connection (sessions (sess st) r) = cmd_connection command ->
  let st' := process st command in
  let st'' := process st' command in
  let saved := session_entry_set_state (sessions (sess st) r) SESSION_ENTRY_SAVED_CLIENT in
  let response := tpm2_response_new_context_save (cmd_connection command) saved in
  se_state saved = SESSION_ENTRY_SAVED_CLIENT
  /\ tpm2_response_get_code response = TSS2_RC_SUCCESS
  /\ sessions (sess st') r = saved
  /\ sink st' = sink st ++ [response]
  /\ (exists l, calls st' = calls st ++ l /\ Forall housekeeping_call l)
  /\ sessions (sess st'') r = saved
  /\ sink st'' = sink st' ++ [response]
  /\ (exists l, calls st'' = calls st' ++ l /\ Forall housekeeping_call l).
Proof.
  intros Hcode Htype Hlook Hconn st' st'' saved response.
  destruct (context_save_session_once st command r Hcode Htype Hlook Hconn)
    as (Hobj & Hs & Hfind & Hc).
  fold st' saved response in Hobj, Hs, Hfind, Hc.
  assert (Hconn' : se_connection (sessions (sess st') r) = cmd_connection command)
    by (rewrite Hobj; exact Hconn).
  destruct (context_save_session_once st' command r Hcode Htype Hfind Hconn')
    as (Hobj' & Hs' & _ & Hc').
  fold st'' in Hobj', Hs', Hc'. rewrite Hobj in Hobj', Hs'.
  repeat split; assumption.
Qed.

End ContextSaveSession.

(** An instance of C10: connection 1 saves its session 0x02000000, held in
    state SAVED_RM, twice in a row. *)
Lemma context_save_session_ignores_state_witness :
  let command := context_save_command 1 0x02000000 in
  let st := one_session_state in
  let st' := example_run session_script st command in
  let st'' := example_run session_script st' command in
  let saved := session_entry_set_state (sessions (sess st) 0%nat) SESSION_ENTRY_SAVED_CLIENT in
  let response := tpm2_response_new_context_save 1 saved in
  se_state saved = SESSION_ENTRY_SAVED_CLIENT
  /\ tpm2_response_get_code response = TSS2_RC_SUCCESS
  /\ sessions (sess st') 0%nat = saved
  /\ sink st' = sink st ++ [response]
  /\ (exists l, calls st' = calls st ++ l /\ Forall housekeeping_call l)
  /\ sessions (sess st'') 0%nat = saved
  /\ sink st'' = sink st' ++ [response]
  /\ (exists l, calls st'' = calls st' ++ l /\ Forall housekeeping_call l).
Proof.
  apply (context_save_session_ignores_state (mock_broker session_script) example_codes
           example_client_context one_session_state
           (context_save_command 1 0x02000000) 0%nat); reflexivity.
Defined.

(** ** Loading a session *)

Section SessionLoad.

Context {TPM : Type}.
Variable broker : AccessBroker TPM.

Abbreviation State := (ResourceManager TPM).

(** The outcomes of resource_manager_load_session_from_handle for the
    tracked session [r]: the request is refused, leaving the whole state as
    it was and calling nothing, when the session is owned by another
    connection or is not in state SAVED_RM.  Otherwise the saved context is
    sent to the AccessBroker in a ContextLoad command: when the command
    cannot be sent the session is removed from the SessionList and the
    error code is returned; when the AccessBroker hands back a response,
    whatever it says, the state of the session becomes LOADED, and the
    session is removed from the SessionList at once when will_flush is set
    (and stays when it is not). *)
Lemma load_session_from_handle_outcomes (st : State) (conn : Connection)
  (handle : TPM2_HANDLE) (will_flush : bool) (r : nat) :
  session_list_lookup_handle (sess st) handle = Some r ->
  let entry := sessions (sess st) r in
  let res := resource_manager_load_session_from_handle broker st conn handle will_flush in
  let st' := fst res in
  let command := tpm2_command_new_context_load (se_context entry) in
  let removed := List.filter (fun r' => negb (r' =? r)%nat)
                   (session_entry_slist (session_list (sess st))) in
  (se_connection entry <> conn \/ se_state entry <> SESSION_ENTRY_SAVED_RM ->
   res = (st, TSS2_RC_SUCCESS))
  /\ (se_connection entry = conn -> se_state entry = SESSION_ENTRY_SAVED_RM ->
      calls st' = calls st ++ [CallSendCommand command]
      /\ match fst (ab_send_command broker (tpm st) command) with
         | inr rc =>
             snd res = rc /\ rc <> TSS2_RC_SUCCESS
             /\ session_entry_slist (session_list (sess st')) = removed
             /\ ~ In r (session_entry_slist (session_list (sess st')))
             /\ sessions (sess st') = sessions (sess st)
         | inl _ =>
             snd res = TSS2_RC_SUCCESS
             /\ sessions (sess st') r = session_entry_set_state entry SESSION_ENTRY_LOADED
             /\ session_entry_slist (session_list (sess st'))
                = (if will_flush then removed
                   else session_entry_slist (session_list (sess st)))
             /\ (will_flush = true -> ~ In r (session_entry_slist (session_list (sess st'))))
         end).
Proof.
  intros Hlook entry res st' command removed.
  assert (Hnot : ~ In r removed).
  { unfold removed. rewrite filter_In, negb_true_iff, Nat.eqb_neq. tauto. }
  subst res st'. unfold resource_manager_load_session_from_handle.
  rewrite Hlook. unfold get_session. fold entry. split.
  - intros [Hc|Hs].
    + assert ((conn =? se_connection entry)%nat = false) as ->
        by (apply Nat.eqb_neq; congruence).
      reflexivity.
    + destruct (negb (conn =? se_connection entry)%nat); [reflexivity|].
      rewrite bool_decide_eq_false_2 by exact Hs. reflexivity.
  - intros Hc Hs. rewrite Hc, Nat.eqb_refl, bool_decide_eq_true_2 by exact Hs.
    cbn [negb]. fold command. unfold access_broker_send_command.
    destruct (ab_send_command broker (tpm st) command) as [[buf|rc] t] eqn:Hsend;
      cbn [fst snd].
    + change (negb (TSS2_RC_SUCCESS =? TSS2_RC_SUCCESS)) with false. cbv iota.
      destruct will_flush; cbn; rewrite fn_lookup_insert;
        repeat split; auto; discriminate.
    + pose proof (ab_send_failure broker _ _ _ _ Hsend) as Hrc.
      assert ((rc =? TSS2_RC_SUCCESS) = false) as -> by (apply Z.eqb_neq; exact Hrc).
      cbn. repeat split; auto.
Qed.

(** C8 (the code departs from the claim): resource_manager_load_session_from_handle
    tests the code access_broker_send_command returns, which tells whether
    the command could be sent, and never reads the response code of the
    answer of the TPM.  When the TPM answers the ContextLoad of the saved
    context with an error, so that the load has failed, the function
    returns success all the same, sets the state of the session to LOADED
    and, will_flush not being set, keeps the session in the SessionList:
    the session is not removed and no error is surfaced. *)
Theorem load_session_tpm_error_taken_for_success (st : State) (conn : Connection)
  (handle : TPM2_HANDLE) (will_flush : bool) (r : nat) (buffer : list Z) :
  session_list_lookup_handle (sess st) handle = Some r ->
  let entry := sessions (sess st) r in
  let command := tpm2_command_new_context_load (se_context entry) in
  let res := resource_manager_load_session_from_handle broker st conn handle will_flush in
  let st' := fst res in
  se_connection entry = conn ->
  se_state entry = SESSION_ENTRY_SAVED_RM ->
  In r (session_entry_slist (session_list (sess st))) ->
  fst (ab_send_command broker (tpm st) command) = inl buffer ->
  tpm2_response_get_code (tpm2_response_new NULL_connection buffer
                            (cmd_attributes command)) <> TSS2_RC_SUCCESS ->
  snd res = TSS2_RC_SUCCESS
  /\ calls st' = calls st ++ [CallSendCommand command]
  /\ sessions (sess st') r = session_entry_set_state entry SESSION_ENTRY_LOADED
  /\ (forall r', r' <> r -> sessions (sess st') r' = sessions (sess st) r')
  /\ (will_flush = false ->
      session_entry_slist (session_list (sess st'))
      = session_entry_slist (session_list (sess st))
      /\ In r (session_entry_slist (session_list (sess st')))).
Proof.
  intros Hlook entry command res st' Hc Hs Hin Hsend _.
  subst res st'. unfold resource_manager_load_session_from_handle.
  rewrite Hlook. unfold get_session. fold entry.
  rewrite Hc, Nat.eqb_refl, bool_decide_eq_true_2 by exact Hs.
  cbn [negb]. fold command. unfold access_broker_send_command.
  rewrite Hsend. cbn [fst snd].
  change (negb (TSS2_RC_SUCCESS =? TSS2_RC_SUCCESS)) with false. cbv iota.
  destruct will_flush; cbn; rewrite fn_lookup_insert;
    (split; [reflexivity|]); (split; [reflexivity|]); (split; [reflexivity|]);
    (split; [intros r' Hr'; apply fn_lookup_insert_ne; intro E; apply Hr'; symmetry; exact E|]);
    intros Hw; [discriminate|]. 
  split; [reflexivity|exact Hin].
Qed.

End SessionLoad.

(** An instance of C8: connection 1 uses its session 0x02000000, saved by
    the resource manager, and the TPM rejects the ContextLoad with the
    response code 0x1DF. *)
Lemma load_session_tpm_error_taken_for_success_witness :
  let st := one_session_state in
  let entry := sessions (sess st) 0%nat in
  let command := tpm2_command_new_context_load (se_context entry) in
  let buffer := response_header TPM2_ST_NO_SESSIONS TPM_HEADER_SIZE 0x1DF in
  let res := resource_manager_load_session_from_handle (mock_broker rejecting_script)
               st 1 0x02000000 false in
  let st' := fst res in
  tpm2_response_get_code (tpm2_response_new NULL_connection buffer
                            (cmd_attributes command)) = 0x1DF
  /\ snd res = TSS2_RC_SUCCESS
  /\ calls st' = calls st ++ [CallSendCommand command]
  /\ sessions (sess st') 0%nat = session_entry_set_state entry SESSION_ENTRY_LOADED
  /\ (forall r', r' <> 0%nat -> sessions (sess st') r' = sessions (sess st) r')
  /\ (false = false ->
      session_entry_slist (session_list (sess st'))
      = session_entry_slist (session_list (sess st))
      /\ In 0%nat (session_entry_slist (session_list (sess st')))).
Proof.
  split; [reflexivity|].
  apply (load_session_tpm_error_taken_for_success (mock_broker rejecting_script)
           one_session_state 1 0x02000000 false 0
           (response_header TPM2_ST_NO_SESSIONS TPM_HEADER_SIZE 0x1DF)).
  - reflexivity.
  - reflexivity.
  - reflexivity.
  - left. reflexivity.
  - reflexivity.
  - vm_compute. discriminate.
Defined.

(** ** ContextLoad of a session *)

Section ContextLoadSession.

Context {TPM : Type}.
Variable broker : AccessBroker TPM.
Variable codes : ResMgrCodes.
Variable client_context : Connection -> TPM2_HANDLE -> list Z.

Abbreviation State := (ResourceManager TPM).
Abbreviation process :=
  (resource_manager_process_tpm2_command broker codes client_context).

Lemma claim_succeeds_iff (ss : SessionStore) (r : nat) (c : Connection) :
  fst (session_list_claim ss r c) = true <-> In r (abandoned_queue (session_list ss)).
Proof.
  unfold session_list_claim.
  destruct (existsb _ _) eqn:He; cbn [fst].
  - apply existsb_exists in He. destruct He as (x & Hx & Heq).
    apply Nat.eqb_eq in Heq. subst x. tauto.
  - split; [discriminate|]. intros Hin.
    assert (existsb (fun r' => (r' =? r)%nat) (abandoned_queue (session_list ss)) = true)
      by (apply existsb_exists; exists r; split; [exact Hin|apply Nat.eqb_refl]).
    congruence.
Qed.

Lemma context_load_response (c : Connection) (entry : SessionEntry) :
  tpm2_response_get_code (tpm2_response_new_context_load c entry) = TSS2_RC_SUCCESS
  /\ tpm2_response_has_handle (tpm2_response_new_context_load c entry) = true
  /\ (0 <= se_handle entry < 2 ^ 32 ->
      tpm2_response_get_handle (tpm2_response_new_context_load c entry) = se_handle entry).
Proof.
  split; [reflexivity|]. split; [reflexivity|].
  intros H. unfold tpm2_response_get_handle, tpm2_response_new_context_load,
    tpm2_response_new, response_header. cbn [resp_buffer].
  change (drop 10 ((be16 TPM2_ST_NO_SESSIONS ++ be32 (TPM_HEADER_SIZE + 4)
                    ++ be32 TSS2_RC_SUCCESS) ++ be32 (se_handle entry)))
    with (be32 (se_handle entry)).
  rewrite <- (app_nil_r (be32 (se_handle entry))). apply be32_decode_be32. exact H.
Qed.

(** C5 (amended): a ContextLoad whose context bytes match a tracked
    session owned by another connection makes the resource manager try to
    claim the entry from the abandoned queue.  When the entry is in the
    queue the claim succeeds: the entry leaves the queue for the active
    list, its owner becomes the caller, its state becomes SAVED_RM, and the
    caller is answered with a synthesised success response carrying the
    session handle, the AccessBroker seeing nothing but housekeeping.  When
    the entry is not in the queue the claim fails: nothing is synthesised,
    the state is left as it was and the command, its handle area being
    readable, is forwarded to the AccessBroker like a command that is not
    virtualised. *)
Theorem context_load_foreign_session (st : State) (command : Tpm2Command) (r : nat) :
  cmd_code command = TPM2_CC_ContextLoad ->
  is_session_type (handle_type (snd (cmd_context_unmarshal command))) = true ->
  session_list_lookup_context_client (sess st) (cmd_body command) = Some r ->
  se_connection (sessions (sess st) r) <> cmd_connection command ->
  let c := cmd_connection command in
  let st' := process st command in
  let claimed := session_entry_set_state
                   (session_entry_set_connection (sessions (sess st) r) c)
                   SESSION_ENTRY_SAVED_RM in
  let response := tpm2_response_new_context_load c claimed in
  (In r (abandoned_queue (session_list (sess st))) ->
   fst (session_list_claim (sess st) r c) = true
   /\ sessions (sess st') r = claimed
   /\ se_connection claimed = c /\ se_state claimed = SESSION_ENTRY_SAVED_RM
   /\ ~ In r (abandoned_queue (session_list (sess st')))
   /\ In r (session_entry_slist (session_list (sess st')))
   /\ sink st' = sink st ++ [response]
   /\ tpm2_response_get_code response = TSS2_RC_SUCCESS
   /\ (0 <= se_handle (sessions (sess st) r) < 2 ^ 32 ->
       tpm2_response_get_handle response = se_handle (sessions (sess st) r))
   /\ exists l, calls st' = calls st ++ l /\ Forall housekeeping_call l)
  /\ (~ In r (abandoned_queue (session_list (sess st))) ->
      fst (session_list_claim (sess st) r c) = false
      /\ command_special_processing codes st command = (st, None)
      /\ (handle_area_readable command ->
          exists (command1 : Tpm2Command) (loads rest : list BrokerCall),
            same_but_handles command command1 /\ Forall load_call loads
            /\ calls st' = calls st ++ loads ++ CallSendCommand command1 :: rest)).
Proof.
  intros Hcode Htype Hlook Hconn c st' claimed response.
  assert (Hq : resource_manager_quota_check codes st command = TSS2_RC_SUCCESS)
    by (apply quota_check_other; rewrite Hcode; discriminate).
  assert (Hne : (c =? se_connection (get_session st r))%nat = false)
    by (apply Nat.eqb_neq; unfold get_session, c; congruence).
  assert (Hsp : command_special_processing codes st command
                = if negb (fst (session_list_claim (sess st) r c)) then (st, None)
                  else (set_session (with_sess st (snd (session_list_claim (sess st) r c)))
                          r (session_entry_set_state
                               (get_session
                                  (with_sess st (snd (session_list_claim (sess st) r c))) r)
                               SESSION_ENTRY_SAVED_RM),
                        Some (tpm2_response_new_context_load c
                                (get_session
                                   (set_session
                                      (with_sess st (snd (session_list_claim (sess st) r c)))
                                      r (session_entry_set_state
                                           (get_session
                                              (with_sess st
                                                 (snd (session_list_claim (sess st) r c))) r)
                                           SESSION_ENTRY_SAVED_RM)) r)))).
  { unfold command_special_processing, resource_manager_load_context,
      resource_manager_load_context_session.
    rewrite Hcode. change (TPM2_CC_ContextLoad =? TPM2_CC_FlushContext) with false.
    change (TPM2_CC_ContextLoad =? TPM2_CC_ContextSave) with false.
    change (TPM2_CC_ContextLoad =? TPM2_CC_ContextLoad) with true. cbv iota.
    rewrite Htype, Hlook. fold c. rewrite Hne. cbn [negb]. reflexivity. }
  split.
  - intros Hin.
    pose proof (proj2 (claim_succeeds_iff (sess st) r c) Hin) as Hclaim.
    rewrite Hclaim in Hsp. cbn [negb] in Hsp.
    assert (Hex : existsb (fun r' => (r' =? r)%nat) (abandoned_queue (session_list (sess st)))
                  = true).
    { apply existsb_exists. exists r. split; [exact Hin|apply Nat.eqb_refl]. }
    set (st2 := set_session _ r _) in Hsp.
    assert (Hobj : get_session st2 r = claimed).
    { subst st2. unfold get_session, session_list_claim. rewrite Hex. cbn.
      rewrite !fn_lookup_insert. reflexivity. }
    rewrite Hobj in Hsp. fold response in Hsp.
    subst st'. rewrite (process_special broker codes client_context st st2 command _ Hq Hsp).
    assert (Hnl : se_state (sessions (sess st2) r) <> SESSION_ENTRY_LOADED).
    { change (sessions (sess st2) r) with (get_session st2 r). rewrite Hobj. discriminate. }
    destruct (send_response_kept broker r st2 command response Hnl)
      as (Hkeep & _ & Hact & _ & Haband).
    destruct (send_response_nil broker st2 command response)
      as (_ & Hs & _ & l & Hc & Hl & _).
    cbn zeta in Hs, Hc.
    destruct (context_load_response c claimed) as (Hrc & _ & Hh).
    split; [exact Hclaim|]. split; [rewrite Hkeep; exact Hobj|].
    split; [reflexivity|]. split; [reflexivity|]. split.
    { rewrite Haband. subst st2. unfold session_list_claim. rewrite Hex. cbn.
      rewrite filter_In, negb_true_iff, Nat.eqb_neq. tauto. }
    split.
    { apply Hact. subst st2. unfold session_list_claim. rewrite Hex. cbn. left. reflexivity. }
    split; [exact Hs|]. split; [exact Hrc|]. split; [exact Hh|].
    exists l. split; [exact Hc|exact Hl].
  - intros Hnin.
    assert (Hclaim : fst (session_list_claim (sess st) r c) = false).
    { destruct (fst (session_list_claim (sess st) r c)) eqn:E; [|reflexivity].
      apply claim_succeeds_iff in E. contradiction. }
    rewrite Hclaim in Hsp. cbn [negb] in Hsp.
    split; [exact Hclaim|]. split; [exact Hsp|]. intros Hr.
    destruct (process_forwards_command broker codes client_context st st command Hq Hsp Hr)
      as (st2 & command1 & loads & rest & Hsame & Hc2 & Hloads & Hc & _).
    exists command1, loads, rest.
    split; [exact Hsame|]. split; [exact Hloads|].
    subst st'. rewrite Hc, Hc2, <- app_assoc. reflexivity.
Qed.

End ContextLoadSession.

(** A counterexample to C5 as stated: connection 2 presents the context
    of session 0x02000000, which connection 1 saved and still owns.  The
    claim fails, and instead of an access-denied response the resource
    manager synthesises nothing: the ContextLoad goes to the AccessBroker
    and the caller receives the answer of the TPM. *)
Lemma context_load_claim_failure_counterexample :
  let st := saved_client_state in
  let command := context_load_command 2 (example_client_context 1 0x02000000) in
  let st' := example_run rejecting_script st command in
  session_list_lookup_context_client (sess st) (cmd_body command) = Some 0%nat
  /\ se_connection (sessions (sess st) 0%nat) <> cmd_connection command
  /\ fst (session_list_claim (sess st) 0%nat (cmd_connection command)) = false
  /\ snd (command_special_processing example_codes st command) = None
  /\ calls st' = calls st ++ [CallSendCommand command]
  /\ sink st' = sink st ++
       [broker_answer (mock_broker rejecting_script) (tpm st) command]
  /\ ~ not_forwarded st st' command.
Proof.
  cbn zeta.
  assert (Hc : calls (example_run rejecting_script saved_client_state
                        (context_load_command 2 (example_client_context 1 0x02000000)))
               = calls saved_client_state
                 ++ [CallSendCommand
                       (context_load_command 2 (example_client_context 1 0x02000000))])
    by reflexivity.
  split; [reflexivity|]. split; [discriminate|]. split; [reflexivity|].
  split; [reflexivity|]. split; [exact Hc|]. split; [reflexivity|].
  intros (l & Hl & _ & Hnot & _). rewrite Hc in Hl.
  apply app_inv_head in Hl. subst l. apply Hnot. left. reflexivity.
Qed.

(** An instance of the amended C5: connection 2 presents the context of
    session 0x02000000, abandoned by connection 1, and claims it. *)
Lemma context_load_foreign_session_witness :
  let st := abandoned_session_state in
  let command := context_load_command 2 (example_client_context 1 0x02000000) in
  let st' := example_run rejecting_script st command in
  let claimed := session_entry_set_state
                   (session_entry_set_connection (sessions (sess st) 0%nat) 2)
                   SESSION_ENTRY_SAVED_RM in
  let response := tpm2_response_new_context_load 2 claimed in
  (In 0%nat (abandoned_queue (session_list (sess st))) ->
   fst (session_list_claim (sess st) 0%nat 2) = true
   /\ sessions (sess st') 0%nat = claimed
   /\ se_connection claimed = 2%nat /\ se_state claimed = SESSION_ENTRY_SAVED_RM
   /\ ~ In 0%nat (abandoned_queue (session_list (sess st')))
   /\ In 0%nat (session_entry_slist (session_list (sess st')))
   /\ sink st' = sink st ++ [response]
   /\ tpm2_response_get_code response = TSS2_RC_SUCCESS
   /\ (0 <= se_handle (sessions (sess st) 0%nat) < 2 ^ 32 ->
       tpm2_response_get_handle response = se_handle (sessions (sess st) 0%nat))
   /\ exists l, calls st' = calls st ++ l /\ Forall housekeeping_call l)
  /\ (~ In 0%nat (abandoned_queue (session_list (sess st))) ->
      fst (session_list_claim (sess st) 0%nat 2) = false
      /\ command_special_processing example_codes st command = (st, None)
      /\ (handle_area_readable command ->
          exists (command1 : Tpm2Command) (loads rest : list BrokerCall),
            same_but_handles command command1 /\ Forall load_call loads
            /\ calls st' = calls st ++ loads ++ CallSendCommand command1 :: rest)).
Proof.
  apply (context_load_foreign_session (mock_broker rejecting_script) example_codes
           example_client_context abandoned_session_state
           (context_load_command 2 (example_client_context 1 0x02000000)) 0%nat).
  - reflexivity.
  - reflexivity.
  - reflexivity.
  - discriminate.
Defined.

(** The special processing of ContextLoad never synthesises an error: its
    only response is the success response of a recognised session, whatever
    the unmarshalling of the body returned. *)
Lemma load_context_never_answers_error {TPM} (st : ResourceManager TPM)
  (command : Tpm2Command) :
  match snd (resource_manager_load_context st command) with
  | Some response => tpm2_response_get_code response = TSS2_RC_SUCCESS
  | None => True
  end.
Proof.
  unfold resource_manager_load_context, resource_manager_load_context_session.
  destruct (is_session_type _); cbn [snd]; [|exact I].
  destruct (session_list_lookup_context_client _ _); cbn [snd]; [|exact I].
  destruct (negb (fst _)); cbn [snd]; [exact I|reflexivity].
Qed.

(** C6 (the code departs from the claim): a ContextLoad command that is
    only a header cannot be unmarshalled as a TPMS_CONTEXT, yet whatever
    value the uninitialised savedHandle holds, the resource manager
    synthesises no parameter error: special processing answers nothing and
    the command is forwarded to the AccessBroker, whose answer goes to the
    client. *)
Theorem context_load_parse_failure_is_forwarded (garbage : Z) :
  let st := initial_state 3 4 in
  let command := truncated_context_load 1 garbage in
  let st' := example_run rejecting_script st command in
  fst (cmd_context_unmarshal command) <> TSS2_RC_SUCCESS
  /\ command_special_processing example_codes st command = (st, None)
  /\ calls st' = [CallSendCommand command]
  /\ sink st' = [broker_answer (mock_broker rejecting_script) tt command].
Proof.
  cbn zeta. split; [discriminate|].
  assert (Hsp : command_special_processing example_codes (initial_state 3 4)
                  (truncated_context_load 1 garbage) = (initial_state 3 4, None)).
  { unfold command_special_processing, resource_manager_load_context,
      resource_manager_load_context_session.
    cbn [cmd_code truncated_context_load cmd_context_unmarshal snd].
    change (TPM2_CC_ContextLoad =? TPM2_CC_FlushContext) with false.
    change (TPM2_CC_ContextLoad =? TPM2_CC_ContextSave) with false.
    change (TPM2_CC_ContextLoad =? TPM2_CC_ContextLoad) with true. cbv iota.
    destruct (is_session_type (handle_type garbage)); reflexivity. }
  split; [exact Hsp|].
  unfold example_run, resource_manager_process_tpm2_command.
  rewrite Hsp. split; reflexivity.
Qed.

(** ** GetCapability (HANDLES) on the transient range *)

Lemma handle_compare_lt (a b : Z) : (handle_compare a b <? 0) = (a <? b).
Proof.
  unfold handle_compare. destruct (a <? b); [reflexivity|].
  destruct (a >? b); reflexivity.
Qed.

Lemma insert_sorted_perm (x : Z) (l : list Z) :
  Permutation (g_list_insert_sorted handle_compare x l) (x :: l).
Proof.
  induction l as [|y l IH]; cbn [g_list_insert_sorted]; [reflexivity|].
  destruct (handle_compare x y <? 0); [reflexivity|].
  rewrite IH. apply perm_swap.
Qed.

Lemma g_list_sort_perm (l : list Z) : Permutation (g_list_sort l handle_compare) l.
Proof.
  induction l as [|x l IH]; cbn; [reflexivity|].
  rewrite insert_sorted_perm. rewrite IH. reflexivity.
Qed.

Lemma insert_sorted_sorted (x : Z) (l : list Z) :
  StronglySorted Z.le l -> StronglySorted Z.le (g_list_insert_sorted handle_compare x l).
Proof.
  induction 1 as [|y l Hs IH Hall]; cbn [g_list_insert_sorted].
  - repeat constructor.
  - rewrite handle_compare_lt. destruct (Z.ltb_spec x y).
    + constructor; [constructor; assumption|].
      constructor; [lia|]. eapply List.Forall_impl; [|exact Hall]. intros; lia.
    + constructor; [exact IH|].
      eapply Permutation_Forall; [symmetry; apply insert_sorted_perm|].
      constructor; [lia|exact Hall].
Qed.

Lemma g_list_sort_sorted (l : list Z) : StronglySorted Z.le (g_list_sort l handle_compare).
Proof.
  induction l as [|x l IH]; cbn; [constructor|]. apply insert_sorted_sorted, IH.
Qed.

Lemma sorted_nodup_strict (l : list Z) :
  StronglySorted Z.le l -> NoDup l -> StronglySorted Z.lt l.
Proof.
  induction 1 as [|x l Hs IH Hall]; intros Hnd; [constructor|].
  inversion Hnd as [|? ? Hnin Hnd']; subst.
  constructor; [apply IH, Hnd'|].
  rewrite List.Forall_forall in *. intros y Hy.
  assert (x <> y) by (intros ->; apply Hnin, list_elem_of_In, Hy).
  specialize (Hall y Hy). lia.
Qed.

Lemma filter_strongly_sorted (q : Z -> bool) (l : list Z) :
  StronglySorted Z.lt l -> StronglySorted Z.lt (List.filter q l).
Proof.
  induction 1 as [|x l Hs IH Hall]; cbn [List.filter]; [constructor|].
  destruct (q x); [|exact IH].
  constructor; [exact IH|].
  rewrite List.Forall_forall in *. intros y Hy. apply filter_In in Hy. apply Hall, Hy.
Qed.

Lemma keys_spec (m : HandleMap) (v : Z) :
  In v (handle_map_get_keys m) <-> is_Some (vhandle_to_entry m !! v).
Proof.
  unfold handle_map_get_keys. rewrite <- list_elem_of_In, list_elem_of_fmap. split.
  - intros ([k r] & -> & Hin). apply elem_of_map_to_list in Hin. cbn. eauto.
  - intros [r Hr]. exists (v, r). split; [reflexivity|]. apply elem_of_map_to_list, Hr.
Qed.

Lemma sorted_keys_spec (m : HandleMap) :
  let sorted := g_list_sort (handle_map_get_keys m) handle_compare in
  StronglySorted Z.lt sorted
  /\ forall v, In v sorted <-> is_Some (vhandle_to_entry m !! v).
Proof.
  cbn zeta. split.
  - apply sorted_nodup_strict; [apply g_list_sort_sorted|].
    rewrite g_list_sort_perm. apply NoDup_fst_map_to_list.
  - intros v. rewrite <- keys_spec. split; apply Permutation_in;
      [|symmetry]; apply g_list_sort_perm.
Qed.

Lemma iterate_spec (n : nat) (prop : Z) (l : list Z) :
  forall (acc : list Z) (m : bool), (length acc <= n)%nat ->
  fold_left vhandle_iterator_callback l (iterator (Z.of_nat n) prop acc m)
  = iterator (Z.of_nat n) prop
      (acc ++ take (n - length acc) (List.filter (at_least prop) l))
      (m || (n - length acc <? length (List.filter (at_least prop) l))%nat).
Proof.
  induction l as [|v l IH]; intros acc m Hacc; cbn [fold_left List.filter].
  - rewrite take_nil, app_nil_r. cbn [length]. rewrite orb_false_r. reflexivity.
  - unfold vhandle_iterator_callback at 2. cbn [start_handle iterator cap_data max_count handles more_data capability].
    unfold handles_count. cbn [handles].
    destruct (Z.ltb_spec v prop) as [Hlt|Hge].
    + assert (at_least prop v = false) as -> by (unfold at_least; lia). apply IH, Hacc.
    + assert (at_least prop v = true) as -> by (unfold at_least; lia).
      unfold TPM2_HANDLE in *.
      destruct (negb (_ <? _)) eqn:E.
      * apply negb_true_iff, Z.ltb_ge in E.
        fold (iterator (Z.of_nat n) prop acc true).
        rewrite IH by exact Hacc.
        replace (n - length acc)%nat with 0%nat by lia. cbn [take orb length].
        rewrite orb_true_r. reflexivity.
      * apply negb_false_iff, Z.ltb_lt in E.
        fold (iterator (Z.of_nat n) prop (acc ++ [v]) m).
        rewrite IH by (rewrite length_app; cbn; lia).
        rewrite length_app. cbn [length].
        replace (n - length acc)%nat with (S (n - (length acc + 1)))%nat by lia.
        cbn [take]. rewrite <- app_assoc. cbn [app]. reflexivity.
Qed.

Section GetCapability.

Context {TPM : Type}.
Variable broker : AccessBroker TPM.
Variable codes : ResMgrCodes.
Variable client_context : Connection -> TPM2_HANDLE -> list Z.

Abbreviation State := (ResourceManager TPM).
Abbreviation process :=
  (resource_manager_process_tpm2_command broker codes client_context).

(** What get_cap_handles collects: the first [count] of the qualifying
    vhandles in ascending order, and whether there were more. *)
Lemma get_cap_handles_spec (map : HandleMap) (prop : TPM2_HANDLE) (count : nat) :
  let qualifying :=
    List.filter (at_least prop) (g_list_sort (handle_map_get_keys map) handle_compare) in
  get_cap_handles map prop (Z.of_nat count)
  = ((count <? length qualifying)%nat,
     {| capability := TPM2_CAP_HANDLES; handles := take count qualifying |}).
Proof.
  cbn zeta. unfold get_cap_handles. cbv zeta.
  pose proof (iterate_spec count prop
                (g_list_sort (handle_map_get_keys map) handle_compare) [] false) as H.
  unfold iterator in H at 1. unfold TPM2_HANDLE in *. rewrite H by (cbn; lia).
  cbn [length app orb iterator more_data cap_data]. rewrite Nat.sub_0_r. reflexivity.
Qed.

Lemma dropped_iff_more (count : nat) (qualifying : list Z) :
  StronglySorted Z.lt qualifying ->
  ((count <? length qualifying)%nat = true
   <-> exists v, In v qualifying /\ ~ In v (take count qualifying)).
Proof.
  intros Hs. split.
  - intros Hlt. apply Nat.ltb_lt in Hlt.
    destruct (drop count qualifying) as [|v rest] eqn:Hd.
    { apply (f_equal (@length Z)) in Hd. rewrite length_drop in Hd. cbn in Hd. lia. }
    exists v. rewrite <- (take_drop count qualifying) in Hs |- * at 1.
    rewrite Hd in *. split; [apply in_or_app; right; left; reflexivity|].
    intros Hin. clear Hd Hlt.
    induction (take count qualifying) as [|x t IH]; [exact Hin|].
    cbn [app] in Hs. inversion Hs as [|? ? Hs' Hall]; subst.
    destruct Hin as [->|Hin]; [|exact (IH Hs' Hin)].
    rewrite List.Forall_forall in Hall.
    assert (Hv : In v (t ++ v :: rest)) by (apply in_or_app; right; left; reflexivity).
    specialize (Hall v Hv). lia.
  - intros (v & Hin & Hnin). apply Nat.ltb_lt.
    destruct (Nat.lt_ge_cases count (length qualifying)) as [H|H]; [exact H|].
    rewrite take_ge in Hnin by exact H. contradiction.
Qed.

(** C7: a GetCapability with capability HANDLES and a property in the
    transient range is answered by the resource manager itself.  With
    [qualifying] the vhandles of the HandleMap of the caller that are
    numerically at least prop, in strictly ascending order, the response is
    the GetCapability(HANDLES) wire format of the first prop_count of them,
    and its moreData byte is 1 exactly when a qualifying vhandle was left
    out because of the count.  The command does not reach the
    AccessBroker and the transient objects are untouched. *)
Theorem get_capability_transient_handles (st : State) (command : Tpm2Command) :
  cmd_code command = TPM2_CC_GetCapability ->
  cmd_cap command = TPM2_CAP_HANDLES ->
  handle_type (cmd_prop command) = TPM2_HT_TRANSIENT ->
  0 <= cmd_prop_count command ->
  let c := cmd_connection command in
  let count := Z.to_nat (cmd_prop_count command) in
  let st' := process st command in
  exists qualifying : list TPM2_HANDLE,
    (forall v, In v qualifying
               <-> is_Some (handle_table st c !! v) /\ cmd_prop command <= v)
    /\ StronglySorted Z.lt qualifying
    /\ let reported := take count qualifying in
       let more := (count <? length qualifying)%nat in
       (more = true <-> exists v, In v qualifying /\ ~ In v reported)
       /\ sink st' = sink st ++
            [tpm2_response_new c (cap_handles_wire more reported)
               (cmd_attributes command)]
       /\ not_forwarded st st' command
       /\ transients st' = transients st.
Proof.
  intros Hcode Hcap Htype Hcount c count st'.
  set (map := connection_get_trans_map st c).
  set (qualifying := List.filter (at_least (cmd_prop command))
                       (g_list_sort (handle_map_get_keys map) handle_compare)).
  destruct (sorted_keys_spec map) as [Hsorted Hkeys].
  assert (Hqs : StronglySorted Z.lt qualifying)
    by (apply filter_strongly_sorted, Hsorted).
  exists qualifying. split; [|split; [exact Hqs|]].
  { intros v. unfold qualifying. rewrite filter_In, Hkeys. unfold at_least.
    rewrite Z.leb_le. reflexivity. }
  cbn zeta. split; [apply dropped_iff_more, Hqs|].
  assert (Hq : resource_manager_quota_check codes st command = TSS2_RC_SUCCESS)
    by (apply quota_check_other; rewrite Hcode; discriminate).
  assert (Hsp : command_special_processing codes st command
                = (st, Some (tpm2_response_new c
                               (cap_handles_wire (count <? length qualifying)%nat
                                  (take count qualifying))
                               (cmd_attributes command)))).
  { unfold command_special_processing, get_cap_handles_response.
    rewrite Hcode, Hcap, Htype.
    change (TPM2_CC_GetCapability =? TPM2_CC_FlushContext) with false.
    change (TPM2_CC_GetCapability =? TPM2_CC_ContextSave) with false.
    change (TPM2_CC_GetCapability =? TPM2_CC_ContextLoad) with false.
    change (TPM2_CC_GetCapability =? TPM2_CC_GetCapability) with true.
    change ((TPM2_CAP_HANDLES =? TPM2_CAP_HANDLES)
            && (TPM2_HT_TRANSIENT =? TPM2_HT_TRANSIENT)) with true.
    cbv iota. fold c map.
    rewrite <- (Z2Nat.id (cmd_prop_count command)) by exact Hcount. fold count.
    rewrite get_cap_handles_spec. fold qualifying. reflexivity. }
  subst st'. rewrite (process_special broker codes client_context st st command _ Hq Hsp).
  destruct (send_response_nil broker st command
              (tpm2_response_new c
                 (cap_handles_wire (count <? length qualifying)%nat
                    (take count qualifying)) (cmd_attributes command)))
    as (Ht & Hs & _ & l & Hc & Hl & Hnl).
  cbn zeta in Ht, Hs, Hc. split; [exact Hs|]. split; [|exact Ht].
  exists l. split; [exact Hc|]. split; [exact Hl|]. split.
  - intros Hin. rewrite List.Forall_forall in Hl. apply Hl in Hin.
    destruct Hin as [Hin _]. rewrite Hcode in Hin. discriminate.
  - intros Hno. apply Hnl. exact Hno.
Qed.

End GetCapability.

(** An instance of C7: connection 1, which holds the vhandles 0x80000001,
    0x80000002 and 0x80000003, asks for one handle from 0x80000002 on. *)
Lemma get_capability_transient_handles_witness :
  let st := three_objects_state in
  let command := get_capability_command 1 TPM2_CAP_HANDLES 0x80000002 1 in
  let st' := example_run obliging_script st command in
  exists qualifying : list TPM2_HANDLE,
    (forall v, In v qualifying
               <-> is_Some (handle_table st 1 !! v) /\ cmd_prop command <= v)
    /\ StronglySorted Z.lt qualifying
    /\ let reported := take (Z.to_nat (cmd_prop_count command)) qualifying in
       let more := (Z.to_nat (cmd_prop_count command) <? length qualifying)%nat in
       (more = true <-> exists v, In v qualifying /\ ~ In v reported)
       /\ sink st' = sink st ++
            [tpm2_response_new 1 (cap_handles_wire more reported)
               (cmd_attributes command)]
       /\ not_forwarded st st' command
       /\ transients st' = transients st.
Proof.
  apply (get_capability_transient_handles (mock_broker obliging_script) example_codes
           example_client_context three_objects_state
           (get_capability_command 1 TPM2_CAP_HANDLES 0x80000002 1)).
  - reflexivity.
  - reflexivity.
  - reflexivity.
  - vm_compute. discriminate.
Defined.

(** The bytes of that response: moreData = 1, capability 1, one handle,
    0x80000002. *)
Example get_capability_response_bytes :
  last (sink (example_run obliging_script three_objects_state
                (get_capability_command 1 TPM2_CAP_HANDLES 0x80000002 1)))
  = Some (tpm2_response_new 1
            [0x80; 0x01; 0; 0; 0; 23; 0; 0; 0; 0; 1; 0; 0; 0; 1; 0; 0; 0; 1;
             0x80; 0; 0; 2]
            TPM2_CC_GetCapability).
Proof. vm_compute. reflexivity. Qed.

(** ** Transient objects are flushed between commands *)

Lemma slots_shrunk_refl (ts : TransientStore) : slots_shrunk ts ts.
Proof. unfold slots_shrunk. auto. Qed.

Lemma slots_shrunk_keeps (ts ts' : TransientStore) :
  slots_shrunk ts ts' -> handle_maps_wf ts -> all_flushed ts ->
  handle_maps_wf ts' /\ all_flushed ts'.
Proof.
  intros (He & Hn & Hs) [Hwa Hwb] Hf. unfold handle_maps_wf, all_flushed.
  rewrite He, Hn. repeat split.
  - apply (Hwa c v r), Hs, H.
  - apply (Hwa c v r), Hs, H.
  - intros c1 c2 v1 v2 r H1 H2. apply (Hwb c1 c2 v1 v2 r); apply Hs; assumption.
  - intros c v r H. apply (Hf c v r), Hs, H.
Qed.

Lemma transient_vhandle_type (n : nat) :
  Z.of_nat n < TPM2_HR_RANGE_MASK ->
  handle_type (TPM2_HR_TRANSIENT + Z.of_nat n) = TPM2_HT_TRANSIENT.
Proof.
  unfold handle_type, TPM2_HR_RANGE_MASK, TPM2_HR_TRANSIENT, TPM2_HR_SHIFT, TPM2_HT_TRANSIENT.
  intros H. rewrite Z.shiftr_div_pow2 by lia.
  change 0x80000000 with (128 * 2 ^ 24). rewrite Z.div_add_l by lia.
  rewrite Z.div_small by lia. reflexivity.
Qed.

Section Quiescence.

Context {TPM : Type}.
Variable broker : AccessBroker TPM.
Variable codes : ResMgrCodes.
Variable client_context : Connection -> TPM2_HANDLE -> list Z.

Abbreviation State := (ResourceManager TPM).
Abbreviation process :=
  (resource_manager_process_tpm2_command broker codes client_context).

(* The TPM loads transient objects at transient handles. *)
Hypothesis Hload : loads_at_transient_handles broker.

Lemma special_processing_shrinks (st : State) (command : Tpm2Command) :
  slots_shrunk (transients st)
    (transients (fst (command_special_processing codes st command))).
Proof.
  unfold command_special_processing, resource_manager_flush_context,
    resource_manager_save_context, resource_manager_save_context_session,
    resource_manager_load_context, resource_manager_load_context_session.
  repeat match goal with
         | |- context [if ?b then _ else _] => destruct b
         | |- context [match ?o with Some _ => _ | None => _ end] => destruct o
         end; cbn [fst]; try apply slots_shrunk_refl.
  unfold slots_shrunk, slot. cbn. repeat split. intros c v r.
  destruct (decide (cmd_connection command = c)) as [<-|Hc].
  - rewrite fn_lookup_insert. cbn. rewrite lookup_delete_Some. tauto.
  - rewrite fn_lookup_insert_ne by exact Hc. tauto.
Qed.

Lemma loaded_in_weaken (ts : TransientStore) (slist slist' : list nat) conn :
  (forall r, In r slist -> In r slist') -> loaded_in ts slist conn ->
  loaded_in ts slist' conn.
Proof.
  intros Hsub H c v r Hs Hp. destruct (H c v r Hs Hp) as (H1 & H2 & H3 & H4). auto.
Qed.

Lemma virt_to_phys_phase (st : State) command slist conn handle entry n :
  handle_maps_wf (transients st) -> loaded_in (transients st) slist conn ->
  slot (transients st) conn handle entry -> handle_type handle = TPM2_HT_TRANSIENT ->
  let res := resource_manager_virt_to_phys broker st command entry n in
  handle_maps_wf (transients (fst (fst res)))
  /\ loaded_in (transients (fst (fst res)))
       (if negb (snd res =? TSS2_RC_SUCCESS) then slist else entry :: slist) conn.
Proof.
  intros [Hwa Hwb] Hl Hslot Htype. unfold resource_manager_virt_to_phys.
  pose proof (Hload (tpm st) (hme_context (get_entry st entry))) as Hph.
  set (ld := ab_context_load broker (tpm st) (hme_context (get_entry st entry))) in *.
  destruct (Z.eqb_spec (fst (fst ld)) TSS2_RC_SUCCESS) as [Hrc|Hrc]; cbn [fst snd];
    [|rewrite (proj2 (Z.eqb_neq _ _) Hrc); cbn [negb]; split; [split|]; assumption].
  rewrite Hrc. change (negb (TSS2_RC_SUCCESS =? TSS2_RC_SUCCESS)) with false. cbv iota.
  specialize (Hph Hrc).
  assert (Hent : forall r, r <> entry ->
            entries (transients (set_entry (with_broker st (snd ld)
                       (CallContextLoad (hme_context (get_entry st entry)))) entry
                       (handle_map_entry_set_phandle
                          (get_entry (with_broker st (snd ld)
                             (CallContextLoad (hme_context (get_entry st entry)))) entry)
                          (snd (fst ld))))) r
            = entries (transients st) r).
  { intros r Hr. cbn. apply fn_lookup_insert_ne. congruence. }
  assert (Hnew : entries (transients (set_entry (with_broker st (snd ld)
                       (CallContextLoad (hme_context (get_entry st entry)))) entry
                       (handle_map_entry_set_phandle
                          (get_entry (with_broker st (snd ld)
                             (CallContextLoad (hme_context (get_entry st entry)))) entry)
                          (snd (fst ld))))) entry
                 = handle_map_entry_set_phandle (entries (transients st) entry)
                     (snd (fst ld))).
  { cbn. apply fn_lookup_insert. }
  set (st' := set_entry _ entry _) in *.
  assert (Hslots : forall c v r, slot (transients st') c v r <-> slot (transients st) c v r)
    by (intros; reflexivity).
  split; [split|].
  - intros c v r Hs. apply Hslots in Hs. destruct (Hwa c v r Hs) as [Hv Hr].
    split; [|exact Hr].
    destruct (decide (r = entry)) as [->|Hne]; [rewrite Hnew; exact Hv|].
    rewrite Hent by exact Hne. exact Hv.
  - intros c1 c2 v1 v2 r H1 H2. apply (Hwb c1 c2 v1 v2 r); assumption.
  - intros c v r Hs Hp. apply Hslots in Hs.
    destruct (decide (r = entry)) as [->|Hne].
    + rewrite Hnew. cbn [hme_phandle handle_map_entry_set_phandle].
      split; [left; reflexivity|]. split; [exact Hph|].
      split; [exact (Hwb c conn v handle entry Hs Hslot)|].
      destruct (Hwa c v entry Hs) as [<- _]. destruct (Hwa conn handle entry Hslot) as [-> _].
      exact Htype.
    + rewrite Hent in Hp |- * by exact Hne.
      destruct (Hl c v r Hs Hp) as (H1 & H2 & H3 & H4).
      repeat split; auto. right. exact H1.
Qed.


Lemma load_transient_phase (st : State) command slist conn handle n :
  handle_maps_wf (transients st) -> loaded_in (transients st) slist conn ->
  cmd_connection command = conn -> handle_type handle = TPM2_HT_TRANSIENT ->
  let res := resource_manager_load_transient broker st command slist handle n in
  handle_maps_wf (transients (fst (fst (fst res))))
  /\ loaded_in (transients (fst (fst (fst res)))) (snd (fst res)) conn.
Proof.
  intros Hw Hl Hconn Htype. unfold resource_manager_load_transient.
  unfold handle_map_vlookup, connection_get_trans_map. rewrite Hconn.
  destruct (vhandle_to_entry (trans_maps (transients st) conn) !! handle)
    as [entry|] eqn:Hslot; cbn [fst snd]; [|split; assumption].
  pose proof (virt_to_phys_phase st command slist conn handle entry n Hw Hl Hslot Htype)
    as H. cbn zeta in H.
  destruct (negb (snd (resource_manager_virt_to_phys broker st command entry n)
                  =? TSS2_RC_SUCCESS)); cbn [fst snd]; exact H.
Qed.

Lemma load_handles_loop_phase (hs : list TPM2_HANDLE) (i : nat) (st : State)
  command slist rc conn :
  handle_maps_wf (transients st) -> loaded_in (transients st) slist conn ->
  cmd_connection command = conn ->
  let res := load_handles_loop broker hs i (st, command, slist, rc) in
  handle_maps_wf (transients (fst (fst (fst res))))
  /\ loaded_in (transients (fst (fst (fst res)))) (snd (fst res)) conn.
Proof.
  revert i st command slist rc.
  induction hs as [|h hs IH]; intros i st command slist rc Hw Hl Hconn;
    cbn [load_handles_loop fst snd]; [split; assumption|].
  destruct (Z.eqb_spec (handle_type h) TPM2_HT_TRANSIENT) as [Ht|Ht].
  - destruct (load_transient_phase st command slist conn h i Hw Hl Hconn Ht) as [Hw1 Hl1].
    destruct (load_transient_load_step broker st command slist h i) as (_ & Hsame & _).
    cbn zeta in Hw1, Hl1, Hsame.
    destruct (resource_manager_load_transient broker st command slist h i)
      as [[[st1 command1] slist1] rc1]. cbn [fst snd] in *.
    apply IH; try assumption. destruct Hsame as (-> & _). exact Hconn.
  - destruct (is_session_type (handle_type h)).
    + destruct (load_session_load_step broker st (cmd_connection command) h false)
        as [_ Htr]. cbn zeta in Htr.
      apply IH; cbn [fst snd]; try assumption; rewrite Htr; assumption.
    + apply IH; assumption.
Qed.

Lemma create_context_mapping_phase (st : State) response slist conn :
  handle_maps_wf (transients st) -> loaded_in (transients st) slist conn ->
  resp_connection response = conn ->
  let res := resource_manager_create_context_mapping client_context st response slist in
  match snd res with
  | Some (_, slist') =>
      handle_maps_wf (transients (fst res))
      /\ loaded_in (transients (fst res)) slist' conn
  | None => fatal (fst res) = true
  end.
Proof.
  intros [Hwa Hwb] Hl Hconn. unfold resource_manager_create_context_mapping.
  destruct (negb (tpm2_response_has_handle response)); cbn [fst snd];
    [split; [split|]; assumption|].
  destruct (Z.eqb_spec (handle_type (tpm2_response_get_handle response)) TPM2_HT_TRANSIENT)
    as [Htype|Htype].
  2:{ destruct (is_session_type _); cbn [fst snd]; [|split; [split|]; assumption].
      unfold create_context_mapping_session.
      destruct (session_list_lookup_handle _ _); cbn; (split; [split|]; assumption). }
  unfold create_context_mapping_transient, handle_map_next_vhandle, connection_get_trans_map.
  rewrite Hconn.
  set (map := trans_maps (transients st) conn).
  destruct (Z.leb_spec TPM2_HR_RANGE_MASK (Z.of_nat (handle_count map))) as [Hfull|Hroom];
    cbn [fst snd]; [reflexivity|].
  set (vhandle := TPM2_HR_TRANSIENT + Z.of_nat (handle_count map)).
  assert (Hvt : handle_type vhandle = TPM2_HT_TRANSIENT)
    by (apply transient_vhandle_type; exact Hroom).
  assert (Hv0 : (vhandle =? 0) = false).
  { apply Z.eqb_neq. unfold vhandle, TPM2_HR_TRANSIENT. lia. }
  rewrite Hv0. cbn [fst snd].
  set (rn := next_entry (transients st)).
  set (stf := set_trans_map _ conn _).
  assert (Hslots : forall c v r, slot (transients stf) c v r ->
            (c = conn /\ v = vhandle /\ r = rn) \/ (r <> rn /\ slot (transients st) c v r)).
  { intros c v r. unfold slot, stf. cbn.
    destruct (decide (conn = c)) as [<-|Hc].
    - rewrite fn_lookup_insert. cbn. rewrite fn_lookup_insert. cbn.
      destruct (decide (vhandle = v)) as [<-|Hv].
      + rewrite lookup_insert_eq. intros [= <-]. left. auto.
      + rewrite lookup_insert_ne by exact Hv. intros H. right.
        split; [|exact H]. destruct (Hwa conn v r H) as [_ Hlt]. fold rn in Hlt. lia.
    - rewrite fn_lookup_insert_ne by exact Hc. rewrite fn_lookup_insert_ne by exact Hc.
      intros H. right. split; [|exact H].
      destruct (Hwa c v r H) as [_ Hlt]. fold rn in Hlt. lia. }
  assert (Hnew : entries (transients stf) rn
                 = handle_map_entry_new (tpm2_response_get_handle response) vhandle)
    by (cbn; apply fn_lookup_insert).
  assert (Hold : forall r, r <> rn -> entries (transients stf) r = entries (transients st) r)
    by (intros r Hr; cbn; apply fn_lookup_insert_ne; intro E; apply Hr; rewrite <- E;
        reflexivity).
  assert (Hnext : next_entry (transients stf) = S rn) by reflexivity.
  split; [split|].
  - intros c v r Hs. destruct (Hslots c v r Hs) as [(-> & -> & ->)|[Hr Hs']].
    + rewrite Hnew, Hnext. cbn. split; [reflexivity|lia].
    + rewrite Hold, Hnext by exact Hr. destruct (Hwa c v r Hs'). split; [assumption|lia].
  - intros c1 c2 v1 v2 r H1 H2.
    destruct (Hslots c1 v1 r H1) as [(-> & _ & Hr1)|[Hr1 Hs1]];
      destruct (Hslots c2 v2 r H2) as [(-> & _ & Hr2)|[Hr2 Hs2]];
      try reflexivity; try contradiction.
    apply (Hwb c1 c2 v1 v2 r); assumption.
  - intros c v r Hs Hp. destruct (Hslots c v r Hs) as [(-> & -> & ->)|[Hr Hs']].
    + rewrite Hnew. cbn. split; [left; reflexivity|]. auto.
    + rewrite Hold in Hp |- * by exact Hr.
      destruct (Hl c v r Hs' Hp) as (H1 & H2 & H3 & H4).
      repeat split; auto. right. right. exact H1.
Qed.


Lemma all_flushed_loaded_in (ts : TransientStore) (conn : Connection) :
  all_flushed ts -> loaded_in ts [] conn.
Proof. intros Hf c v r Hs Hp. rewrite (Hf c v r Hs) in Hp. contradiction. Qed.

Lemma dispatch_phase (st : State) (command : Tpm2Command) :
  handle_maps_wf (transients st) -> all_flushed (transients st) ->
  let res := dispatch_to_tpm broker client_context st command in
  match snd res with
  | Some (_, slist) =>
      handle_maps_wf (transients (fst res))
      /\ loaded_in (transients (fst res)) slist (cmd_connection command)
  | None => fatal (fst res) = true
  end.
Proof.
  intros Hw Hf. unfold dispatch_to_tpm. rewrite load_phase.
  destruct (length (cmd_handles command) <=? TPM2_COMMAND_MAX_HANDLES)%nat;
    [|reflexivity].
  set (conn := cmd_connection command).
  set (loaded := if (0 <? length (cmd_handles command))%nat
                 then load_handles_loop broker (cmd_handles command) 0
                        (st, command, [], TSS2_RC_SUCCESS)
                 else (st, command, [], TSS2_RC_SUCCESS)).
  assert (Hl : handle_maps_wf (transients (fst (fst (fst loaded))))
               /\ loaded_in (transients (fst (fst (fst loaded)))) (snd (fst loaded)) conn
               /\ cmd_connection (snd (fst (fst loaded))) = conn).
  { subst loaded. destruct (0 <? length (cmd_handles command))%nat; cbn [fst snd].
    - destruct (load_handles_loop_phase (cmd_handles command) 0 st command []
                  TSS2_RC_SUCCESS conn Hw (all_flushed_loaded_in _ conn Hf) eq_refl)
        as [H1 H2].
      destruct (load_handles_loop_load_step broker (cmd_handles command) 0 st command []
                  TSS2_RC_SUCCESS) as [_ (Hc & _)].
      split; [exact H1|]. split; [exact H2|exact Hc].
    - split; [exact Hw|]. split; [apply all_flushed_loaded_in, Hf|reflexivity]. }
  destruct Hl as (Hw1 & Hl1 & Hc1).
  set (st1 := fst (fst (fst loaded))) in *.
  set (command1 := snd (fst (fst loaded))) in *.
  set (st2 := if (0 <? length (cmd_auths command1))%nat
              then fold_left (fun s auth => resource_manager_load_auth_callback broker s
                                              command1 auth) (cmd_auths command1) st1
              else st1).
  assert (Ht2 : transients st2 = transients st1).
  { subst st2. destruct (0 <? length (cmd_auths command1))%nat; [|reflexivity].
    apply (load_auths_load_step broker command1). }
  destruct (send_command_calls broker st2 command1) as (_ & _ & _ & Ht3 & _).
  cbn zeta in Ht3.
  apply create_context_mapping_phase.
  - rewrite Ht3, Ht2. exact Hw1.
  - rewrite Ht3, Ht2. exact Hl1.
  - unfold access_broker_send_command.
    destruct (fst (ab_send_command broker (tpm st2) command1)); cbn; [exact Hc1|reflexivity].
Qed.

(* From here on: every context_saveflush the resource manager asks for
   succeeds. *)
Hypothesis Hsaveflush : saveflush_succeeds broker.

Lemma flushsave_step (st : State) (e : nat) :
  let st' := resource_manager_flushsave_context broker st e in
  trans_maps (transients st') = trans_maps (transients st)
  /\ next_entry (transients st') = next_entry (transients st)
  /\ (forall r, hme_vhandle (entries (transients st') r)
                = hme_vhandle (entries (transients st) r))
  /\ (forall r, r <> e -> hme_phandle (entries (transients st') r)
                          = hme_phandle (entries (transients st) r))
  /\ hme_phandle (entries (transients st') e)
     = if handle_type (hme_phandle (entries (transients st) e)) =? TPM2_HT_TRANSIENT
       then 0 else hme_phandle (entries (transients st) e).
Proof.
  cbv zeta. unfold resource_manager_flushsave_context, get_entry.
  destruct (handle_type (hme_phandle (entries (transients st) e)) =? TPM2_HT_TRANSIENT);
    [|repeat split].
  cbv zeta. cbn [with_broker transients].
  rewrite !Hsaveflush.
  change (TSS2_RC_SUCCESS =? TSS2_RC_SUCCESS) with true. cbv iota. cbn.
  split; [reflexivity|]. split; [reflexivity|]. split; [|split].
  - intros r. destruct (decide (e = r)) as [<-|Hr].
    + rewrite !fn_lookup_insert. reflexivity.
    + rewrite !fn_lookup_insert_ne by exact Hr. reflexivity.
  - intros r Hr. rewrite !fn_lookup_insert_ne by congruence. reflexivity.
  - rewrite !fn_lookup_insert. reflexivity.
Qed.

Lemma flushsave_fold (l : list nat) (st : State) :
  let st' := fold_left (resource_manager_flushsave_context broker) l st in
  trans_maps (transients st') = trans_maps (transients st)
  /\ next_entry (transients st') = next_entry (transients st)
  /\ forall r, hme_vhandle (entries (transients st') r)
               = hme_vhandle (entries (transients st) r)
               /\ (hme_phandle (entries (transients st') r) = 0
                   \/ (hme_phandle (entries (transients st') r)
                       = hme_phandle (entries (transients st) r)
                       /\ (In r l -> handle_type (hme_phandle (entries (transients st) r))
                                     <> TPM2_HT_TRANSIENT))).
Proof.
  revert st. induction l as [|e l IH]; intros st; cbn [fold_left].
  - split; [reflexivity|]. split; [reflexivity|]. intros r. split; [reflexivity|].
    right. split; [reflexivity|]. intros [].
  - destruct (flushsave_step st e) as (Hm & Hn & Hv & Hother & He).
    destruct (IH (resource_manager_flushsave_context broker st e)) as (Hm' & Hn' & Hr').
    cbn zeta in *. split; [congruence|]. split; [congruence|].
    intros r. destruct (Hr' r) as [Hv' Hp']. split; [rewrite Hv'; apply Hv|].
    destruct Hp' as [Hp'|[Hp' Hin']]; [left; exact Hp'|].
    destruct (decide (r = e)) as [->|Hne].
    + rewrite He in Hp'.
      destruct (Z.eqb_spec (handle_type (hme_phandle (entries (transients st) e)))
                  TPM2_HT_TRANSIENT) as [Ht|Ht]; [left; exact Hp'|].
      right. split; [exact Hp'|]. intros _. exact Ht.
    + rewrite (Hother r Hne) in Hp', Hin'. right. split; [exact Hp'|].
      intros [->|Hin]; [contradiction|]. apply Hin', Hin.
Qed.

Lemma remove_fold (conn : Connection) (l : list nat) (st : State) :
  let st' := fold_left (remove_entry_from_handle_map conn) l st in
  slots_shrunk (transients st) (transients st')
  /\ forall e v r, In e l -> hme_vhandle (entries (transients st) e) = v ->
                   handle_type v = TPM2_HT_TRANSIENT ->
                   ~ slot (transients st') conn v r.
Proof.
  revert st. induction l as [|e l IH]; intros st; cbn [fold_left].
  - split; [apply slots_shrunk_refl|]. intros e v r [].
  - set (st1 := remove_entry_from_handle_map conn st e).
    assert (H1 : slots_shrunk (transients st) (transients st1)
                 /\ (handle_type (hme_vhandle (entries (transients st) e))
                      = TPM2_HT_TRANSIENT ->
                     forall r, ~ slot (transients st1) conn
                                   (hme_vhandle (entries (transients st) e)) r)).
    { subst st1. unfold remove_entry_from_handle_map, get_entry.
      destruct (Z.eqb_spec (handle_type (hme_vhandle (entries (transients st) e)))
                  TPM2_HT_TRANSIENT) as [Ht|Ht];
        [|split; [apply slots_shrunk_refl|contradiction]].
      unfold slots_shrunk, slot. cbn. split; [split; [reflexivity|split; [reflexivity|]]|].
      - intros c v r. destruct (decide (conn = c)) as [<-|Hc].
        + rewrite fn_lookup_insert. cbn. rewrite lookup_delete_Some. tauto.
        + rewrite fn_lookup_insert_ne by exact Hc. tauto.
      - intros _ r. rewrite fn_lookup_insert. cbn. rewrite lookup_delete_eq. discriminate. }
    destruct H1 as [(He1 & Hn1 & Hs1) Hgone].
    destruct (IH st1) as [(He & Hn & Hs) Hrest]. cbn zeta in *.
    split.
    + split; [congruence|]. split; [congruence|]. intros c v r H. apply Hs1, Hs, H.
    + intros e' v r [<-|Hin] Hv Ht Hslot.
      * subst v. apply (Hgone Ht r). apply Hs, Hslot.
      * apply (Hrest e' v r Hin); [rewrite He1; exact Hv|exact Ht|exact Hslot].
Qed.

Lemma post_process_flushes (st : State) slist (command : Tpm2Command) :
  handle_maps_wf (transients st) ->
  loaded_in (transients st) slist (cmd_connection command) ->
  let st' := post_process_loaded_transients broker st slist (cmd_connection command)
               (cmd_attributes command) in
  handle_maps_wf (transients st') /\ all_flushed (transients st').
Proof.
  intros [Hwa Hwb] Hl. unfold post_process_loaded_transients.
  destruct (Z.land (cmd_attributes command) TPMA_CC_FLUSHED =? 0).
  - destruct (flushsave_fold slist st) as (Hm & Hn & Hr). cbn zeta in *.
    set (st' := fold_left _ slist st) in *.
    assert (Hslots : forall c v r, slot (transients st') c v r <-> slot (transients st) c v r)
      by (intros c v r; unfold slot; rewrite Hm; reflexivity).
    split; [split|].
    + intros c v r Hs. apply Hslots in Hs. destruct (Hwa c v r Hs) as [Hv Hlt].
      rewrite (proj1 (Hr r)), Hn. split; assumption.
    + intros c1 c2 v1 v2 r H1 H2. apply Hslots in H1, H2.
      apply (Hwb c1 c2 v1 v2 r); assumption.
    + intros c v r Hs. apply Hslots in Hs.
      destruct (proj2 (Hr r)) as [H0|[Hsame Hnot]]; [exact H0|].
      rewrite Hsame.
      destruct (Z.eq_dec (hme_phandle (entries (transients st) r)) 0) as [H0|Hne];
        [exact H0|].
      destruct (Hl c v r Hs Hne) as (Hin & Ht & _). exfalso. apply (Hnot Hin Ht).
  - destruct (remove_fold (cmd_connection command) slist st) as [Hshrunk Hgone].
    cbn zeta in *. set (st' := fold_left _ slist st) in *.
    destruct Hshrunk as (He & Hn & Hs).
    split; [split|].
    + intros c v r H. rewrite He, Hn. apply (Hwa c v r), Hs, H.
    + intros c1 c2 v1 v2 r H1 H2. apply (Hwb c1 c2 v1 v2 r); apply Hs; assumption.
    + intros c v r H. rewrite He.
      destruct (Z.eq_dec (hme_phandle (entries (transients st) r)) 0) as [H0|Hne];
        [exact H0|].
      destruct (Hl c v r (Hs c v r H) Hne) as (Hin & _ & -> & Ht).
      destruct (Hwa _ v r (Hs _ v r H)) as [Hv _].
      exfalso. exact (Hgone r v r Hin Hv Ht H).
Qed.

Lemma send_response_flushes (st : State) (command : Tpm2Command) response slist :
  handle_maps_wf (transients st) ->
  loaded_in (transients st) slist (cmd_connection command) ->
  let st' := send_response broker st command response slist in
  handle_maps_wf (transients st') /\ all_flushed (transients st').
Proof.
  intros Hw Hl. unfold send_response, session_list_foreach.
  set (st1 := sink_enqueue st response).
  destruct (save_sessions_frame broker (session_entry_slist (session_list (sess st1))) st1)
    as (Ht & _).
  cbn zeta in Ht. apply post_process_flushes; rewrite Ht; assumption.
Qed.

(** The invariant of the quiescent boundary is kept by every command,
    short of the abort on exhausted virtual handles. *)
Lemma process_keeps_flushed (st : State) (command : Tpm2Command) :
  handle_maps_wf (transients st) -> all_flushed (transients st) ->
  fatal (process st command) = false ->
  handle_maps_wf (transients (process st command))
  /\ all_flushed (transients (process st command)).
Proof.
  intros Hw Hf. unfold resource_manager_process_tpm2_command.
  destruct (negb (_ =? TSS2_RC_SUCCESS)).
  { intros _. apply send_response_flushes; [exact Hw|apply all_flushed_loaded_in, Hf]. }
  destruct (slots_shrunk_keeps _ _ (special_processing_shrinks st command) Hw Hf)
    as [Hw1 Hf1].
  set (special := command_special_processing codes st command) in *.
  destruct (snd special) as [response|].
  { intros _. apply send_response_flushes; [exact Hw1|apply all_flushed_loaded_in, Hf1]. }
  pose proof (dispatch_phase (fst special) command Hw1 Hf1) as Hd. cbn zeta in Hd.
  set (res := dispatch_to_tpm broker client_context (fst special) command) in *.
  destruct (snd res) as [[response slist]|].
  - intros _. destruct Hd as [Hw2 Hl2]. apply send_response_flushes; assumption.
  - intros Hfatal. congruence.
Qed.

End Quiescence.

(** A transient whose context_saveflush fails keeps its physical handle. *)
Lemma flushsave_failure_keeps_phandle {TPM} (broker : AccessBroker TPM)
  (st : ResourceManager TPM) (entry : nat) :
  handle_type (hme_phandle (entries (transients st) entry)) = TPM2_HT_TRANSIENT ->
  fst (fst (ab_context_saveflush broker (tpm st)
              (hme_phandle (entries (transients st) entry))
              (hme_context (entries (transients st) entry)))) <> TSS2_RC_SUCCESS ->
  hme_phandle (entries (transients (resource_manager_flushsave_context broker st entry))
                 entry)
  = hme_phandle (entries (transients st) entry).
Proof.
  intros Ht Hrc. unfold resource_manager_flushsave_context, get_entry.
  rewrite Ht. change (TPM2_HT_TRANSIENT =? TPM2_HT_TRANSIENT) with true. cbv iota.
  cbn [with_broker transients]. apply Z.eqb_neq in Hrc. rewrite Hrc.
  cbn. rewrite fn_lookup_insert. reflexivity.
Qed.

(** C3 (amended): if the HandleMaps are well formed and every entry has
    physical handle 0 when a command arrives, the same holds when the
    command has been processed, on every path of the dispatcher (quota
    rejection, virtualised commands, forwarded commands, with or without
    the FLUSHED attribute), provided that the AccessBroker saves and flushes
    every loaded transient it is asked to, that the TPM loads transient
    objects at transient handles, and that the daemon did not abort on
    exhausted virtual handles.  A loaded transient whose context_saveflush
    fails keeps its physical handle instead. *)
Theorem transients_flushed_between_commands {TPM} (broker : AccessBroker TPM)
  (codes : ResMgrCodes) (client_context : Connection -> TPM2_HANDLE -> list Z)
  (st : ResourceManager TPM) (command : Tpm2Command) :
  let st' := resource_manager_process_tpm2_command broker codes client_context st command in
  (loads_at_transient_handles broker -> saveflush_succeeds broker ->
   handle_maps_wf (transients st) -> all_flushed (transients st) ->
   fatal st' = false ->
   handle_maps_wf (transients st') /\ all_flushed (transients st'))
  /\ (forall entry,
        handle_type (hme_phandle (entries (transients st) entry)) = TPM2_HT_TRANSIENT ->
        fst (fst (ab_context_saveflush broker (tpm st)
                    (hme_phandle (entries (transients st) entry))
                    (hme_context (entries (transients st) entry)))) <> TSS2_RC_SUCCESS ->
        hme_phandle
          (entries (transients (resource_manager_flushsave_context broker st entry)) entry)
        = hme_phandle (entries (transients st) entry)).
Proof.
  cbn zeta. split.
  - intros Hl Hs. apply (process_keeps_flushed broker codes client_context Hl Hs).
  - apply flushsave_failure_keeps_phandle.
Qed.

Lemma initial_state_flushed (cap scap : nat) :
  handle_maps_wf (transients (initial_state cap scap))
  /\ all_flushed (transients (initial_state cap scap)).
Proof.
  unfold handle_maps_wf, all_flushed, slot. cbn.
  repeat split; intros; rewrite lookup_empty in *; discriminate.
Qed.

Lemma obliging_script_saves :
  loads_at_transient_handles (mock_broker obliging_script)
  /\ saveflush_succeeds (mock_broker obliging_script).
Proof. split; intros t; intros; reflexivity. Qed.

Lemma one_object_state_flushed :
  handle_maps_wf (transients one_object_state)
  /\ all_flushed (transients one_object_state).
Proof.
  destruct (initial_state_flushed 1 1) as [Hw Hf].
  destruct obliging_script_saves as [Hl Hs].
  apply (process_keeps_flushed (mock_broker obliging_script) example_codes
           example_client_context Hl Hs (initial_state 1 1) (create_primary_command 1) Hw Hf).
  reflexivity.
Qed.

(** A counterexample to C3 as stated: connection 1 sends ReadPublic on its
    object 0x80000001; the TPM loads it at 0x80000000 and then fails to
    save and flush it.  At the next quiescent boundary the entry still has
    the physical handle 0x80000000. *)
Lemma saveflush_failure_counterexample :
  let st := one_object_state in
  let command := read_public_command 1 0x80000001 in
  let st' := example_run saveflush_failing_script st command in
  all_flushed (transients st)
  /\ fatal st' = false
  /\ slot (transients st') 1 0x80000001 0
  /\ hme_phandle (entries (transients st') 0) = 0x80000000
  /\ ~ all_flushed (transients st').
Proof.
  cbn zeta. split; [apply one_object_state_flushed|].
  split; [reflexivity|]. split; [reflexivity|]. split; [reflexivity|].
  intros H.
  specialize (H 1%nat 0x80000001 0%nat eq_refl).
  revert H. vm_compute. discriminate.
Qed.

(** An instance of the amended C3: the same command while the TPM saves
    and flushes as asked. *)
Lemma transients_flushed_between_commands_witness :
  let st := one_object_state in
  let command := read_public_command 1 0x80000001 in
  let st' := example_run obliging_script st command in
  handle_maps_wf (transients st') /\ all_flushed (transients st').
Proof.
  apply (proj1 (transients_flushed_between_commands (mock_broker obliging_script)
                  example_codes example_client_context one_object_state
                  (read_public_command 1 0x80000001))).
  - apply obliging_script_saves.
  - apply obliging_script_saves.
  - apply one_object_state_flushed.
  - apply one_object_state_flushed.
  - reflexivity.
Defined.

(** * Further properties of the resource manager *)

(** ** No session stays loaded between two commands *)

Section SessionsSaved.

Context {TPM : Type}.
Variable broker : AccessBroker TPM.
Variable codes : ResMgrCodes.
Variable client_context : Connection -> TPM2_HANDLE -> list Z.

Abbreviation State := (ResourceManager TPM).
Abbreviation process :=
  (resource_manager_process_tpm2_command broker codes client_context).

(** One step of the save between commands: the list of active sessions
    only loses entries, no session becomes loaded, and the session the
    callback ran on is no longer loaded if it is still tracked. *)
Lemma save_session_step (st : State) (e : nat) :
  let st' := resource_manager_save_session_context broker st e in
  (forall r, In r (session_entry_slist (session_list (sess st'))) ->
             In r (session_entry_slist (session_list (sess st))))
  /\ (forall r, se_state (sessions (sess st) r) <> SESSION_ENTRY_LOADED ->
                se_state (sessions (sess st') r) <> SESSION_ENTRY_LOADED)
  /\ (In e (session_entry_slist (session_list (sess st'))) ->
      se_state (sessions (sess st') e) <> SESSION_ENTRY_LOADED).
Proof.
  unfold resource_manager_save_session_context.
  destruct (bool_decide (se_state (get_session st e) = SESSION_ENTRY_LOADED)) eqn:He;
    cbn [negb].
  2:{ apply bool_decide_eq_false in He. repeat split; auto. }
  unfold access_broker_send_command.
  set (cmd := tpm2_command_new_context_save _).
  assert (Herr : forall s : State,
            sess s = sess st ->
            let s' := with_sess
                        (with_broker s (snd (ab_context_flush broker (tpm s)
                                               (se_handle (get_session s e))))
                           (CallContextFlush (se_handle (get_session s e))))
                        (session_list_remove
                           (sess (with_broker s (snd (ab_context_flush broker (tpm s)
                                                        (se_handle (get_session s e))))
                                    (CallContextFlush (se_handle (get_session s e))))) e) in
            (forall r, In r (session_entry_slist (session_list (sess s'))) ->
                       In r (session_entry_slist (session_list (sess st))))
            /\ (forall r, se_state (sessions (sess st) r) <> SESSION_ENTRY_LOADED ->
                          se_state (sessions (sess s') r) <> SESSION_ENTRY_LOADED)
            /\ (In e (session_entry_slist (session_list (sess s'))) ->
                se_state (sessions (sess s') e) <> SESSION_ENTRY_LOADED)).
  { intros s Hs. cbn. rewrite Hs. repeat split.
    - intros r Hr. apply filter_In in Hr. apply Hr.
    - auto.
    - intros Hin. apply filter_In in Hin. destruct Hin as [_ Hin].
      rewrite Nat.eqb_refl in Hin. discriminate. }
  destruct (fst (ab_send_command broker (tpm st) cmd)) as [buf|rc]; cbn [fst snd].
  - change (negb (TSS2_RC_SUCCESS =? TSS2_RC_SUCCESS)) with false. cbv iota. cbn.
    split; [intros r Hr; exact Hr|]. split.
    + intros r Hr. destruct (decide (e = r)) as [<-|Hne].
      * rewrite fn_lookup_insert. discriminate.
      * rewrite !fn_lookup_insert_ne by exact Hne. exact Hr.
    + intros _. rewrite fn_lookup_insert. discriminate.
  - destruct (negb (rc =? TSS2_RC_SUCCESS)); apply Herr; reflexivity.
Qed.

Lemma save_sessions_none_left (l : list nat) (st : State) :
  let st' := fold_left (resource_manager_save_session_context broker) l st in
  (forall r, In r (session_entry_slist (session_list (sess st'))) ->
             In r (session_entry_slist (session_list (sess st))))
  /\ (forall r, se_state (sessions (sess st) r) <> SESSION_ENTRY_LOADED ->
                se_state (sessions (sess st') r) <> SESSION_ENTRY_LOADED)
  /\ (forall r, In r l -> In r (session_entry_slist (session_list (sess st'))) ->
                se_state (sessions (sess st') r) <> SESSION_ENTRY_LOADED).
Proof.
  revert st. induction l as [|e l IH]; intros st; cbn [fold_left].
  - split; [auto|]. split; [auto|]. intros r [].
  - destruct (save_session_step st e) as (H1 & H2 & H3).
    destruct (IH (resource_manager_save_session_context broker st e)) as (H1' & H2' & H3').
    cbn zeta in *. split; [|split].
    + intros r Hr. apply H1, H1', Hr.
    + intros r Hr. apply H2', H2, Hr.
    + intros r [<-|Hin] Hact; [|apply H3'; assumption].
      apply H2', H3, H1', Hact.
Qed.

(** After the label send_response no tracked session is loaded. *)
Lemma send_response_saves_sessions (st : State) command response slist :
  no_session_loaded (send_response broker st command response slist).
Proof.
  unfold send_response, session_list_foreach.
  set (st1 := sink_enqueue st response).
  destruct (save_sessions_none_left (session_entry_slist (session_list (sess st1))) st1)
    as (H1 & _ & H3).
  cbn zeta in *. set (st2 := fold_left _ _ st1) in *.
  destruct (post_process_frame broker slist st2 (cmd_connection command)
              (cmd_attributes command)) as (_ & _ & Hsess & _).
  cbn zeta in Hsess. unfold no_session_loaded. rewrite Hsess.
  intros r Hr. apply H3; [apply H1, Hr|exact Hr].
Qed.

(** A command either reaches the label send_response or aborts the daemon. *)
Lemma process_outcomes (st : State) (command : Tpm2Command) :
  (exists st1 response slist,
     process st command = send_response broker st1 command response slist)
  \/ fatal (process st command) = true.
Proof.
  unfold resource_manager_process_tpm2_command.
  destruct (negb (_ =? TSS2_RC_SUCCESS)); [left; eauto|].
  destruct (snd (command_special_processing codes st command)); [left; eauto|].
  set (res := dispatch_to_tpm broker client_context _ command).
  destruct (snd res) as [[response slist]|] eqn:Hres; [left; eauto|].
  right. subst res. revert Hres.
  destruct (Nat.le_gt_cases (length (cmd_handles command)) TPM2_COMMAND_MAX_HANDLES)
    as [Hr|Hr].
  2:{ rewrite (dispatch_unreadable broker client_context _ command)
        by (unfold handle_area_readable; lia).
      reflexivity. }
  destruct (dispatch_to_tpm_forwards broker client_context
              (fst (command_special_processing codes st command)) command Hr)
    as (st2 & command1 & slist & _ & _ & ->).
  intros Hres.
  pose proof (create_context_mapping_frame client_context
                (fst (fst (access_broker_send_command broker st2 command1)))
                (match fst (ab_send_command broker (tpm st2) command1) with
                 | inl buffer => tpm2_response_new (cmd_connection command) buffer
                                   (cmd_attributes command)
                 | inr rc => tpm2_response_new_rc (cmd_connection command) rc
                 end) slist) as (_ & _ & _ & H).
  cbn zeta in H. rewrite Hres in H. exact H.
Qed.

(** X1: when a command has been processed (the daemon not having aborted),
    no tracked session is left in state LOADED: every session that was
    loaded for the command has been saved (state SAVED_RM) or, its save
    having failed, dropped from the SessionList. *)
Theorem sessions_saved_after_command (st : State) (command : Tpm2Command) :
  fatal (process st command) = false ->
  no_session_loaded (process st command).
Proof.
  intros Hf. destruct (process_outcomes st command) as [(st1 & response & slist & ->)|H].
  - apply send_response_saves_sessions.
  - congruence.
Qed.

End SessionsSaved.

(** An instance of X1: connection 1 starts a session. *)
Lemma sessions_saved_after_command_witness :
  no_session_loaded
    (example_run session_script (initial_state 1 1) (start_auth_session_command 1)).
Proof.
  apply (sessions_saved_after_command (mock_broker session_script) example_codes
           example_client_context (initial_state 1 1) (start_auth_session_command 1)).
  reflexivity.
Defined.

(** ** Every command gets one response, addressed to its connection *)

Section OneResponse.

Context {TPM : Type}.
Variable broker : AccessBroker TPM.
Variable codes : ResMgrCodes.
Variable client_context : Connection -> TPM2_HANDLE -> list Z.

Abbreviation State := (ResourceManager TPM).
Abbreviation process :=
  (resource_manager_process_tpm2_command broker codes client_context).

Lemma special_response_connection (st : State) (command : Tpm2Command) response :
  snd (command_special_processing codes st command) = Some response ->
  resp_connection response = cmd_connection command.
Proof.
  unfold command_special_processing, resource_manager_flush_context,
    resource_manager_save_context, resource_manager_save_context_session,
    resource_manager_load_context, resource_manager_load_context_session,
    get_cap_handles_response.
  repeat match goal with
         | |- context [if ?b then _ else _] => destruct b
         | |- context [match ?o with Some _ => _ | None => _ end] => destruct o
         end; cbn [snd]; intros [= <-]; reflexivity.
Qed.

Lemma virtualised_connection (answer response : Tpm2Response) :
  virtualised answer response -> resp_connection response = resp_connection answer.
Proof. intros [->|[v ->]]; reflexivity. Qed.

Lemma broker_answer_connection (t : TPM) (command : Tpm2Command) :
  resp_connection (broker_answer broker t command) = cmd_connection command.
Proof. unfold broker_answer. destruct (fst _); reflexivity. Qed.

Lemma process_emits_one_response (st : State) (command : Tpm2Command) :
  (exists response, sink (process st command) = sink st ++ [response]
                    /\ resp_connection response = cmd_connection command)
  \/ (sink (process st command) = sink st /\ fatal (process st command) = true).
Proof.
  destruct (Z.eq_dec (resource_manager_quota_check codes st command) TSS2_RC_SUCCESS)
    as [Hq|Hq].
  2:{ rewrite (process_rejected broker codes client_context st command Hq).
      destruct (send_response_frame broker st command
                  (tpm2_response_new_rc (cmd_connection command)
                     (resource_manager_quota_check codes st command)) [])
        as (Hs & _). left. eexists. split; [exact Hs|reflexivity]. }
  destruct (command_special_processing codes st command) as [st1 [response|]] eqn:Hsp.
  - rewrite (process_special broker codes client_context st st1 command response Hq Hsp).
    destruct (send_response_frame broker st1 command response []) as (Hs & _).
    pose proof (special_processing_frame codes st command) as (_ & Hs1 & _).
    rewrite Hsp in Hs1. cbn [fst] in Hs1.
    left. exists response. split; [rewrite Hs, Hs1; reflexivity|].
    apply (special_response_connection st command). rewrite Hsp. reflexivity.
  - destruct (Nat.le_gt_cases (length (cmd_handles command)) TPM2_COMMAND_MAX_HANDLES)
      as [Hr|Hr].
    2:{ right.
        rewrite (process_unreadable broker codes client_context st st1 command Hq Hsp)
          by (unfold handle_area_readable; lia).
        pose proof (special_processing_frame codes st command) as (_ & Hs1 & _).
        rewrite Hsp in Hs1. cbn [fst] in Hs1. split; [exact Hs1|reflexivity]. }
    destruct (process_forwards_command broker codes client_context st st1 command Hq Hsp Hr)
      as (st2 & command1 & loads & rest & Hsame & _ & _ & _ & [(response & Hs & Hv)|H]).
    + left. exists response. split; [exact Hs|].
      rewrite (virtualised_connection _ _ Hv), broker_answer_connection.
      apply Hsame.
    + right. exact H.
Qed.


End OneResponse.

(** ** Saving one loaded session *)

Section SaveSession.

Context {TPM : Type}.
Variable broker : AccessBroker TPM.

Abbreviation State := (ResourceManager TPM).
Abbreviation save := (resource_manager_save_session_context broker).

(** X3: saving a session that is in state LOADED sends one ContextSave for
    its handle, built by the resource manager.  When the TPM answers, the
    entry keeps the bytes after the 10-byte header as its context and
    goes to state SAVED_RM, and the SessionList is as it was; when the send
    fails, the handle is flushed and the entry is removed from the
    SessionList.  No other session is touched. *)
Theorem save_session_context_cases (st : State) (e : nat) :
  se_state (sessions (sess st) e) = SESSION_ENTRY_LOADED ->
  let entry := sessions (sess st) e in
  let cmd := tpm2_command_new_context_save (se_handle entry) in
  let st' := save st e in
  match fst (ab_send_command broker (tpm st) cmd) with
  | inl buffer =>
      calls st' = calls st ++ [CallSendCommand cmd]
      /\ session_list (sess st') = session_list (sess st)
      /\ sessions (sess st') e
         = session_entry_set_state
             (session_entry_set_context entry (drop 10 buffer)) SESSION_ENTRY_SAVED_RM
      /\ (forall r, r <> e -> sessions (sess st') r = sessions (sess st) r)
  | inr rc =>
      calls st' = calls st ++ [CallSendCommand cmd; CallContextFlush (se_handle entry)]
      /\ sessions (sess st') = sessions (sess st)
      /\ ~ In e (session_entry_slist (session_list (sess st')))
      /\ (forall r, r <> e ->
            In r (session_entry_slist (session_list (sess st)))
            -> In r (session_entry_slist (session_list (sess st'))))
      /\ abandoned_queue (session_list (sess st'))
         = abandoned_queue (session_list (sess st))
  end.
Proof.
  intros He entry cmd st'. subst st'.
  unfold resource_manager_save_session_context, get_session.
  rewrite bool_decide_eq_true_2 by exact He. cbn [negb].
  unfold access_broker_send_command. fold entry. fold cmd.
  destruct (ab_send_command broker (tpm st) cmd) as [[buffer|rc] t] eqn:Hsend;
    cbn [fst snd].
  - change (negb (TSS2_RC_SUCCESS =? TSS2_RC_SUCCESS)) with false. cbv iota.
    cbn. split; [reflexivity|]. split; [reflexivity|].
    split.
    + rewrite !fn_lookup_insert. reflexivity.
    + intros r Hr. rewrite !fn_lookup_insert_ne by (intro E; apply Hr; symmetry; exact E).
      reflexivity.
  - pose proof (ab_send_failure broker _ _ _ _ Hsend) as Hrc.
    apply Z.eqb_neq in Hrc. rewrite Hrc. cbn.
    split; [rewrite <- app_assoc; reflexivity|]. split; [reflexivity|].
    split; [|split; [|reflexivity]].
    + intros Hin. apply filter_In in Hin. destruct Hin as [_ Hin].
      rewrite Nat.eqb_refl in Hin. discriminate.
    + intros r Hr Hin. apply filter_In. split; [exact Hin|].
      apply negb_true_iff, Nat.eqb_neq. exact Hr.
Qed.

End SaveSession.

(** An instance of X3: the session connection 1 has just started. *)
Lemma save_session_context_cases_witness :
  let st := session_in_use_state in
  let st' := resource_manager_save_session_context (mock_broker session_script) st 0 in
  calls st' = calls st ++ [CallSendCommand (tpm2_command_new_context_save 0x02000000)]
  /\ session_list (sess st') = session_list (sess st)
  /\ sessions (sess st') 0
     = session_entry_set_state
         (session_entry_set_context (sessions (sess st) 0) (be32 0x02000000))
         SESSION_ENTRY_SAVED_RM
  /\ (forall r, r <> 0%nat -> sessions (sess st') r = sessions (sess st) r).
Proof.
  exact (save_session_context_cases (mock_broker session_script) session_in_use_state 0
           eq_refl).
Defined.

(** ** Quota *)

Section QuotaIff.

Context {TPM : Type}.
Variable codes : ResMgrCodes.
Abbreviation State := (ResourceManager TPM).

(** X4: the quota check rejects a command in two cases and no other: it is
    CreatePrimary, Load or LoadExternal and the HandleMap of its connection
    is full, or it is StartAuthSession and its connection owns as many
    sessions as it may. *)
Theorem quota_check_rejects_iff (st : State) (command : Tpm2Command) :
  resource_manager_quota_check codes st command <> TSS2_RC_SUCCESS
  <-> (loads_transient_object (cmd_code command)
       /\ handle_map_is_full (trans_maps (transients st) (cmd_connection command)) = true)
      \/ (cmd_code command = TPM2_CC_StartAuthSession
          /\ session_list_is_full (sess st) (cmd_connection command) = true).
Proof.
  unfold resource_manager_quota_check, loads_transient_object, connection_get_trans_map.
  destruct (Z.eqb_spec (cmd_code command) TPM2_CC_CreatePrimary) as [E1|E1];
  destruct (Z.eqb_spec (cmd_code command) TPM2_CC_Load) as [E2|E2];
  destruct (Z.eqb_spec (cmd_code command) TPM2_CC_LoadExternal) as [E3|E3];
  destruct (Z.eqb_spec (cmd_code command) TPM2_CC_StartAuthSession) as [E4|E4];
  cbn [orb];
  try (rewrite E1 in *; discriminate); try (rewrite E2 in *; discriminate);
  try (rewrite E3 in *; discriminate);
  try (destruct (handle_map_is_full _);
       (split; [intros H; try (exfalso; apply H; reflexivity); left; split; auto
               |intros _; apply object_memory_is_error])
       || (split; [intros H; exfalso; apply H; reflexivity
                  | intros [[_ H]|[H _]]; [discriminate| rewrite H in *; discriminate]])).
  - destruct (session_list_is_full _ _).
    + split; [intros _; right; split; auto|intros _; apply session_memory_is_error].
    + split; [intros H; exfalso; apply H; reflexivity|].
      intros [[[H|[H|H]] _]|[_ H]]; congruence.
  - split; [intros H; exfalso; apply H; reflexivity|].
    intros [[[H|[H|H]] _]|[H _]]; congruence.
Qed.

End QuotaIff.

(** ** Commands the resource manager passes on *)

Section PassedOn.

Context {TPM : Type}.
Variable broker : AccessBroker TPM.
Variable codes : ResMgrCodes.
Variable client_context : Connection -> TPM2_HANDLE -> list Z.

Abbreviation State := (ResourceManager TPM).
Abbreviation process :=
  (resource_manager_process_tpm2_command broker codes client_context).

Lemma unanswered_is_forwarded (st : State) (command : Tpm2Command) :
  resource_manager_quota_check codes st command = TSS2_RC_SUCCESS ->
  command_special_processing codes st command = (st, None) ->
  (handle_area_readable command -> forwarded st (process st command) command)
  /\ (~ handle_area_readable command -> process st command = g_error st).
Proof.
  intros Hq Hsp. split; intros Hr.
  - destruct (process_forwards_command broker codes client_context st st command Hq Hsp Hr)
      as (st2 & command1 & loads & rest & Hsame & Hc2 & Hloads & Hc & _).
    exists command1, loads, rest. split; [exact Hsame|]. split; [exact Hloads|].
    rewrite Hc, Hc2, <- app_assoc. reflexivity.
  - exact (process_unreadable broker codes client_context st st command Hq Hsp Hr).
Qed.

Lemma not_virtualised_unanswered (st : State) (command : Tpm2Command) :
  not_virtualised command ->
  command_special_processing codes st command = (st, None).
Proof.
  unfold not_virtualised, command_special_processing.
  intros [(H1 & H2 & H3 & H4)|[(H1 & Hrc & Ht & Hs)|[(H1 & Hs)|[(H1 & Hs)|(H1 & Hc)]]]].
  - apply Z.eqb_neq in H1, H2, H3, H4. rewrite H1, H2, H3, H4. reflexivity.
  - rewrite H1. cbn [Z.eqb Pos.eqb TPM2_CC_FlushContext].
    unfold resource_manager_flush_context. rewrite H1, Hrc.
    apply Z.eqb_neq in Ht. rewrite Ht, Hs. reflexivity.
  - rewrite H1. cbn. unfold resource_manager_save_context. rewrite Hs. reflexivity.
  - rewrite H1. cbn. unfold resource_manager_load_context. rewrite Hs. reflexivity.
  - rewrite H1. cbn. unfold get_cap_handles_response.
    destruct Hc as [Hc|Hc]; apply Z.eqb_neq in Hc; rewrite Hc;
      rewrite ?andb_false_r; reflexivity.
Qed.

(** X5: a command that is none of the virtualised cases, and passes the
    quota check, is not answered by the resource manager: the special
    processing leaves the state as it is and gives no response.  When the
    handle area of the command can be read (it fits the array of
    TPM2_COMMAND_MAX_HANDLES handles), the command goes to the AccessBroker
    with nothing but the handles of its handle area rewritten; when it
    cannot, the daemon aborts and nothing else happens. *)
Theorem not_virtualised_is_forwarded (st : State) (command : Tpm2Command) :
  not_virtualised command ->
  resource_manager_quota_check codes st command = TSS2_RC_SUCCESS ->
  command_special_processing codes st command = (st, None)
  /\ (handle_area_readable command -> forwarded st (process st command) command)
  /\ (~ handle_area_readable command -> process st command = g_error st).
Proof.
  intros Hnv Hq. pose proof (not_virtualised_unanswered st command Hnv) as Hsp.
  split; [exact Hsp|]. apply unanswered_is_forwarded; assumption.
Qed.

(** X6: a ContextSave for a session handle the SessionList does not know, or
    that belongs to another connection, is not virtualised: no session
    changes state and no response is synthesised.  When the handle area of
    the command can be read the command is forwarded to the TPM; when it
    cannot, the daemon aborts and nothing else happens. *)
Theorem context_save_foreign_session_forwarded (st : State) (command : Tpm2Command) :
  cmd_code command = TPM2_CC_ContextSave ->
  is_session_type (handle_type (tpm2_command_get_handle command 0)) = true ->
  (forall r, session_list_lookup_handle (sess st) (tpm2_command_get_handle command 0)
             = Some r ->
             se_connection (sessions (sess st) r) <> cmd_connection command) ->
  command_special_processing codes st command = (st, None)
  /\ (handle_area_readable command -> forwarded st (process st command) command)
  /\ (~ handle_area_readable command -> process st command = g_error st).
Proof.
  intros Hcode Htype Hown.
  assert (Hsp : command_special_processing codes st command = (st, None)).
  { unfold command_special_processing. rewrite Hcode. cbn.
    unfold resource_manager_save_context, resource_manager_save_context_session.
    rewrite Htype.
    destruct (session_list_lookup_handle _ _) as [r|] eqn:Hl; [|reflexivity].
    specialize (Hown r eq_refl). unfold get_session.
    destruct (Nat.eqb_spec (cmd_connection command) (se_connection (sessions (sess st) r)))
      as [E|E]; [|reflexivity].
    exfalso. apply Hown. symmetry. exact E. }
  split; [exact Hsp|]. apply unanswered_is_forwarded; [|exact Hsp].
  apply quota_check_other; rewrite Hcode; discriminate.
Qed.

(** X7: a FlushContext whose handle cannot be read from the command is
    answered by the resource manager with the code of the parse failure:
    nothing is removed from any HandleMap or from the SessionList, and the
    command does not reach the AccessBroker. *)
Theorem flush_context_parse_failure (st : State) (command : Tpm2Command) :
  cmd_code command = TPM2_CC_FlushContext ->
  fst (cmd_flush_handle command) <> TSS2_RC_SUCCESS ->
  let st' := process st command in
  command_special_processing codes st command
  = (st, Some (tpm2_response_new_rc (cmd_connection command)
                 (fst (cmd_flush_handle command))))
  /\ sink st' = sink st ++ [tpm2_response_new_rc (cmd_connection command)
                              (fst (cmd_flush_handle command))]
  /\ transients st' = transients st
  /\ not_forwarded st st' command.
Proof.
  intros Hcode Hrc st'. subst st'.
  assert (Hsp : command_special_processing codes st command
                = (st, Some (tpm2_response_new_rc (cmd_connection command)
                               (fst (cmd_flush_handle command))))).
  { unfold command_special_processing. rewrite Hcode. cbn.
    unfold resource_manager_flush_context. rewrite Hcode. cbn.
    apply Z.eqb_neq in Hrc. rewrite Hrc. reflexivity. }
  split; [exact Hsp|].
  assert (Hq : resource_manager_quota_check codes st command = TSS2_RC_SUCCESS)
    by (apply quota_check_other; rewrite Hcode; discriminate).
  rewrite (process_special broker codes client_context st st command _ Hq Hsp).
  destruct (send_response_nil broker st command
              (tpm2_response_new_rc (cmd_connection command)
                 (fst (cmd_flush_handle command))))
    as (Ht & Hs & _ & k & Hc & Hk & Hnil).
  split; [exact Hs|]. split; [exact Ht|].
  exists k. split; [exact Hc|]. split; [exact Hk|]. split.
  - intros Hin. rewrite List.Forall_forall in Hk. specialize (Hk _ Hin).
    cbn in Hk. destruct Hk as [Hk _]. rewrite Hcode in Hk. discriminate.
  - intros Hn. apply Hnil, Hn.
Qed.

End PassedOn.

(** An instance of X5: ReadPublic on a persistent handle. *)
Lemma not_virtualised_is_forwarded_witness :
  let st := initial_state 1 1 in
  let command := read_public_command 1 0x81000000 in
  command_special_processing example_codes st command = (st, None)
  /\ (handle_area_readable command ->
      forwarded st (example_run obliging_script st command) command)
  /\ (~ handle_area_readable command ->
      example_run obliging_script st command = g_error st).
Proof.
  apply (not_virtualised_is_forwarded (mock_broker obliging_script) example_codes
           example_client_context (initial_state 1 1) (read_public_command 1 0x81000000)).
  - left. repeat split; discriminate.
  - reflexivity.
Defined.

(** An instance of X6: connection 2 saves the session of connection 1. *)
Lemma context_save_foreign_session_forwarded_witness :
  let st := one_session_state in
  let command := context_save_command 2 0x02000000 in
  command_special_processing example_codes st command = (st, None)
  /\ (handle_area_readable command ->
      forwarded st (example_run session_script st command) command)
  /\ (~ handle_area_readable command ->
      example_run session_script st command = g_error st).
Proof.
  apply (context_save_foreign_session_forwarded (mock_broker session_script) example_codes
           example_client_context one_session_state (context_save_command 2 0x02000000)).
  - reflexivity.
  - reflexivity.
  - intros r Hr. vm_compute in Hr. injection Hr as <-. vm_compute. discriminate.
Defined.

(** An instance of X7: a FlushContext without the handle. *)
Lemma flush_context_parse_failure_witness :
  let st := one_object_state in
  let command := truncated_flush_context 1 in
  let st' := example_run obliging_script st command in
  command_special_processing example_codes st command
  = (st, Some (tpm2_response_new_rc 1 0x00090006))
  /\ sink st' = sink st ++ [tpm2_response_new_rc 1 0x00090006]
  /\ transients st' = transients st
  /\ not_forwarded st st' command.
Proof.
  apply (flush_context_parse_failure (mock_broker obliging_script) example_codes
           example_client_context one_object_state (truncated_flush_context 1)).
  - reflexivity.
  - discriminate.
Defined.

(** ** A session context saved by its owner and loaded again *)

Section SaveLoadRoundTrip.

Context {TPM : Type}.
Variable broker : AccessBroker TPM.
Variable codes : ResMgrCodes.
Variable client_context : Connection -> TPM2_HANDLE -> list Z.

Abbreviation State := (ResourceManager TPM).
Abbreviation process :=
  (resource_manager_process_tpm2_command broker codes client_context).

Lemma set_state_not_loaded (st : State) (r : nat) (s : SessionEntryStateEnum) :
  s <> SESSION_ENTRY_LOADED ->
  no_session_loaded st ->
  no_session_loaded
    (set_session st r (session_entry_set_state (sessions (sess st) r) s)).
Proof.
  intros Hs Hn x Hx. cbn in Hx |- *.
  destruct (decide (r = x)) as [<-|Hne].
  - rewrite fn_lookup_insert. exact Hs.
  - rewrite fn_lookup_insert_ne by exact Hne. apply Hn, Hx.
Qed.

Lemma set_state_lookup_context_client (st : State) (r : nat) (s : SessionEntryStateEnum)
  (buf : list Z) :
  session_list_lookup_context_client
    (sess (set_session st r (session_entry_set_state (sessions (sess st) r) s))) buf
  = session_list_lookup_context_client (sess st) buf.
Proof.
  unfold session_list_lookup_context_client. cbn.
  apply find_ext_in. intros x.
  destruct (decide (r = x)) as [<-|Hne].
  - rewrite fn_lookup_insert. reflexivity.
  - rewrite fn_lookup_insert_ne by exact Hne. reflexivity.
Qed.

(** X8: a session saved with ContextSave by the connection that owns it can
    be loaded again with ContextLoad by that connection.  The body of the
    ContextSave response is the client context of the session; when the
    client presents these bytes in a ContextLoad, the response carries the
    handle of the session, the session is in state SAVED_RM, owned by the
    same connection, and neither command has reached the TPM. *)
Theorem context_save_then_load (st : State) (save load : Tpm2Command) (r : nat) :
  no_session_loaded st ->
  cmd_code save = TPM2_CC_ContextSave ->
  is_session_type (handle_type (tpm2_command_get_handle save 0)) = true ->
  session_list_lookup_handle (sess st) (tpm2_command_get_handle save 0) = Some r ->
  se_connection (sessions (sess st) r) = cmd_connection save ->
  session_list_lookup_context_client (sess st) (se_context_client (sessions (sess st) r))
  = Some r ->
  cmd_code load = TPM2_CC_ContextLoad ->
  cmd_connection load = cmd_connection save ->
  is_session_type (handle_type (snd (cmd_context_unmarshal load))) = true ->
  let st1 := process st save in
  let st2 := process st1 load in
  forall saved : Tpm2Response,
    sink st1 = sink st ++ [saved] ->
    cmd_body load = drop 10 (resp_buffer saved) ->
    sink st2 = sink st1 ++ [tpm2_response_new_context_load (cmd_connection load)
                              (sessions (sess st) r)]
    /\ sessions (sess st2) r
       = session_entry_set_state (sessions (sess st) r) SESSION_ENTRY_SAVED_RM
    /\ session_list (sess st2) = session_list (sess st)
    /\ calls st2 = calls st.
Proof.
  intros Hn Hcs Hts Hl Hown Hctx Hcl Hconn Htl st1 st2 saved Hsaved Hbody.
  set (entry := sessions (sess st) r) in *.
  set (st0 := set_session st r (session_entry_set_state entry SESSION_ENTRY_SAVED_CLIENT)).
  assert (Hq1 : resource_manager_quota_check codes st save = TSS2_RC_SUCCESS)
    by (apply quota_check_other; rewrite Hcs; discriminate).
  assert (Hsp1 : command_special_processing codes st save
                 = (st0, Some (tpm2_response_new_context_save (cmd_connection save)
                                 (session_entry_set_state entry SESSION_ENTRY_SAVED_CLIENT)))).
  { unfold command_special_processing. rewrite Hcs. cbn.
    unfold resource_manager_save_context, resource_manager_save_context_session.
    rewrite Hts, Hl. unfold get_session. fold entry. rewrite Hown, Nat.eqb_refl. cbn [negb].
    fold st0. cbn [st0 set_session with_sess sess store_set_session sessions].
    rewrite fn_lookup_insert. reflexivity. }
  assert (Hn0 : no_session_loaded st0)
    by (apply set_state_not_loaded; [discriminate|exact Hn]).
  assert (H1 : sess st1 = sess st0 /\ calls st1 = calls st
               /\ sink st1 = sink st ++ [tpm2_response_new_context_save (cmd_connection save)
                                           (session_entry_set_state entry
                                              SESSION_ENTRY_SAVED_CLIENT)]).
  { subst st1. rewrite (process_special broker codes client_context st st0 save _ Hq1 Hsp1).
    destruct (send_response_nil broker st0 save
                (tpm2_response_new_context_save (cmd_connection save)
                   (session_entry_set_state entry SESSION_ENTRY_SAVED_CLIENT)))
      as (_ & Hs & _ & k & Hc & _ & Hnil).
    destruct (Hnil Hn0) as [-> Hsess]. rewrite app_nil_r in Hc.
    split; [exact Hsess|]. split; [exact Hc|exact Hs]. }
  destruct H1 as (Hsess1 & Hcalls1 & Hsink1).
  rewrite Hsink1 in Hsaved. apply app_inv_head in Hsaved. injection Hsaved as <-.
  assert (Hbody' : cmd_body load = se_context_client entry).
  { rewrite Hbody. unfold tpm2_response_new_context_save, tpm2_response_new,
      response_header. cbn [resp_buffer se_context_client session_entry_set_state].
    reflexivity. }
  set (loaded := session_entry_set_state entry SESSION_ENTRY_SAVED_RM).
  set (st1' := set_session st1 r loaded).
  assert (Hq2 : resource_manager_quota_check codes st1 load = TSS2_RC_SUCCESS)
    by (apply quota_check_other; rewrite Hcl; discriminate).
  assert (Hr1 : sessions (sess st1) r
                = session_entry_set_state entry SESSION_ENTRY_SAVED_CLIENT).
  { rewrite Hsess1. cbn. rewrite fn_lookup_insert. reflexivity. }
  assert (Hsp2 : command_special_processing codes st1 load
                 = (st1', Some (tpm2_response_new_context_load (cmd_connection load) loaded))).
  { unfold command_special_processing. rewrite Hcl. cbn.
    unfold resource_manager_load_context, resource_manager_load_context_session.
    rewrite Htl, Hbody', Hsess1.
    unfold st0. rewrite set_state_lookup_context_client. fold entry in Hctx.
    rewrite Hctx. fold st0. rewrite <- Hsess1.
    unfold get_session. rewrite Hr1.
    cbn [se_connection session_entry_set_state]. rewrite Hconn, Hown, Nat.eqb_refl.
    cbn [negb fst snd].
    assert (Hw : with_sess st1 (sess st1) = st1) by (destruct st1; reflexivity).
    rewrite Hw, Hr1.
    assert (Hl' : session_entry_set_state
                    (session_entry_set_state entry SESSION_ENTRY_SAVED_CLIENT)
                    SESSION_ENTRY_SAVED_RM = loaded) by reflexivity.
    rewrite Hl'. fold st1'.
    cbn [st1' set_session with_sess sess store_set_session sessions].
    rewrite fn_lookup_insert. reflexivity. }
  assert (Hn1 : no_session_loaded st1').
  { assert (E : st1' = set_session st1 r
                         (session_entry_set_state (sessions (sess st1) r)
                            SESSION_ENTRY_SAVED_RM)) by (rewrite Hr1; reflexivity).
    rewrite E. apply set_state_not_loaded; [discriminate|].
    unfold no_session_loaded. rewrite Hsess1. exact Hn0. }
  subst st2. rewrite (process_special broker codes client_context st1 st1' load _ Hq2 Hsp2).
  destruct (send_response_nil broker st1' load
              (tpm2_response_new_context_load (cmd_connection load) loaded))
    as (_ & Hs & _ & k & Hc & _ & Hnil).
  destruct (Hnil Hn1) as [-> Hsess2]. rewrite app_nil_r in Hc.
  split; [rewrite Hs; reflexivity|].
  rewrite Hsess2, Hc. cbn. rewrite fn_lookup_insert, Hsess1.
  split; [reflexivity|]. split; [reflexivity|exact Hcalls1].
Qed.

End SaveLoadRoundTrip.
(** An instance of X8: connection 1 saves its session and loads it again. *)
Lemma context_save_then_load_witness :
  let st := one_session_state in
  let st1 := example_run session_script st (context_save_command 1 0x02000000) in
  let load := context_load_command 1 (example_client_context 1 0x02000000) in
  let st2 := example_run session_script st1 load in
  sink st2 = sink st1 ++ [tpm2_response_new_context_load 1 (sessions (sess st) 0)]
  /\ sessions (sess st2) 0
     = session_entry_set_state (sessions (sess st) 0) SESSION_ENTRY_SAVED_RM
  /\ session_list (sess st2) = session_list (sess st)
  /\ calls st2 = calls st.
Proof.
  apply (context_save_then_load (mock_broker session_script) example_codes
           example_client_context one_session_state
           (context_save_command 1 0x02000000)
           (context_load_command 1 (example_client_context 1 0x02000000)) 0)
    with (saved := tpm2_response_new_context_save 1
                     (session_entry_set_state (sessions (sess one_session_state) 0)
                        SESSION_ENTRY_SAVED_CLIENT)).
  - intros x Hx. vm_compute in Hx. destruct Hx as [<-|[]]. vm_compute. discriminate.
  - reflexivity.
  - reflexivity.
  - reflexivity.
  - reflexivity.
  - reflexivity.
  - reflexivity.
  - reflexivity.
  - reflexivity.
  - reflexivity.
  - reflexivity.
Defined.

(** ** Virtual handles are handed out once *)

Lemma vhandles_advance_refl (ts : TransientStore) : vhandles_advance ts ts.
Proof. intros c. split; [reflexivity|]. intros v r H. left. exact H. Qed.

Lemma vhandles_advance_trans (a b c : TransientStore) :
  vhandles_advance a b -> vhandles_advance b c -> vhandles_advance a c.
Proof.
  intros Hab Hbc x. destruct (Hab x) as [H1 H2]. destruct (Hbc x) as [H3 H4].
  split; [lia|]. intros v r Hs.
  destruct (H4 v r Hs) as [Hs'|Hr]; [|right; lia].
  destruct (H2 v r Hs') as [Hs''|Hr]; [left; exact Hs''|right; lia].
Qed.

Lemma vhandles_advance_maps (a b : TransientStore) :
  (forall c, trans_maps b c = trans_maps a c) -> vhandles_advance a b.
Proof.
  intros H c. unfold slot. rewrite H. split; [reflexivity|]. intros v r Hs. left. exact Hs.
Qed.

Lemma vhandles_advance_remove (ts : TransientStore) (conn : Connection) (h : TPM2_HANDLE) :
  vhandles_advance ts (store_set_map ts conn (handle_map_remove (trans_maps ts conn) h)).
Proof.
  intros c. unfold slot. cbn.
  destruct (decide (conn = c)) as [<-|Hc].
  - rewrite fn_lookup_insert. cbn. split; [reflexivity|]. intros v r Hs.
    apply lookup_delete_Some in Hs. left. apply Hs.
  - rewrite fn_lookup_insert_ne by exact Hc. split; [reflexivity|]. intros v r Hs.
    left. exact Hs.
Qed.

Lemma vhandles_advance_below (ts ts' : TransientStore) :
  vhandles_advance ts ts' -> vhandles_below_counter ts -> vhandles_below_counter ts'.
Proof.
  intros Ha Hb c v r Hs. destruct (Ha c) as [Hc Hsl].
  destruct (Hsl v r Hs) as [Hs'|Hr]; [|lia].
  specialize (Hb c v r Hs'). lia.
Qed.

Section VirtualHandles.

Context {TPM : Type}.
Variable broker : AccessBroker TPM.
Variable codes : ResMgrCodes.
Variable client_context : Connection -> TPM2_HANDLE -> list Z.

Abbreviation State := (ResourceManager TPM).
Abbreviation process :=
  (resource_manager_process_tpm2_command broker codes client_context).

Lemma set_handle_get_handle (response : Tpm2Response) (v : TPM2_HANDLE) :
  (10 <= length (resp_buffer response))%nat -> 0 <= v < 2 ^ 32 ->
  tpm2_response_get_handle (tpm2_response_set_handle response v) = v.
Proof.
  intros Hlen Hv. unfold tpm2_response_get_handle, tpm2_response_set_handle.
  cbn [resp_buffer].
  rewrite drop_app_length' by (rewrite length_take; lia).
  apply be32_decode_be32, Hv.
Qed.

Lemma has_handle_length (response : Tpm2Response) :
  tpm2_response_has_handle response = true ->
  (14 <= length (resp_buffer response))%nat.
Proof.
  unfold tpm2_response_has_handle. intros H. apply andb_true_iff in H.
  destruct H as [_ H]. apply Z.leb_le in H. lia.
Qed.

(** X9: when the response of the TPM carries the handle of a new transient
    object, and the counter of the connection's HandleMap is not exhausted,
    the resource manager hands out the next vhandle of the map: a handle of
    the transient range that no object of the connection is filed under.
    The response goes on with this vhandle in place of the physical handle,
    a new entry records both handles, the entry is filed under the vhandle
    and listed (twice) among the loaded transients; the other entries and
    the maps of the other connections are as they were. *)
Theorem new_transient_gets_fresh_vhandle (st : State) (response : Tpm2Response)
  (slist : list nat) :
  tpm2_response_has_handle response = true ->
  handle_type (tpm2_response_get_handle response) = TPM2_HT_TRANSIENT ->
  Z.of_nat (handle_count (trans_maps (transients st) (resp_connection response)))
  < TPM2_HR_RANGE_MASK ->
  vhandles_below_counter (transients st) ->
  let conn := resp_connection response in
  let v := TPM2_HR_TRANSIENT
           + Z.of_nat (handle_count (trans_maps (transients st) conn)) in
  let e := next_entry (transients st) in
  let res := resource_manager_create_context_mapping client_context st response slist in
  snd res = Some (tpm2_response_set_handle response v, e :: e :: slist)
  /\ tpm2_response_get_handle (tpm2_response_set_handle response v) = v
  /\ handle_type v = TPM2_HT_TRANSIENT
  /\ handle_table st conn !! v = None
  /\ handle_table (fst res) conn = <[v := e]> (handle_table st conn)
  /\ (forall c, c <> conn ->
        trans_maps (transients (fst res)) c = trans_maps (transients st) c)
  /\ entries (transients (fst res)) e
     = handle_map_entry_new (tpm2_response_get_handle response) v
  /\ (forall r, r <> e -> entries (transients (fst res)) r = entries (transients st) r)
  /\ fatal (fst res) = fatal st.
Proof.
  intros Hhas Htype Hcount Hbelow conn v e res.
  assert (Hv32 : 0 <= v < 2 ^ 32).
  { unfold v, conn, TPM2_HR_TRANSIENT. unfold TPM2_HR_RANGE_MASK in Hcount. lia. }
  assert (Hres : res = resource_manager_create_context_mapping client_context st response
                         slist) by reflexivity.
  unfold resource_manager_create_context_mapping in Hres.
  rewrite Hhas, Htype in Hres. cbn [negb] in Hres.
  change (TPM2_HT_TRANSIENT =? TPM2_HT_TRANSIENT) with true in Hres. cbv iota in Hres.
  unfold create_context_mapping_transient, handle_map_next_vhandle,
    connection_get_trans_map in Hres. fold conn in Hres, Hcount.
  rewrite (proj2 (Z.leb_gt _ _) Hcount) in Hres. cbn [fst snd] in Hres. fold v in Hres.
  assert (Hv0 : (v =? 0) = false)
    by (apply Z.eqb_neq; unfold v, TPM2_HR_TRANSIENT; lia).
  rewrite Hv0 in Hres. rewrite Hres. cbn [fst snd].
  split; [reflexivity|].
  split; [apply set_handle_get_handle; [apply has_handle_length in Hhas; lia|exact Hv32]|].
  split; [apply transient_vhandle_type, Hcount|].
  split.
  { unfold handle_table. destruct (vhandle_to_entry _ !! v) as [r|] eqn:Hs; [|reflexivity].
    specialize (Hbelow conn v r Hs). unfold v in Hbelow. fold conn in Hbelow. lia. }
  split.
  { unfold handle_table. cbn. rewrite (fn_lookup_insert _ conn). cbn.
    rewrite (fn_lookup_insert _ conn). reflexivity. }
  split.
  { intros c Hc. cbn. rewrite !fn_lookup_insert_ne by (intro E; apply Hc; symmetry; exact E).
    reflexivity. }
  split; [cbn; apply fn_lookup_insert|].
  split; [|reflexivity].
  intros r Hr. cbn. apply fn_lookup_insert_ne. intro E. apply Hr. symmetry. exact E.
Qed.

(** X10: when the counter of the connection's HandleMap is exhausted
    (0xFFFFFF vhandles have been handed out), the response of the TPM to a
    command that created a transient object is not delivered: the daemon
    aborts.  The object is not filed, and no entry is allocated for it. *)
Theorem vhandle_rollover_aborts (st : State) (response : Tpm2Response)
  (slist : list nat) :
  tpm2_response_has_handle response = true ->
  handle_type (tpm2_response_get_handle response) = TPM2_HT_TRANSIENT ->
  TPM2_HR_RANGE_MASK
  <= Z.of_nat (handle_count (trans_maps (transients st) (resp_connection response))) ->
  let res := resource_manager_create_context_mapping client_context st response slist in
  snd res = None
  /\ fatal (fst res) = true
  /\ sink (fst res) = sink st
  /\ (forall c, handle_table (fst res) c = handle_table st c)
  /\ entries (transients (fst res)) = entries (transients st)
  /\ next_entry (transients (fst res)) = next_entry (transients st).
Proof.
  intros Hhas Htype Hcount res. subst res.
  unfold resource_manager_create_context_mapping.
  rewrite Hhas, Htype. cbn [negb].
  change (TPM2_HT_TRANSIENT =? TPM2_HT_TRANSIENT) with true. cbv iota.
  unfold create_context_mapping_transient, handle_map_next_vhandle,
    connection_get_trans_map.
  rewrite (proj2 (Z.leb_le _ _) Hcount). cbn [fst snd].
  change (0 =? 0) with true. cbv iota. cbn [fst snd].
  split; [reflexivity|]. split; [reflexivity|]. split; [reflexivity|].
  split; [|split; reflexivity].
  intros c. unfold handle_table. cbn.
  destruct (decide (resp_connection response = c)) as [<-|Hc].
  - rewrite fn_lookup_insert. reflexivity.
  - rewrite fn_lookup_insert_ne by exact Hc. reflexivity.
Qed.

Lemma special_processing_advance (st : State) (command : Tpm2Command) :
  vhandles_advance (transients st)
    (transients (fst (command_special_processing codes st command))).
Proof.
  unfold command_special_processing, resource_manager_flush_context,
    resource_manager_save_context, resource_manager_save_context_session,
    resource_manager_load_context, resource_manager_load_context_session.
  repeat match goal with
         | |- context [if ?b then _ else _] => destruct b
         | |- context [match ?o with Some _ => _ | None => _ end] => destruct o
         end; cbn [fst]; try apply vhandles_advance_refl.
  apply vhandles_advance_remove.
Qed.

Lemma create_context_mapping_advance (st : State) response slist :
  vhandles_advance (transients st)
    (transients (fst (resource_manager_create_context_mapping client_context st response
                        slist))).
Proof.
  unfold resource_manager_create_context_mapping.
  destruct (negb (tpm2_response_has_handle response)); cbn [fst];
    [apply vhandles_advance_refl|].
  destruct (handle_type _ =? TPM2_HT_TRANSIENT).
  2:{ destruct (is_session_type _); cbn [fst]; [|apply vhandles_advance_refl].
      unfold create_context_mapping_session.
      destruct (session_list_lookup_handle _ _); apply vhandles_advance_refl. }
  unfold create_context_mapping_transient, handle_map_next_vhandle,
    connection_get_trans_map.
  set (conn := resp_connection response).
  destruct (Z.leb_spec TPM2_HR_RANGE_MASK
              (Z.of_nat (handle_count (trans_maps (transients st) conn)))) as [Hc|Hc];
    cbn [fst snd].
  - change (0 =? 0) with true. cbv iota. cbn [fst].
    apply vhandles_advance_maps. cbn. intros c.
    destruct (decide (conn = c)) as [<-|Hne].
    + rewrite fn_lookup_insert. reflexivity.
    + rewrite fn_lookup_insert_ne by exact Hne. reflexivity.
  - set (v := TPM2_HR_TRANSIENT + _).
    assert (Hv0 : (v =? 0) = false)
      by (apply Z.eqb_neq; unfold v, TPM2_HR_TRANSIENT; lia).
    rewrite Hv0. cbn [fst].
    intros c. unfold slot. cbn.
    destruct (decide (conn = c)) as [<-|Hne].
    + rewrite (fn_lookup_insert _ conn). cbn. rewrite (fn_lookup_insert _ conn). cbn.
      split; [lia|]. intros x r Hs.
      destruct (decide (v = x)) as [<-|Hx].
      * right. unfold v. lia.
      * rewrite lookup_insert_ne in Hs by exact Hx. left. exact Hs.
    + rewrite !fn_lookup_insert_ne by exact Hne.
      split; [reflexivity|]. intros x r Hs. left. exact Hs.
Qed.


Lemma virt_to_phys_maps (st : State) command entry n :
  let res := resource_manager_virt_to_phys broker st command entry n in
  trans_maps (transients (fst (fst res))) = trans_maps (transients st)
  /\ (forall r, hme_context (entries (transients (fst (fst res))) r)
                = hme_context (entries (transients st) r)).
Proof.
  unfold resource_manager_virt_to_phys.
  destruct (fst (fst (ab_context_load broker (tpm st) _)) =? TSS2_RC_SUCCESS);
    cbn [fst snd]; (split; [reflexivity|]); [|reflexivity].
  intros r. cbn. destruct (decide (entry = r)) as [<-|Hne].
  - rewrite fn_lookup_insert. reflexivity.
  - rewrite fn_lookup_insert_ne by exact Hne. reflexivity.
Qed.

Lemma load_transient_maps (st : State) command slist handle n :
  let res := resource_manager_load_transient broker st command slist handle n in
  trans_maps (transients (fst (fst (fst res)))) = trans_maps (transients st)
  /\ (forall r, hme_context (entries (transients (fst (fst (fst res)))) r)
                = hme_context (entries (transients st) r)).
Proof.
  unfold resource_manager_load_transient.
  destruct (handle_map_vlookup _ handle) as [entry|]; cbn [fst snd]; [|auto].
  pose proof (virt_to_phys_maps st command entry n) as H. cbn zeta in H.
  destruct (negb _); cbn [fst snd]; exact H.
Qed.

Lemma load_handles_loop_maps (hs : list TPM2_HANDLE) (i : nat)
  (st : State) command slist rc :
  let res := load_handles_loop broker hs i (st, command, slist, rc) in
  trans_maps (transients (fst (fst (fst res)))) = trans_maps (transients st)
  /\ (forall r, hme_context (entries (transients (fst (fst (fst res)))) r)
                = hme_context (entries (transients st) r)).
Proof.
  revert i st command slist rc.
  induction hs as [|h hs IH]; intros i st command slist rc; cbn [load_handles_loop fst snd];
    [auto|].
  destruct (handle_type h =? TPM2_HT_TRANSIENT).
  - destruct (load_transient_maps st command slist h i) as [H1 H2]. cbn zeta in H1, H2.
    destruct (resource_manager_load_transient broker st command slist h i)
      as [[[st1 command1] slist1] rc1]. cbn [fst snd] in *.
    destruct (IH (S i) st1 command1 slist1 rc1) as [H3 H4]. cbn zeta in *.
    split; [congruence|]. intros r. rewrite H4. apply H2.
  - destruct (is_session_type (handle_type h)).
    + destruct (load_session_load_step broker st (cmd_connection command) h false)
        as [_ Ht]. cbn zeta in Ht.
      destruct (IH (S i)
                  (fst (resource_manager_load_session_from_handle broker st
                          (cmd_connection command) h false))
                  command slist
                  (snd (resource_manager_load_session_from_handle broker st
                          (cmd_connection command) h false))) as [H3 H4].
      cbn zeta in *. rewrite Ht in H3, H4. split; assumption.
    + apply IH.
Qed.

Lemma dispatch_advance (st : State) (command : Tpm2Command) :
  vhandles_advance (transients st)
    (transients (fst (dispatch_to_tpm broker client_context st command))).
Proof.
  unfold dispatch_to_tpm. rewrite load_phase.
  destruct (length (cmd_handles command) <=? TPM2_COMMAND_MAX_HANDLES)%nat;
    [|apply vhandles_advance_refl].
  set (loaded := if (0 <? length (cmd_handles command))%nat
                 then load_handles_loop broker (cmd_handles command) 0
                        (st, command, [], TSS2_RC_SUCCESS)
                 else (st, command, [], TSS2_RC_SUCCESS)).
  assert (Hl : trans_maps (transients (fst (fst (fst loaded)))) = trans_maps (transients st)).
  { subst loaded. destruct (0 <? length (cmd_handles command))%nat; cbn [fst snd];
      [|reflexivity].
    apply (load_handles_loop_maps (cmd_handles command) 0 st command [] TSS2_RC_SUCCESS). }
  set (st1 := fst (fst (fst loaded))) in *.
  set (command1 := snd (fst (fst loaded))) in *.
  set (st2 := if (0 <? length (cmd_auths command1))%nat
              then fold_left (fun s auth => resource_manager_load_auth_callback broker s
                                              command1 auth) (cmd_auths command1) st1
              else st1).
  assert (Ht2 : transients st2 = transients st1).
  { subst st2. destruct (0 <? length (cmd_auths command1))%nat; [|reflexivity].
    apply (load_auths_load_step broker command1). }
  destruct (send_command_calls broker st2 command1) as (_ & _ & _ & Ht3 & _).
  cbn zeta in Ht3.
  eapply vhandles_advance_trans; [|apply create_context_mapping_advance].
  apply vhandles_advance_maps. intros c. rewrite Ht3, Ht2, Hl. reflexivity.
Qed.

Lemma remove_entries_advance (conn : Connection) (l : list nat) (st : State) :
  vhandles_advance (transients st)
    (transients (fold_left (remove_entry_from_handle_map conn) l st)).
Proof.
  revert st. induction l as [|e l IH]; intros st; cbn [fold_left];
    [apply vhandles_advance_refl|].
  eapply vhandles_advance_trans; [|apply IH].
  unfold remove_entry_from_handle_map.
  destruct (handle_type _ =? TPM2_HT_TRANSIENT); [|apply vhandles_advance_refl].
  apply vhandles_advance_remove.
Qed.

Lemma flushsave_maps (l : list nat) (st : State) :
  trans_maps (transients (fold_left (resource_manager_flushsave_context broker) l st))
  = trans_maps (transients st).
Proof.
  revert st. induction l as [|e l IH]; intros st; cbn [fold_left]; [reflexivity|].
  rewrite IH. unfold resource_manager_flushsave_context.
  destruct (handle_type _ =? TPM2_HT_TRANSIENT); [|reflexivity].
  destruct (fst (fst (ab_context_saveflush broker _ _ _)) =? TSS2_RC_SUCCESS); reflexivity.
Qed.

Lemma send_response_advance (st : State) command response slist :
  vhandles_advance (transients st)
    (transients (send_response broker st command response slist)).
Proof.
  unfold send_response, session_list_foreach, post_process_loaded_transients.
  set (st1 := sink_enqueue st response).
  destruct (save_sessions_frame broker (session_entry_slist (session_list (sess st1))) st1)
    as (Ht & _).
  cbn zeta in Ht. set (st2 := fold_left _ _ st1) in *.
  change (transients st) with (transients st1). rewrite <- Ht.
  destruct (_ =? 0).
  - apply vhandles_advance_maps. intros c. rewrite flushsave_maps. reflexivity.
  - apply remove_entries_advance.
Qed.

Lemma process_advance (st : State) (command : Tpm2Command) :
  vhandles_advance (transients st) (transients (process st command)).
Proof.
  unfold resource_manager_process_tpm2_command.
  destruct (negb (_ =? TSS2_RC_SUCCESS)); [apply send_response_advance|].
  pose proof (special_processing_advance st command) as H1.
  set (special := command_special_processing codes st command) in *.
  destruct (snd special) as [response|].
  { eapply vhandles_advance_trans; [exact H1|apply send_response_advance]. }
  pose proof (dispatch_advance (fst special) command) as H2.
  set (res := dispatch_to_tpm broker client_context (fst special) command) in *.
  destruct (snd res) as [[response slist]|].
  - eapply vhandles_advance_trans; [exact H1|].
    eapply vhandles_advance_trans; [exact H2|apply send_response_advance].
  - eapply vhandles_advance_trans; [exact H1|exact H2].
Qed.

(** X11: a virtual handle is handed out once.  Across any command the
    vhandles filed in a HandleMap stay below the counter of the map, and a
    vhandle below the counter under which nothing is filed (it was handed
    out, and its object flushed) stays without an object: a later object
    never takes the vhandle of an earlier one. *)
Theorem vhandles_are_not_reused (st : State) (command : Tpm2Command) :
  vhandles_below_counter (transients st) ->
  let st' := process st command in
  vhandles_below_counter (transients st')
  /\ forall c v,
       v < TPM2_HR_TRANSIENT + Z.of_nat (handle_count (trans_maps (transients st) c)) ->
       handle_table st c !! v = None -> handle_table st' c !! v = None.
Proof.
  intros Hb st'. pose proof (process_advance st command) as Ha. fold st' in Ha.
  split; [exact (vhandles_advance_below _ _ Ha Hb)|].
  intros c v Hv Hnone. destruct (Ha c) as [_ Hs].
  unfold handle_table in *.
  destruct (vhandle_to_entry (trans_maps (transients st') c) !! v) as [r|] eqn:Hl;
    [|reflexivity].
  destruct (Hs v r Hl) as [Hold|Hnew].
  - unfold slot, TPM2_HANDLE in Hold. rewrite Hnone in Hold. discriminate.
  - lia.
Qed.

Lemma set_handle_handles (command : Tpm2Command) (h : TPM2_HANDLE) (n : nat) :
  cmd_connection (tpm2_command_set_handle command h n) = cmd_connection command
  /\ length (cmd_handles (tpm2_command_set_handle command h n))
     = length (cmd_handles command)
  /\ (forall j, j <> n -> cmd_handles (tpm2_command_set_handle command h n) !! j
                          = cmd_handles command !! j)
  /\ ((n < length (cmd_handles command))%nat ->
      cmd_handles (tpm2_command_set_handle command h n) !! n = Some h).
Proof.
  unfold tpm2_command_set_handle.
  destruct (Nat.ltb_spec n (length (cmd_handles command))) as [Hn|Hn];
    cbn [cmd_connection cmd_handles].
  - split; [reflexivity|]. split; [apply length_insert|].
    split; [intros j Hj; apply list_lookup_insert_ne; intro E; apply Hj; symmetry; exact E|].
    intros _. apply list_lookup_insert_eq. exact Hn.
  - split; [reflexivity|]. split; [reflexivity|]. split; [reflexivity|]. intros H. lia.
Qed.

(** The handle area after the loads, index by index. *)
Lemma load_handles_loop_handles (hs : list TPM2_HANDLE) (i : nat)
  (st : State) command slist rc :
  let res := load_handles_loop broker hs i (st, command, slist, rc) in
  let command' := snd (fst (fst res)) in
  let map := vhandle_to_entry (trans_maps (transients st) (cmd_connection command)) in
  (forall j, (j < i)%nat -> cmd_handles command' !! j = cmd_handles command !! j)
  /\ (forall k h, hs !! k = Some h ->
        (i + k < length (cmd_handles command))%nat ->
        match (if handle_type h =? TPM2_HT_TRANSIENT then map !! h else None) with
        | None => cmd_handles command' !! (i + k)%nat = cmd_handles command !! (i + k)%nat
        | Some e =>
            exists t,
              let ld := ab_context_load broker t (hme_context (entries (transients st) e)) in
              cmd_handles command' !! (i + k)%nat
              = if fst (fst ld) =? TSS2_RC_SUCCESS then Some (snd (fst ld))
                else cmd_handles command !! (i + k)%nat
        end).
Proof.
  revert i st command slist rc.
  induction hs as [|h hs IH]; intros i st command slist rc; cbn [load_handles_loop fst snd].
  - split; [reflexivity|]. intros k h Hk. discriminate.
  - set (acc' := if handle_type h =? TPM2_HT_TRANSIENT
                 then resource_manager_load_transient broker st command slist h i
                 else if is_session_type (handle_type h)
                      then (fst (resource_manager_load_session_from_handle broker st
                                   (cmd_connection command) h false),
                            command, slist,
                            snd (resource_manager_load_session_from_handle broker st
                                   (cmd_connection command) h false))
                      else (st, command, slist, rc)).
    assert (Hstep :
      trans_maps (transients (fst (fst (fst acc')))) = trans_maps (transients st)
      /\ (forall r, hme_context (entries (transients (fst (fst (fst acc')))) r)
                    = hme_context (entries (transients st) r))
      /\ cmd_connection (snd (fst (fst acc'))) = cmd_connection command
      /\ length (cmd_handles (snd (fst (fst acc')))) = length (cmd_handles command)
      /\ (forall j, j <> i -> cmd_handles (snd (fst (fst acc'))) !! j
                              = cmd_handles command !! j)
      /\ ((i < length (cmd_handles command))%nat ->
          match (if handle_type h =? TPM2_HT_TRANSIENT
                 then vhandle_to_entry (trans_maps (transients st) (cmd_connection command))
                      !! h
                 else None) with
          | None => cmd_handles (snd (fst (fst acc'))) !! i = cmd_handles command !! i
          | Some e =>
              exists t,
                let ld := ab_context_load broker t
                            (hme_context (entries (transients st) e)) in
                cmd_handles (snd (fst (fst acc'))) !! i
                = if fst (fst ld) =? TSS2_RC_SUCCESS then Some (snd (fst ld))
                  else cmd_handles command !! i
          end)).
    { subst acc'. destruct (handle_type h =? TPM2_HT_TRANSIENT).
      - unfold resource_manager_load_transient, handle_map_vlookup,
          connection_get_trans_map.
        destruct (vhandle_to_entry _ !! h) as [e|]; cbn [fst snd];
          [|repeat split; reflexivity].
        pose proof (virt_to_phys_maps st command e i) as [Hm Hc]. cbn zeta in Hm, Hc.
        assert (Hcmd : snd (fst (resource_manager_virt_to_phys broker st command e i))
                       = if fst (fst (ab_context_load broker (tpm st)
                                        (hme_context (entries (transients st) e))))
                            =? TSS2_RC_SUCCESS
                         then tpm2_command_set_handle command
                                (snd (fst (ab_context_load broker (tpm st)
                                             (hme_context (entries (transients st) e))))) i
                         else command).
        { unfold resource_manager_virt_to_phys, get_entry.
          destruct (_ =? TSS2_RC_SUCCESS); reflexivity. }
        assert (Hgoal :
          trans_maps (transients (fst (fst (resource_manager_virt_to_phys broker st command
                                              e i)))) = trans_maps (transients st)
          /\ (forall r, hme_context (entries (transients
                          (fst (fst (resource_manager_virt_to_phys broker st command e i))))
                          r) = hme_context (entries (transients st) r))
          /\ cmd_connection (snd (fst (resource_manager_virt_to_phys broker st command e i)))
             = cmd_connection command
          /\ length (cmd_handles (snd (fst (resource_manager_virt_to_phys broker st command
                                              e i)))) = length (cmd_handles command)
          /\ (forall j, j <> i ->
                cmd_handles (snd (fst (resource_manager_virt_to_phys broker st command e i)))
                !! j = cmd_handles command !! j)
          /\ ((i < length (cmd_handles command))%nat ->
              exists t,
                let ld := ab_context_load broker t
                            (hme_context (entries (transients st) e)) in
                cmd_handles (snd (fst (resource_manager_virt_to_phys broker st command e i)))
                !! i
                = if fst (fst ld) =? TSS2_RC_SUCCESS then Some (snd (fst ld))
                  else cmd_handles command !! i)).
        { split; [exact Hm|]. split; [exact Hc|]. rewrite Hcmd.
          destruct (_ =? TSS2_RC_SUCCESS) eqn:Hrc.
          - destruct (set_handle_handles command
                        (snd (fst (ab_context_load broker (tpm st)
                                     (hme_context (entries (transients st) e))))) i)
              as (S1 & S2 & S3 & S4).
            split; [exact S1|]. split; [exact S2|]. split; [exact S3|].
            intros Hlt. exists (tpm st). cbn zeta. rewrite Hrc. apply S4, Hlt.
          - split; [reflexivity|]. split; [reflexivity|]. split; [reflexivity|].
            intros _. exists (tpm st). cbn zeta. rewrite Hrc. reflexivity. }
        destruct (negb _); cbn [fst snd]; exact Hgoal.
      - destruct (is_session_type (handle_type h)); cbn [fst snd].
        + destruct (load_session_load_step broker st (cmd_connection command) h false)
            as [_ Ht]. cbn zeta in Ht. rewrite Ht. repeat split; reflexivity.
        + repeat split; reflexivity. }
    destruct acc' as [[[st1 command1] slist1] rc1]. cbn [fst snd] in Hstep.
    destruct Hstep as (Hm & Hc & Hconn & Hlen & Hother & Hi).
    destruct (IH (S i) st1 command1 slist1 rc1) as [Hlow Hup]. cbn zeta in Hlow, Hup.
    split.
    + intros j Hj. rewrite Hlow by lia. apply Hother. lia.
    + intros k h' Hk Hlt. destruct k as [|k].
      * cbn in Hk. injection Hk as <-. rewrite Nat.add_0_r in *.
        rewrite Hlow by lia. apply Hi. exact Hlt.
      * cbn in Hk. replace (i + S k)%nat with (S i + k)%nat by lia.
        specialize (Hup k h' Hk). rewrite Hlen in Hup.
        specialize (Hup ltac:(lia)). rewrite Hconn, Hm in Hup.
        rewrite (Hother (S i + k)%nat) in Hup by lia.
        destruct (if handle_type h' =? TPM2_HT_TRANSIENT
                  then vhandle_to_entry (trans_maps (transients st) (cmd_connection command))
                       !! h'
                  else None) as [e|]; [|exact Hup].
        destruct Hup as [t Ht]. exists t. cbn zeta in *. rewrite Hc in Ht. exact Ht.
Qed.

(** The loads keep the buffer in step with the handle area. *)
Lemma load_handles_loop_in_buffer (hs : list TPM2_HANDLE) (i : nat)
  (st : State) command slist rc :
  handle_area_in_buffer command ->
  handle_area_in_buffer
    (snd (fst (fst (load_handles_loop broker hs i (st, command, slist, rc))))).
Proof.
  revert i st command slist rc.
  induction hs as [|h hs IH]; intros i st command slist rc Hb;
    cbn [load_handles_loop fst snd]; [exact Hb|].
  destruct (handle_type h =? TPM2_HT_TRANSIENT).
  - unfold resource_manager_load_transient.
    destruct (handle_map_vlookup _ h) as [e|]; [|apply IH; exact Hb].
    unfold resource_manager_virt_to_phys.
    destruct (fst (fst (ab_context_load broker (tpm st) _)) =? TSS2_RC_SUCCESS) eqn:Hrc;
      cbn [fst snd negb]; rewrite ?Hrc; cbn [negb]; apply IH;
      [apply set_handle_in_buffer|]; exact Hb.
  - destruct (is_session_type (handle_type h)); apply IH; exact Hb.
Qed.
(** X12: resource_manager_load_handles reads the handle area to an array of
    TPM2_COMMAND_MAX_HANDLES handles.  When the handle area does not fit
    the array the daemon aborts.  When it fits, the handle area is rewritten
    from virtual to physical, handle by handle, in the command buffer (the
    four bytes of a handle in the buffer are those of the handle after the
    loads, and the buffer behind the handle area is not written), and the
    command is otherwise as it was: a handle that is not of the transient
    range, or that the HandleMap of the connection does not know, is left
    as it is; a vhandle the map knows is replaced by the physical handle
    the TPM loaded the saved context of its entry at, and is left as it is
    when that load fails. *)
Theorem load_handles_translates (st : State) (command : Tpm2Command) :
  (~ handle_area_readable command ->
   resource_manager_load_handles broker st command [] = None)
  /\ (handle_area_readable command ->
      exists res,
        resource_manager_load_handles broker st command [] = Some res
        /\ let command' := snd (fst (fst res)) in
           same_but_handles command command'
           /\ (handle_area_in_buffer command -> handle_area_in_buffer command')
           /\ forall (i : nat) (h : TPM2_HANDLE),
                cmd_handles command !! i = Some h ->
                (i < TPM2_COMMAND_MAX_HANDLES)%nat
                /\ match (if handle_type h =? TPM2_HT_TRANSIENT
                          then handle_table st (cmd_connection command) !! h
                          else None) with
                   | None => cmd_handles command' !! i = Some h
                   | Some e =>
                       exists t,
                         let ld := ab_context_load broker t
                                     (hme_context (entries (transients st) e)) in
                         cmd_handles command' !! i
                         = Some (if fst (fst ld) =? TSS2_RC_SUCCESS
                                 then snd (fst ld) else h)
                   end).
Proof.
  unfold resource_manager_load_handles, tpm2_command_get_handles, handle_area_readable.
  split; intros Hr.
  { destruct (Nat.leb_spec (length (cmd_handles command)) TPM2_COMMAND_MAX_HANDLES);
      [contradiction|reflexivity]. }
  rewrite (proj2 (Nat.leb_le _ _) Hr). eexists. split; [reflexivity|]. cbn zeta.
  split.
  { destruct (load_handles_loop_load_step broker (cmd_handles command) 0 st command []
                TSS2_RC_SUCCESS) as [_ Hsame]. exact Hsame. }
  split; [apply load_handles_loop_in_buffer|].
  intros i h Hi.
  pose proof (lookup_lt_Some _ _ _ Hi) as Hlt. split; [lia|].
  destruct (load_handles_loop_handles (cmd_handles command) 0 st command []
              TSS2_RC_SUCCESS) as [_ H].
  cbn zeta in H. specialize (H i h Hi). cbn [Nat.add] in H.
  specialize (H Hlt). unfold handle_table.
  destruct (if handle_type h =? TPM2_HT_TRANSIENT
            then vhandle_to_entry (trans_maps (transients st) (cmd_connection command)) !! h
            else None) as [e|].
  - destruct H as [t Ht]. exists t. cbn zeta in *. rewrite Ht, Hi.
    destruct (_ =? TSS2_RC_SUCCESS); reflexivity.
  - rewrite H. exact Hi.
Qed.

End VirtualHandles.

Lemma initial_state_below_counter (cap scap : nat) :
  vhandles_below_counter (transients (initial_state cap scap)).
Proof. intros c v r Hs. unfold slot in Hs. cbn in Hs. rewrite lookup_empty in Hs. discriminate. Qed.

(** An instance of X9: the first object of connection 1. *)
Lemma new_transient_gets_fresh_vhandle_witness :
  let st := initial_state 1 1 in
  let response := create_primary_response 1 in
  let v := 0x80000001 in
  let e := 0%nat in
  let res := resource_manager_create_context_mapping example_client_context st response [] in
  snd res = Some (tpm2_response_set_handle response v, [e; e])
  /\ tpm2_response_get_handle (tpm2_response_set_handle response v) = v
  /\ handle_type v = TPM2_HT_TRANSIENT
  /\ handle_table st 1 !! v = None
  /\ handle_table (fst res) 1 = <[v := e]> (handle_table st 1)
  /\ (forall c, c <> 1%nat ->
        trans_maps (transients (fst res)) c = trans_maps (transients st) c)
  /\ entries (transients (fst res)) e = handle_map_entry_new 0x80000000 v
  /\ (forall r, r <> e -> entries (transients (fst res)) r = entries (transients st) r)
  /\ fatal (fst res) = fatal st.
Proof.
  apply (new_transient_gets_fresh_vhandle example_client_context (initial_state 1 1)
           (create_primary_response 1) []).
  - reflexivity.
  - reflexivity.
  - reflexivity.
  - apply initial_state_below_counter.
Defined.

(** An instance of X10: an object created when the vhandles have run out. *)
Lemma vhandle_rollover_aborts_witness :
  let st := exhausted_state in
  let res := resource_manager_create_context_mapping example_client_context st
               (create_primary_response 1) [] in
  snd res = None
  /\ fatal (fst res) = true
  /\ sink (fst res) = sink st
  /\ (forall c, handle_table (fst res) c = handle_table st c)
  /\ entries (transients (fst res)) = entries (transients st)
  /\ next_entry (transients (fst res)) = next_entry (transients st).
Proof.
  apply (vhandle_rollover_aborts example_client_context exhausted_state
           (create_primary_response 1) []).
  - reflexivity.
  - reflexivity.
  - change (TPM2_HR_RANGE_MASK <= Z.of_nat (Z.to_nat TPM2_HR_RANGE_MASK)).
    unfold TPM2_HR_RANGE_MASK. lia.
Defined.

(** An instance of X11: connection 1 creates its first object. *)
Lemma vhandles_are_not_reused_witness :
  let st := initial_state 1 1 in
  let st' := example_run obliging_script st (create_primary_command 1) in
  vhandles_below_counter (transients st')
  /\ forall c v,
       v < TPM2_HR_TRANSIENT + Z.of_nat (handle_count (trans_maps (transients st) c)) ->
       handle_table st c !! v = None -> handle_table st' c !! v = None.
Proof.
  apply (vhandles_are_not_reused (mock_broker obliging_script) example_codes
           example_client_context (initial_state 1 1) (create_primary_command 1)).
  apply initial_state_below_counter.
Defined.

(** An instance of X12: ReadPublic on the object of connection 1. *)
Lemma load_handles_translates_witness :
  let st := one_object_state in
  let command := read_public_command 1 0x80000001 in
  exists res,
    resource_manager_load_handles (mock_broker obliging_script) st command [] = Some res
    /\ let command' := snd (fst (fst res)) in
       same_but_handles command command'
       /\ (handle_area_in_buffer command -> handle_area_in_buffer command')
       /\ forall (i : nat) (h : TPM2_HANDLE),
            cmd_handles command !! i = Some h ->
            (i < TPM2_COMMAND_MAX_HANDLES)%nat
            /\ match (if handle_type h =? TPM2_HT_TRANSIENT
                      then handle_table st (cmd_connection command) !! h
                      else None) with
               | None => cmd_handles command' !! i = Some h
               | Some e =>
                   exists t,
                     let ld := ab_context_load (mock_broker obliging_script) t
                                 (hme_context (entries (transients st) e)) in
                     cmd_handles command' !! i
                     = Some (if fst (fst ld) =? TSS2_RC_SUCCESS
                             then snd (fst ld) else h)
               end.
Proof.
  apply (proj2 (load_handles_translates (mock_broker obliging_script) one_object_state
                  (read_public_command 1 0x80000001))).
  vm_compute. lia.
Defined.

(** ** Tracking a session the TPM hands out *)

Section SessionMapping.

Context {TPM : Type}.
Variable client_context : Connection -> TPM2_HANDLE -> list Z.

Abbreviation State := (ResourceManager TPM).

(** X13: when the response of the TPM carries a session handle, the
    response goes on as it is (session handles are not virtualised) and the
    transient objects are untouched.  A handle the SessionList does not know
    gets a new entry, owned by the connection of the response, in state
    LOADED, with the client context chosen for it and no saved context yet;
    the entry is the one the handle is looked up to from then on, and the
    sessions tracked before are tracked as before.  For a handle the
    SessionList knows nothing changes. *)
Theorem session_handle_is_tracked (st : State) (response : Tpm2Response)
  (slist : list nat) :
  tpm2_response_has_handle response = true ->
  is_session_type (handle_type (tpm2_response_get_handle response)) = true ->
  let h := tpm2_response_get_handle response in
  let conn := resp_connection response in
  let res := resource_manager_create_context_mapping client_context st response slist in
  snd res = Some (response, slist)
  /\ transients (fst res) = transients st
  /\ match session_list_lookup_handle (sess st) h with
     | Some r => fst res = st
     | None =>
         let r := next_session (sess st) in
         sessions (sess (fst res)) r
         = {| se_handle := h; se_connection := conn; se_state := SESSION_ENTRY_LOADED;
              se_context := []; se_context_client := client_context conn h |}
         /\ session_list_lookup_handle (sess (fst res)) h = Some r
         /\ session_entry_slist (session_list (sess (fst res)))
            = r :: session_entry_slist (session_list (sess st))
         /\ abandoned_queue (session_list (sess (fst res)))
            = abandoned_queue (session_list (sess st))
         /\ next_session (sess (fst res)) = S r
         /\ (forall x, x <> r -> sessions (sess (fst res)) x = sessions (sess st) x)
     end.
Proof.
  intros Hhas Htype h conn res. subst res.
  unfold resource_manager_create_context_mapping. rewrite Hhas. cbn [negb].
  fold h. fold h in Htype.
  rewrite (session_type_not_transient _ Htype), Htype. cbn [fst snd].
  split; [reflexivity|].
  unfold create_context_mapping_session. fold conn.
  destruct (session_list_lookup_handle (sess st) h) as [r|] eqn:Hl.
  - split; reflexivity.
  - split; [reflexivity|]. cbn zeta.
    split; [cbn; apply fn_lookup_insert|].
    split.
    { unfold session_list_lookup_handle. cbn. rewrite fn_lookup_insert. cbn.
      rewrite Z.eqb_refl. reflexivity. }
    split; [reflexivity|]. split; [reflexivity|]. split; [reflexivity|].
    intros x Hx. cbn. apply fn_lookup_insert_ne. intro E. apply Hx. symmetry. exact E.
Qed.

End SessionMapping.

(** An instance of X13: the first session of connection 1. *)
Lemma session_handle_is_tracked_witness :
  let st := initial_state 1 1 in
  let response := start_auth_session_response 1 in
  let res := resource_manager_create_context_mapping example_client_context st response [] in
  snd res = Some (response, [])
  /\ transients (fst res) = transients st
  /\ sessions (sess (fst res)) 0
     = {| se_handle := 0x02000000; se_connection := 1;
          se_state := SESSION_ENTRY_LOADED; se_context := [];
          se_context_client := example_client_context 1 0x02000000 |}
     /\ session_list_lookup_handle (sess (fst res)) 0x02000000 = Some 0%nat
     /\ session_entry_slist (session_list (sess (fst res))) = [0%nat]
     /\ abandoned_queue (session_list (sess (fst res))) = []
     /\ next_session (sess (fst res)) = 1%nat
     /\ (forall x, x <> 0%nat -> sessions (sess (fst res)) x = sessions (sess st) x).
Proof.
  apply (session_handle_is_tracked example_client_context (initial_state 1 1)
           (start_auth_session_response 1) []).
  - reflexivity.
  - reflexivity.
Defined.

(** ** Objects the TPM has flushed itself *)

Section FlushedByTheTpm.

Context {TPM : Type}.
Variable broker : AccessBroker TPM.

Abbreviation State := (ResourceManager TPM).

Lemma remove_entry_frame (conn : Connection) (st : State) (e : nat) :
  let st' := remove_entry_from_handle_map conn st e in
  calls st' = calls st /\ tpm st' = tpm st /\ sess st' = sess st
  /\ (forall c, c <> conn ->
        trans_maps (transients st') c = trans_maps (transients st) c).
Proof.
  unfold remove_entry_from_handle_map.
  destruct (handle_type _ =? TPM2_HT_TRANSIENT); [|repeat split].
  cbn. repeat split. intros c Hc.
  apply fn_lookup_insert_ne. intro E. apply Hc. symmetry. exact E.
Qed.

Lemma remove_entries_frame (conn : Connection) (l : list nat) (st : State) :
  let st' := fold_left (remove_entry_from_handle_map conn) l st in
  calls st' = calls st /\ tpm st' = tpm st /\ sess st' = sess st
  /\ (forall c, c <> conn ->
        trans_maps (transients st') c = trans_maps (transients st) c).
Proof.
  revert st. induction l as [|e l IH]; intros st; cbn [fold_left]; [repeat split|].
  destruct (IH (remove_entry_from_handle_map conn st e)) as (H1 & H2 & H3 & H4).
  destruct (remove_entry_frame conn st e) as (G1 & G2 & G3 & G4).
  cbn zeta in *. rewrite H1, H2, H3, G1, G2, G3. repeat split.
  intros c Hc. rewrite H4, G4 by exact Hc. reflexivity.
Qed.

(** X14: after a command whose attributes say that the TPM flushes the
    objects it used (TPMA_CC_FLUSHED), the resource manager does not save
    the transients it loaded for the command: it makes no call on the
    AccessBroker, and every listed entry whose vhandle is of the transient
    range is gone from the HandleMap of the connection.  Nothing is added
    to a map, the entries themselves and the maps of the other connections
    are as they were. *)
Theorem flushed_objects_are_forgotten (st : State) (slist : list nat)
  (conn : Connection) (attrs : TPMA_CC) :
  Z.land attrs TPMA_CC_FLUSHED <> 0 ->
  let st' := post_process_loaded_transients broker st slist conn attrs in
  calls st' = calls st
  /\ (forall e, In e slist ->
        handle_type (hme_vhandle (entries (transients st) e)) = TPM2_HT_TRANSIENT ->
        handle_table st' conn !! hme_vhandle (entries (transients st) e) = None)
  /\ (forall c v r, handle_table st' c !! v = Some r -> handle_table st c !! v = Some r)
  /\ (forall c, c <> conn ->
        trans_maps (transients st') c = trans_maps (transients st) c)
  /\ entries (transients st') = entries (transients st)
  /\ sess st' = sess st.
Proof.
  intros Hattrs st'. subst st'. unfold post_process_loaded_transients.
  apply Z.eqb_neq in Hattrs. rewrite Hattrs.
  destruct (remove_entries_frame conn slist st) as (Hc & _ & Hs & Hm).
  destruct (remove_fold (fun _ _ => []) conn slist st) as ((He & _ & Hsl) & Hrm).
  cbn zeta in *.
  split; [exact Hc|]. split.
  { intros e Hin Htype. unfold handle_table.
    destruct (vhandle_to_entry _ !! _) as [r|] eqn:Hl; [|reflexivity].
    exfalso. exact (Hrm e _ r Hin eq_refl Htype Hl). }
  split; [intros c v r; apply Hsl|].
  split; [exact Hm|]. split; [exact He|exact Hs].
Qed.

End FlushedByTheTpm.

(** An instance of X14: the object of connection 1, used by a command
    after which the TPM flushes it. *)
Lemma flushed_objects_are_forgotten_witness :
  let st := one_object_state in
  let st' := post_process_loaded_transients (mock_broker obliging_script) st [0%nat] 1
               TPMA_CC_FLUSHED in
  calls st' = calls st
  /\ (forall e, In e [0%nat] ->
        handle_type (hme_vhandle (entries (transients st) e)) = TPM2_HT_TRANSIENT ->
        handle_table st' 1 !! hme_vhandle (entries (transients st) e) = None)
  /\ (forall c v r, handle_table st' c !! v = Some r -> handle_table st c !! v = Some r)
  /\ (forall c, c <> 1%nat ->
        trans_maps (transients st') c = trans_maps (transients st) c)
  /\ entries (transients st') = entries (transients st)
  /\ sess st' = sess st.
Proof.
  apply (flushed_objects_are_forgotten (mock_broker obliging_script) one_object_state
           [0%nat] 1 TPMA_CC_FLUSHED).
  vm_compute. discriminate.
Defined.

(** ** Closing a connection *)

Section ClosingAConnection.

Context {TPM : Type}.
Variable broker : AccessBroker TPM.

Abbreviation State := (ResourceManager TPM).
Abbreviation close := (connection_close_session_callback broker).

(** Pruning the abandoned FIFO: what is over MAX_ABANDONED is taken from
    the old end, one context_flush each, oldest first. *)
Lemma prune_fold (l rest : list nat) (st : State) :
  abandoned_queue (session_list (sess st)) = l ++ rest ->
  let st' := fold_left
               (fun s entry =>
                  fst (flush_session_callback broker
                         (with_sess s (session_list_pop_abandoned (sess s))) entry)) l st in
  sessions (sess st') = sessions (sess st)
  /\ next_session (sess st') = next_session (sess st)
  /\ session_entry_slist (session_list (sess st'))
     = session_entry_slist (session_list (sess st))
  /\ max_per_connection (session_list (sess st'))
     = max_per_connection (session_list (sess st))
  /\ abandoned_queue (session_list (sess st')) = rest
  /\ calls st' = calls st
                 ++ map (fun r => CallContextFlush (se_handle (sessions (sess st) r))) l
  /\ transients st' = transients st /\ sink st' = sink st /\ fatal st' = fatal st.
Proof.
  revert st. induction l as [|x l IH]; intros st Hq; cbn [fold_left map].
  - rewrite app_nil_r. repeat split. exact Hq.
  - set (st1 := fst (flush_session_callback broker
                       (with_sess st (session_list_pop_abandoned (sess st))) x)).
    assert (H1 : sessions (sess st1) = sessions (sess st)
                 /\ next_session (sess st1) = next_session (sess st)
                 /\ session_entry_slist (session_list (sess st1))
                    = session_entry_slist (session_list (sess st))
                 /\ max_per_connection (session_list (sess st1))
                    = max_per_connection (session_list (sess st))
                 /\ abandoned_queue (session_list (sess st1)) = l ++ rest
                 /\ calls st1 = calls st ++ [CallContextFlush (se_handle (sessions (sess st) x))]
                 /\ transients st1 = transients st /\ sink st1 = sink st
                 /\ fatal st1 = fatal st).
    { subst st1. unfold flush_session_callback.
      destruct (negb _); cbn; rewrite Hq; repeat split. }
    destruct H1 as (A1 & A2 & A3 & A4 & A5 & A6 & A7 & A8 & A9).
    destruct (IH st1 A5) as (B1 & B2 & B3 & B4 & B5 & B6 & B7 & B8 & B9).
    cbn zeta in *. rewrite B1, B2, B3, B4, B5, B6, B7, B8, B9, A1, A2, A3, A4, A6, A7, A8, A9.
    rewrite <- app_assoc. repeat split.
Qed.

Lemma prune_abandoned_spec (st : State) :
  let queue := abandoned_queue (session_list (sess st)) in
  let n := (length queue - MAX_ABANDONED)%nat in
  let st' := session_list_prune_abandoned st (flush_session_callback broker) in
  sessions (sess st') = sessions (sess st)
  /\ next_session (sess st') = next_session (sess st)
  /\ session_entry_slist (session_list (sess st'))
     = session_entry_slist (session_list (sess st))
  /\ max_per_connection (session_list (sess st'))
     = max_per_connection (session_list (sess st))
  /\ abandoned_queue (session_list (sess st')) = drop n queue
  /\ calls st' = calls st
                 ++ map (fun r => CallContextFlush (se_handle (sessions (sess st) r)))
                      (take n queue)
  /\ transients st' = transients st /\ sink st' = sink st /\ fatal st' = fatal st.
Proof.
  cbn zeta. unfold session_list_prune_abandoned.
  apply prune_fold. symmetry. apply take_drop.
Qed.

(** X15: when a connection is closed, a session of it that is in state
    SAVED_RM is flushed from the TPM with one context_flush on its handle
    and leaves the SessionList, whether the flush succeeds or not.  The
    other sessions stay listed, and no session object, nor the abandoned
    queue, changes. *)
Theorem close_flushes_saved_rm_session (st : State) (conn : Connection) (e : nat) :
  se_connection (sessions (sess st) e) = conn ->
  se_state (sessions (sess st) e) = SESSION_ENTRY_SAVED_RM ->
  let st' := close conn st e in
  calls st' = calls st ++ [CallContextFlush (se_handle (sessions (sess st) e))]
  /\ ~ In e (session_entry_slist (session_list (sess st')))
  /\ (forall r, r <> e ->
        (In r (session_entry_slist (session_list (sess st')))
         <-> In r (session_entry_slist (session_list (sess st)))))
  /\ sessions (sess st') = sessions (sess st)
  /\ abandoned_queue (session_list (sess st')) = abandoned_queue (session_list (sess st))
  /\ fatal st' = fatal st.
Proof.
  intros Hconn Hstate st'. subst st'. unfold connection_close_session_callback, get_session.
  rewrite Hconn, Nat.eqb_refl, Hstate. cbn.
  split; [reflexivity|]. split.
  { rewrite filter_In, Nat.eqb_refl. cbn. intros [_ H]. discriminate. }
  split; [|repeat split].
  intros r Hr. rewrite filter_In, negb_true_iff, Nat.eqb_neq. tauto.
Qed.

(** X16: when a connection is closed, a session of it that is in state
    SAVED_CLIENT (its context is with the client) is abandoned: it leaves
    the active list and becomes the newest entry of the abandoned FIFO, in
    state SAVED_CLIENT_CLOSED.  The FIFO stays within MAX_ABANDONED: when
    it was full, its oldest entry is dropped and flushed from the TPM with
    one context_flush, and that is the only call made; when it had room, no
    call is made. *)
Theorem close_abandons_saved_client_session (st : State) (conn : Connection) (e : nat) :
  se_connection (sessions (sess st) e) = conn ->
  se_state (sessions (sess st) e) = SESSION_ENTRY_SAVED_CLIENT ->
  session_list_lookup_handle (sess st) (se_handle (sessions (sess st) e)) = Some e ->
  (length (abandoned_queue (session_list (sess st))) <= MAX_ABANDONED)%nat ->
  let queue := abandoned_queue (session_list (sess st)) in
  let st' := close conn st e in
  sessions (sess st') e
  = session_entry_set_state (sessions (sess st) e) SESSION_ENTRY_SAVED_CLIENT_CLOSED
  /\ (forall r, r <> e -> sessions (sess st') r = sessions (sess st) r)
  /\ ~ In e (session_entry_slist (session_list (sess st')))
  /\ (forall r, r <> e ->
        (In r (session_entry_slist (session_list (sess st')))
         <-> In r (session_entry_slist (session_list (sess st)))))
  /\ (length (abandoned_queue (session_list (sess st'))) <= MAX_ABANDONED)%nat
  /\ fatal st' = fatal st
  /\ match queue with
     | oldest :: rest =>
         if (length queue <? MAX_ABANDONED)%nat
         then abandoned_queue (session_list (sess st')) = queue ++ [e]
              /\ calls st' = calls st
         else abandoned_queue (session_list (sess st')) = rest ++ [e]
              /\ calls st' = calls st
                             ++ [CallContextFlush (se_handle (sessions (sess st) oldest))]
     | [] => abandoned_queue (session_list (sess st')) = [e] /\ calls st' = calls st
     end.
Proof.
  intros Hconn Hstate Hlook Hlen queue st'. subst st'.
  unfold connection_close_session_callback, get_session.
  rewrite Hconn, Nat.eqb_refl, Hstate. cbn [negb]. cbv iota.
  unfold session_list_abandon_handle. rewrite Hlook. cbn [snd].
  set (st1 := with_sess st _).
  destruct (prune_abandoned_spec st1) as (P1 & _ & P3 & _ & P5 & P6 & _ & _ & P9).
  cbn zeta in *. rewrite P1, P3, P5, P6, P9. subst st1. cbn. fold queue.
  split; [apply fn_lookup_insert|].
  split; [intros r Hr; apply fn_lookup_insert_ne; intro E; apply Hr; symmetry; exact E|].
  split.
  { rewrite filter_In, Nat.eqb_refl. cbn. intros [_ H]. discriminate. }
  split.
  { intros r Hr. rewrite filter_In, negb_true_iff, Nat.eqb_neq. tauto. }
  split.
  { rewrite length_drop, length_app. cbn. fold queue in Hlen. unfold MAX_ABANDONED in *. lia. }
  split; [reflexivity|].
  fold queue in Hlen. unfold MAX_ABANDONED in *.
  destruct queue as [|oldest rest] eqn:Hq.
  - cbn. rewrite app_nil_r. split; reflexivity.
  - destruct (Nat.leb_spec (length (oldest :: rest)) 3) as [Hlt|Hge].
    + replace (length ((oldest :: rest) ++ [e]) - 4)%nat with 0%nat
        by (rewrite length_app; cbn in *; lia).
      cbn. rewrite app_nil_r. split; reflexivity.
    + replace (length ((oldest :: rest) ++ [e]) - 4)%nat with 1%nat
        by (rewrite length_app; cbn in *; lia).
      cbn. split; [reflexivity|].
      destruct (decide (e = oldest)) as [<-|Hne].
      * rewrite fn_lookup_insert. reflexivity.
      * rewrite fn_lookup_insert_ne by exact Hne. reflexivity.
Qed.


Lemma lookup_handle_filter (ss : SessionStore) (f : nat -> SessionEntry) (e r : nat)
  (q : list nat) (n m : nat) (h : TPM2_HANDLE) :
  (forall x, se_handle (f x) = se_handle (sessions ss x)) ->
  e <> r ->
  session_list_lookup_handle ss h = Some r ->
  session_list_lookup_handle
    {| sessions := f; next_session := n;
       session_list :=
         {| session_entry_slist :=
              List.filter (fun r' => negb (r' =? e)%nat)
                (session_entry_slist (session_list ss));
            abandoned_queue := q; max_per_connection := m |} |} h = Some r.
Proof.
  intros Hf Hne Hl. unfold session_list_lookup_handle in *. cbn.
  rewrite (find_ext_in _ (fun r0 => se_handle (sessions ss r0) =? h))
    by (intros x; rewrite Hf; reflexivity).
  apply find_filter_other; assumption.
Qed.

(** One step of closing a connection. *)
Lemma close_step (conn : Connection) (st : State) (e : nat) :
  session_handles_unique st ->
  (se_state (sessions (sess st) e) = SESSION_ENTRY_SAVED_CLIENT ->
   In e (session_entry_slist (session_list (sess st)))) ->
  let owned := se_connection (sessions (sess st) e) = conn in
  let st' := close conn st e in
  (forall r, se_handle (sessions (sess st') r) = se_handle (sessions (sess st) r)
             /\ se_connection (sessions (sess st') r) = se_connection (sessions (sess st) r))
  /\ (forall r, r <> e -> sessions (sess st') r = sessions (sess st) r)
  /\ (~ owned -> st' = st)
  /\ (forall r, In r (session_entry_slist (session_list (sess st'))) ->
                In r (session_entry_slist (session_list (sess st))))
  /\ (forall r, r <> e -> In r (session_entry_slist (session_list (sess st))) ->
                In r (session_entry_slist (session_list (sess st'))))
  /\ (owned -> fatal st' = false -> ~ In e (session_entry_slist (session_list (sess st'))))
  /\ (owned -> se_state (sessions (sess st') e) <> SESSION_ENTRY_SAVED_CLIENT)
  /\ session_handles_unique st'.
Proof.
  intros Hu Hj owned st'. subst st' owned.
  unfold connection_close_session_callback, get_session.
  destruct (Nat.eqb_spec (se_connection (sessions (sess st) e)) conn) as [Hc|Hc];
    cbn [negb].
  2:{ repeat split; auto; contradiction. }
  destruct (se_state (sessions (sess st) e)) eqn:Hstate.
  - (* LOADED *)
    cbn. repeat split; auto; try discriminate; try contradiction;
      try (intros; rewrite Hstate; discriminate).
  - (* SAVED_RM *)
    cbn. split; [auto|]. split; [auto|]. split; [intros H; contradiction|].
    split; [intros r Hr; apply filter_In in Hr; apply Hr|].
    split.
    { intros r Hr Hin. apply filter_In. split; [exact Hin|].
      apply negb_true_iff, Nat.eqb_neq. exact Hr. }
    split.
    { intros _ _ Hin. apply filter_In in Hin. destruct Hin as [_ Hin].
      rewrite Nat.eqb_refl in Hin. discriminate. }
    split; [intros _; rewrite Hstate; discriminate|].
    intros r Hr. cbn in Hr. apply filter_In in Hr. destruct Hr as [Hr Hne].
    apply negb_true_iff, Nat.eqb_neq in Hne.
    apply (lookup_handle_filter (sess st) (sessions (sess st)) e r);
      [intros x; reflexivity|intro E; apply Hne; symmetry; exact E|apply Hu, Hr].
  - (* SAVED_CLIENT *)
    specialize (Hj eq_refl). pose proof (Hu e Hj) as Hlook.
    unfold session_list_abandon_handle. rewrite Hlook. cbn [snd].
    set (st1 := with_sess st _).
    destruct (prune_abandoned_spec st1) as (P1 & P2 & P3 & P4 & P5 & _ & _ & _ & P9).
    cbn zeta in *.
    set (st2 := session_list_prune_abandoned st1 (flush_session_callback broker)) in *.
    assert (Hobj : forall r, sessions (sess st2) r
                             = if decide (e = r)
                               then session_entry_set_state (sessions (sess st) e)
                                      SESSION_ENTRY_SAVED_CLIENT_CLOSED
                               else sessions (sess st) r).
    { intros r. rewrite P1. subst st1. cbn. destruct (decide (e = r)) as [<-|Hne].
      - apply fn_lookup_insert.
      - apply fn_lookup_insert_ne. exact Hne. }
    assert (Hact : session_entry_slist (session_list (sess st2))
                   = List.filter (fun r' => negb (r' =? e)%nat)
                       (session_entry_slist (session_list (sess st))))
      by (rewrite P3; reflexivity).
    split.
    { intros r. rewrite Hobj. destruct (decide (e = r)) as [<-|]; split; reflexivity. }
    split.
    { intros r Hr. rewrite Hobj. destruct (decide (e = r)) as [<-|]; [contradiction|].
      reflexivity. }
    split; [intros H; contradiction|].
    split; [intros r Hr; rewrite Hact in Hr; apply filter_In in Hr; apply Hr|].
    split.
    { intros r Hr Hin. rewrite Hact. apply filter_In. split; [exact Hin|].
      apply negb_true_iff, Nat.eqb_neq. exact Hr. }
    split.
    { intros _ _ Hin. rewrite Hact in Hin. apply filter_In in Hin. destruct Hin as [_ Hin].
      rewrite Nat.eqb_refl in Hin. discriminate. }
    split.
    { intros _. rewrite Hobj. destruct (decide (e = e)); [discriminate|contradiction]. }
    intros r Hr. rewrite Hact in Hr. apply filter_In in Hr. destruct Hr as [Hr Hne].
    apply negb_true_iff, Nat.eqb_neq in Hne.
    assert (Hh : se_handle (sessions (sess st2) r) = se_handle (sessions (sess st) r)).
    { rewrite Hobj. destruct (decide (e = r)) as [<-|]; reflexivity. }
    rewrite Hh.
    assert (Hss : sess st2
                  = {| sessions := sessions (sess st2); next_session := next_session (sess st2);
                       session_list :=
                         {| session_entry_slist :=
                              List.filter (fun r' => negb (r' =? e)%nat)
                                (session_entry_slist (session_list (sess st)));
                            abandoned_queue := abandoned_queue (session_list (sess st2));
                            max_per_connection :=
                              max_per_connection (session_list (sess st2)) |} |}).
    { rewrite <- Hact. destruct (sess st2) as [f n [a q m]]. reflexivity. }
    rewrite Hss.
    apply (lookup_handle_filter (sess st) (sessions (sess st2)) e r);
      [|intro E; apply Hne; symmetry; exact E|apply Hu, Hr].
    intros x. rewrite Hobj. destruct (decide (e = x)) as [<-|]; reflexivity.
  - (* SAVED_CLIENT_CLOSED *)
    cbn. repeat split; auto; try discriminate; try contradiction;
      try (intros; rewrite Hstate; discriminate).
Qed.

(** Closing a connection, entry by entry. *)
Lemma close_fold (conn : Connection) (l : list nat) (st : State) :
  session_handles_unique st ->
  (forall e, In e l -> se_state (sessions (sess st) e) = SESSION_ENTRY_SAVED_CLIENT ->
             In e (session_entry_slist (session_list (sess st)))) ->
  let st' := fold_left (until_abort (close conn)) l st in
  (forall r, se_connection (sessions (sess st') r) = se_connection (sessions (sess st) r))
  /\ (forall r, se_connection (sessions (sess st) r) <> conn ->
        sessions (sess st') r = sessions (sess st) r
        /\ (In r (session_entry_slist (session_list (sess st')))
            <-> In r (session_entry_slist (session_list (sess st)))))
  /\ (forall r, In r (session_entry_slist (session_list (sess st'))) ->
                In r (session_entry_slist (session_list (sess st))))
  /\ (fatal st = false -> fatal st' = false ->
      forall e, In e l -> se_connection (sessions (sess st) e) = conn ->
                ~ In e (session_entry_slist (session_list (sess st'))))
  /\ session_handles_unique st'.
Proof.
  revert st. induction l as [|e l IH]; intros st Hu Hj; cbn [fold_left].
  - repeat split; auto; try (intros _ _ e []).
  - change (until_abort (close conn) st e) with (if fatal st then st else close conn st e).
    destruct (fatal st) eqn:Hf.
    + assert (Hstop : forall l', fold_left (until_abort (close conn)) l' st = st).
      { induction l' as [|x l' IH']; cbn [fold_left]; [reflexivity|].
        change (until_abort (close conn) st x) with (if fatal st then st else close conn st x).
        rewrite Hf. exact IH'. }
      rewrite Hstop. repeat split; auto; try (intros H; congruence).
    + destruct (close_step conn st e Hu (Hj e (or_introl eq_refl)))
        as (S1 & S2 & S3 & S4 & S5 & S6 & S7 & S8).
      cbn zeta in *. set (st1 := close conn st e) in *.
      assert (Hj1 : forall x, In x l ->
                 se_state (sessions (sess st1) x) = SESSION_ENTRY_SAVED_CLIENT ->
                 In x (session_entry_slist (session_list (sess st1)))).
      { intros x Hx Hs. destruct (decide (x = e)) as [->|Hne].
        - destruct (decide (se_connection (sessions (sess st) e) = conn)) as [Ho|Ho].
          + exfalso. exact (S7 Ho Hs).
          + rewrite (S3 Ho) in *. apply Hj; [left; reflexivity|exact Hs].
        - apply S5; [exact Hne|]. apply Hj; [right; exact Hx|].
          rewrite <- (S2 x Hne). exact Hs. }
      destruct (IH st1 S8 Hj1) as (I1 & I2 & I3 & I4 & I5).
      set (st2 := fold_left (until_abort (close conn)) l st1) in *.
      split; [intros r; rewrite I1; apply S1|].
      split.
      { intros r Hr.
        assert (Hr1 : se_connection (sessions (sess st1) r) <> conn)
          by (rewrite (proj2 (S1 r)); exact Hr).
        destruct (I2 r Hr1) as [J1 J2]. rewrite J1, J2.
        destruct (decide (r = e)) as [->|Hne].
        - rewrite (S3 Hr). split; reflexivity.
        - rewrite (S2 r Hne). split; [reflexivity|]. split; [apply S4|apply S5, Hne]. }
      split; [intros r Hr; apply S4, I3, Hr|].
      split; [|exact I5].
      intros _ Hf2 x [<-|Hx] Hc.
      * assert (Hf1 : fatal st1 = false).
        { destruct (fatal st1) eqn:E; [|reflexivity].
          assert (Hstop : forall l', fold_left (until_abort (close conn)) l' st1 = st1).
          { induction l' as [|y l' IH']; cbn [fold_left]; [reflexivity|].
            change (until_abort (close conn) st1 y)
              with (if fatal st1 then st1 else close conn st1 y).
            rewrite E. exact IH'. }
          subst st2. rewrite Hstop in Hf2. congruence. }
        intros Hin. apply (S6 Hc Hf1). apply I3. exact Hin.
      * assert (Hf1 : fatal st1 = false).
        { destruct (fatal st1) eqn:E; [|reflexivity].
          assert (Hstop : forall l', fold_left (until_abort (close conn)) l' st1 = st1).
          { induction l' as [|y l' IH']; cbn [fold_left]; [reflexivity|].
            change (until_abort (close conn) st1 y)
              with (if fatal st1 then st1 else close conn st1 y).
            rewrite E. exact IH'. }
          subst st2. rewrite Hstop in Hf2. congruence. }
        apply (I4 Hf1 Hf2 x Hx). rewrite (proj2 (S1 x)). exact Hc.
Qed.

(** X17: closing a connection leaves the sessions of the other
    connections alone: their objects are unchanged, and they are on the
    active list after the close exactly when they were before. *)
Theorem close_spares_other_connections (st : State) (conn : Connection) (r : nat) :
  session_handles_unique st ->
  se_connection (sessions (sess st) r) <> conn ->
  let st' := resource_manager_remove_connection broker st conn in
  sessions (sess st') r = sessions (sess st) r
  /\ (In r (session_entry_slist (session_list (sess st')))
      <-> In r (session_entry_slist (session_list (sess st)))).
Proof.
  intros Hu Hr st'. subst st'.
  unfold resource_manager_remove_connection, session_list_foreach.
  destruct (close_fold conn (session_entry_slist (session_list (sess st))) st Hu
              (fun e He _ => He)) as (_ & H & _).
  apply H, Hr.
Qed.

(** X18: when a connection has been closed (the daemon not having
    aborted), no session on the active list belongs to it, and the active
    list has got no new entry. *)
Theorem close_leaves_no_session (st : State) (conn : Connection) :
  session_handles_unique st ->
  fatal st = false ->
  let st' := resource_manager_remove_connection broker st conn in
  fatal st' = false ->
  (forall r, In r (session_entry_slist (session_list (sess st'))) ->
     se_connection (sessions (sess st') r) <> conn)
  /\ (forall r, In r (session_entry_slist (session_list (sess st'))) ->
        In r (session_entry_slist (session_list (sess st))))
  /\ session_handles_unique st'.
Proof.
  intros Hu Hf st' Hf'. subst st'.
  unfold resource_manager_remove_connection, session_list_foreach in *.
  destruct (close_fold conn (session_entry_slist (session_list (sess st))) st Hu
              (fun e He _ => He)) as (H1 & _ & H3 & H4 & H5).
  cbn zeta in *. split; [|split; [exact H3|exact H5]].
  intros r Hr Hc. rewrite H1 in Hc.
  exact (H4 Hf Hf' r (H3 r Hr) Hc Hr).
Qed.

(** X19: a session of the closed connection that is in state LOADED or
    SAVED_CLIENT_CLOSED is an invariant violation: the daemon aborts, with
    no call on the AccessBroker and the SessionList as it was. *)
Theorem close_unexpected_state_aborts (st : State) (conn : Connection) (e : nat) :
  se_connection (sessions (sess st) e) = conn ->
  se_state (sessions (sess st) e) <> SESSION_ENTRY_SAVED_RM ->
  se_state (sessions (sess st) e) <> SESSION_ENTRY_SAVED_CLIENT ->
  let st' := close conn st e in
  fatal st' = true /\ calls st' = calls st /\ sess st' = sess st
  /\ forall l, fold_left (until_abort (close conn)) l st' = st'.
Proof.
  intros Hc H1 H2 st'. subst st'. unfold connection_close_session_callback, get_session.
  rewrite Hc, Nat.eqb_refl. cbn [negb].
  destruct (se_state (sessions (sess st) e)); try contradiction; cbn;
    (split; [reflexivity|]; split; [reflexivity|]; split; [reflexivity|]);
    induction l as [|x l IH]; cbn [fold_left]; try reflexivity; exact IH.
Qed.

End ClosingAConnection.
(** ** The thread *)

Section Thread.

Context {TPM : Type}.
Variable broker : AccessBroker TPM.
Variable codes : ResMgrCodes.
Variable client_context : Connection -> TPM2_HANDLE -> list Z.

Abbreviation State := (ResourceManager TPM).
Abbreviation process :=
  (resource_manager_process_tpm2_command broker codes client_context).
Abbreviation thread := (resource_manager_thread broker codes client_context).

(** X20: the thread ends at the first NULL object or CHECK_CANCEL message
    of the queue: whatever is queued behind it is not processed (state and
    sink are the same as with nothing queued behind), and the thread has
    returned unless the daemon aborted before. *)
Theorem thread_stops_at_cancel (st : State) (out : list SinkObject)
  (before behind : list (option GObject)) (stop : option GObject) :
  stops_thread stop ->
  thread st out (before ++ stop :: behind) = thread st out (before ++ [stop])
  /\ (fatal (fst (fst (thread st out (before ++ stop :: behind)))) = false ->
      snd (thread st out (before ++ stop :: behind)) = true).
Proof.
  intros Hstop. revert st out.
  induction before as [|[obj|] before IH]; intros st out; cbn [app].
  - destruct stop as [[command|msg|]|]; cbn in Hstop; try contradiction.
    + cbn [resource_manager_thread]. unfold resource_manager_process_control.
      rewrite Hstop. cbn [fst snd negb].
      destruct (fatal st) eqn:Hf; (split; [reflexivity|]); cbn [fst snd];
        [congruence|reflexivity].
    + cbn. split; reflexivity.
  - destruct obj as [command|msg|]; cbn [resource_manager_thread].
    + destruct (fatal (process st command)) eqn:Hf.
      * split; [reflexivity|]. cbn [fst]. congruence.
      * apply IH.
    + set (res := resource_manager_process_control broker st msg).
      destruct (fatal (fst (fst res))) eqn:Hf.
      * split; [reflexivity|]. cbn [fst]. congruence.
      * destruct (negb (snd res)); [split; reflexivity|apply IH].
    + apply IH.
  - cbn. split; reflexivity.
Qed.

Lemma responses_since_one (st st' : State) (response : Tpm2Response) :
  sink st' = sink st ++ [response] ->
  responses_since st st' = [SinkResponse response].
Proof.
  intros H. unfold responses_since. rewrite H, drop_app_length. reflexivity.
Qed.

Lemma remove_connection_sink (st : State) (conn : Connection) :
  sink (resource_manager_remove_connection broker st conn) = sink st.
Proof.
  unfold resource_manager_remove_connection, session_list_foreach.
  generalize (session_entry_slist (session_list (sess st))). intros l. revert st.
  induction l as [|e l IH]; intros st; cbn [fold_left]; [reflexivity|].
  rewrite IH. unfold until_abort. destruct (fatal st); [reflexivity|].
  unfold connection_close_session_callback.
  destruct (negb _); [reflexivity|].
  destruct (se_state _); try reflexivity.
  destruct (prune_abandoned_spec broker
              (with_sess st (snd (session_list_abandon_handle (sess st) conn
                                    (se_handle (get_session st e))))))
    as (_ & _ & _ & _ & _ & _ & _ & Hs & _).
  exact Hs.
Qed.

(** X21: what the sink gets is one object for each command and each
    control message with a known code that the thread has got to, in the
    order of the queue: for a command a response addressed to the
    connection of the command, for a control message the message itself.
    An object that is neither, or a control message with an unknown code,
    is passed over. *)
Theorem thread_answers_in_order (st : State) (out : list SinkObject)
  (in_queue : list (option GObject)) :
  let res := thread st out in_queue in
  fatal (fst (fst res)) = false ->
  exists answers,
    snd (fst res) = out ++ answers
    /\ Forall2 answer_of (List.filter is_answered (processed in_queue)) answers.
Proof.
  cbn zeta. revert st out.
  induction in_queue as [|[obj|] rest IH]; intros st out; cbn [resource_manager_thread].
  - intros _. exists []. rewrite app_nil_r. split; [reflexivity|constructor].
  - destruct obj as [command|msg|].
    + destruct (fatal (process st command)) eqn:Hf; [cbn [fst]; congruence|].
      destruct (process_emits_one_response broker codes client_context st command)
        as [(response & Hs & Hc)|[_ Hab]]; [|congruence].
      rewrite (responses_since_one _ _ _ Hs).
      intros Hfin. destruct (IH _ _ Hfin) as (answers & Hout & Hans).
      exists (SinkResponse response :: answers).
      split; [rewrite Hout, <- app_assoc; reflexivity|].
      cbn. constructor; [exact Hc|exact Hans].
    + unfold resource_manager_process_control.
      destruct msg as [[| |code] conn]; cbn [control_message_get_code
        control_message_get_object fst snd negb processed List.filter is_answered].
      * destruct (fatal st) eqn:Hf; [cbn [fst]; congruence|].
        intros _. cbn [fst snd]. eexists. split; [reflexivity|].
        constructor; [reflexivity|constructor].
      * set (st1 := resource_manager_remove_connection broker st conn).
        destruct (fatal st1) eqn:Hf; cbn [fst snd]; rewrite Hf; [cbn [fst]; congruence|].
        cbn [negb]. intros Hfin. destruct (IH _ _ Hfin) as (answers & Hout & Hans).
        eexists. split; [rewrite Hout, <- app_assoc; reflexivity|].
        cbn. constructor; [reflexivity|exact Hans].
      * destruct (fatal st) eqn:Hf; [cbn [fst]; congruence|].
        cbn [negb]. apply IH.
    + cbn [processed List.filter is_answered]. apply IH.
  - intros _. exists []. rewrite app_nil_r. split; [reflexivity|constructor].
Qed.

(** X22: a CONNECTION_REMOVED message closes the connection it carries and
    is then handed to the sink; the thread goes on.  No response is
    emitted, and when the thread goes on no active session belongs to the
    connection any more. *)
Theorem connection_removed_is_processed (st : State) (msg : ControlMessage) :
  control_message_get_code msg = CONNECTION_REMOVED ->
  session_handles_unique st ->
  fatal st = false ->
  let conn := control_message_get_object msg in
  let res := resource_manager_process_control broker st msg in
  let st' := fst (fst res) in
  snd res = true
  /\ st' = resource_manager_remove_connection broker st conn
  /\ sink st' = sink st
  /\ (fatal st' = false ->
      snd (fst res) = Some msg
      /\ forall r, In r (session_entry_slist (session_list (sess st'))) ->
                   se_connection (sessions (sess st') r) <> conn).
Proof.
  intros Hcode Hu Hf conn res st'. subst st' res.
  unfold resource_manager_process_control. rewrite Hcode. fold conn.
  pose proof (remove_connection_sink st conn) as Hs.
  destruct (close_fold broker conn (session_entry_slist (session_list (sess st))) st Hu
              (fun e He _ => He)) as (H1 & _ & H3 & H4 & _).
  cbn zeta in H1, H3, H4.
  change (fold_left (until_abort (connection_close_session_callback broker conn))
            (session_entry_slist (session_list (sess st))) st)
    with (resource_manager_remove_connection broker st conn) in H1, H3, H4.
  destruct (fatal (resource_manager_remove_connection broker st conn)) eqn:Hf';
    cbn [fst snd]; (split; [reflexivity|]; split; [reflexivity|]; split; [exact Hs|]).
  - intros H. congruence.
  - intros _. split; [reflexivity|].
    intros r Hr Hc. rewrite H1 in Hc. exact (H4 Hf eq_refl r (H3 r Hr) Hc Hr).
Qed.

End Thread.

Lemma one_session_state_unique : session_handles_unique one_session_state.
Proof. intros r [<-|[]]. reflexivity. Qed.

(** An instance of X15: connection 1 closes with its session saved by the
    resource manager. *)
Lemma close_flushes_saved_rm_session_witness :
  let st := one_session_state in
  let st' := connection_close_session_callback (mock_broker session_script) 1 st 0 in
  calls st' = calls st ++ [CallContextFlush 0x02000000]
  /\ ~ In 0%nat (session_entry_slist (session_list (sess st')))
  /\ (forall r, r <> 0%nat ->
        (In r (session_entry_slist (session_list (sess st')))
         <-> In r (session_entry_slist (session_list (sess st)))))
  /\ sessions (sess st') = sessions (sess st)
  /\ abandoned_queue (session_list (sess st')) = abandoned_queue (session_list (sess st))
  /\ fatal st' = fatal st.
Proof.
  exact (close_flushes_saved_rm_session (mock_broker session_script) one_session_state 1 0
           eq_refl eq_refl).
Defined.

(** An instance of X16: connection 1 closes with the context of its session
    saved by the client. *)
Lemma close_abandons_saved_client_session_witness :
  let st := saved_client_state in
  let st' := connection_close_session_callback (mock_broker session_script) 1 st 0 in
  sessions (sess st') 0
  = session_entry_set_state (sessions (sess st) 0) SESSION_ENTRY_SAVED_CLIENT_CLOSED
  /\ (forall r, r <> 0%nat -> sessions (sess st') r = sessions (sess st) r)
  /\ ~ In 0%nat (session_entry_slist (session_list (sess st')))
  /\ (forall r, r <> 0%nat ->
        (In r (session_entry_slist (session_list (sess st')))
         <-> In r (session_entry_slist (session_list (sess st)))))
  /\ (length (abandoned_queue (session_list (sess st'))) <= MAX_ABANDONED)%nat
  /\ fatal st' = fatal st
  /\ abandoned_queue (session_list (sess st')) = [0%nat] /\ calls st' = calls st.
Proof.
  apply (close_abandons_saved_client_session (mock_broker session_script)
           saved_client_state 1 0).
  - reflexivity.
  - reflexivity.
  - reflexivity.
  - vm_compute. lia.
Defined.

(** An instance of X17: connection 2 closes; the session is of connection 1. *)
Lemma close_spares_other_connections_witness :
  let st := one_session_state in
  let st' := resource_manager_remove_connection (mock_broker session_script) st 2 in
  sessions (sess st') 0 = sessions (sess st) 0
  /\ (In 0%nat (session_entry_slist (session_list (sess st')))
      <-> In 0%nat (session_entry_slist (session_list (sess st)))).
Proof.
  apply (close_spares_other_connections (mock_broker session_script) one_session_state 2 0).
  - apply one_session_state_unique.
  - vm_compute. discriminate.
Defined.

(** An instance of X18: connection 1 closes. *)
Lemma close_leaves_no_session_witness :
  let st := one_session_state in
  let st' := resource_manager_remove_connection (mock_broker session_script) st 1 in
  (forall r, In r (session_entry_slist (session_list (sess st'))) ->
     se_connection (sessions (sess st') r) <> 1%nat)
  /\ (forall r, In r (session_entry_slist (session_list (sess st'))) ->
        In r (session_entry_slist (session_list (sess st))))
  /\ session_handles_unique st'.
Proof.
  apply (close_leaves_no_session (mock_broker session_script) one_session_state 1).
  - apply one_session_state_unique.
  - reflexivity.
  - reflexivity.
Defined.

(** An instance of X19: connection 1 closes while its session is loaded. *)
Lemma close_unexpected_state_aborts_witness :
  let st := session_in_use_state in
  let st' := connection_close_session_callback (mock_broker session_script) 1 st 0 in
  fatal st' = true /\ calls st' = calls st /\ sess st' = sess st
  /\ forall l,
       fold_left (until_abort (connection_close_session_callback
                                 (mock_broker session_script) 1)) l st' = st'.
Proof.
  apply (close_unexpected_state_aborts (mock_broker session_script) session_in_use_state
           1 0).
  - reflexivity.
  - vm_compute. discriminate.
  - vm_compute. discriminate.
Defined.

(** An instance of X20: a command, CHECK_CANCEL, and a command behind it. *)
Lemma thread_stops_at_cancel_witness :
  let before := [Some (ObjTpm2Command (create_primary_command 1))] in
  let stop := Some (ObjControlMessage cancel_message) in
  let behind := [Some (ObjTpm2Command (create_primary_command 1))] in
  example_thread obliging_script (initial_state 1 1) (before ++ stop :: behind)
  = example_thread obliging_script (initial_state 1 1) (before ++ [stop])
  /\ (fatal (fst (fst (example_thread obliging_script (initial_state 1 1)
                         (before ++ stop :: behind)))) = false ->
      snd (example_thread obliging_script (initial_state 1 1) (before ++ stop :: behind))
      = true).
Proof.
  apply (thread_stops_at_cancel (mock_broker obliging_script) example_codes
           example_client_context (initial_state 1 1) []
           [Some (ObjTpm2Command (create_primary_command 1))]
           [Some (ObjTpm2Command (create_primary_command 1))]
           (Some (ObjControlMessage cancel_message))).
  reflexivity.
Defined.

(** An instance of X21: connection 1 starts a session and closes, another
    object, and CHECK_CANCEL. *)
Lemma thread_answers_in_order_witness :
  let in_queue := [Some (ObjTpm2Command (start_auth_session_command 1));
                   Some (ObjControlMessage (connection_removed_message 1));
                   Some ObjOther;
                   Some (ObjControlMessage cancel_message)] in
  exists answers,
    snd (fst (example_thread session_script (initial_state 1 1) in_queue)) = [] ++ answers
    /\ Forall2 answer_of (List.filter is_answered (processed in_queue)) answers.
Proof.
  apply (thread_answers_in_order (mock_broker session_script) example_codes
           example_client_context (initial_state 1 1) []).
  reflexivity.
Defined.

(** An instance of X22: connection 1 is removed. *)
Lemma connection_removed_is_processed_witness :
  let st := one_session_state in
  let msg := connection_removed_message 1 in
  let res := resource_manager_process_control (mock_broker session_script) st msg in
  let st' := fst (fst res) in
  snd res = true
  /\ st' = resource_manager_remove_connection (mock_broker session_script) st 1
  /\ sink st' = sink st
  /\ (fatal st' = false ->
      snd (fst res) = Some msg
      /\ forall r, In r (session_entry_slist (session_list (sess st'))) ->
                   se_connection (sessions (sess st') r) <> 1%nat).
Proof.
  apply (connection_removed_is_processed (mock_broker session_script) one_session_state
           (connection_removed_message 1)).
  - reflexivity.
  - apply one_session_state_unique.
  - reflexivity.
Defined.

(** ** Sessions that authorise a command *)

Section AuthSessions.

Context {TPM : Type}.
Variable broker : AccessBroker TPM.

Abbreviation State := (ResourceManager TPM).

(** X23: a session that authorises a command, that the connection of the
    command owns and whose context the resource manager holds (state
    SAVED_RM), is loaded before the command is sent: its saved context goes
    to the AccessBroker in a ContextLoad command, and no other session is
    touched.  When the AccessBroker hands back a response, whose response
    code the resource manager does not read, the state of the session
    becomes LOADED, and the session stays in the SessionList exactly when
    the authorisation carries the attribute continueSession (without it the
    TPM flushes the session after the command, and the resource manager
    stops tracking it as soon as it has loaded it).  When the ContextLoad
    command cannot be sent, the session is removed from the SessionList
    whatever the attribute says, and its entry is left as it was. *)
Theorem auth_session_load_cases (st : State) (command : Tpm2Command)
  (handle : TPM2_HANDLE) (attrs : Z) (r : nat) :
  is_session_type (handle_type handle) = true ->
  session_list_lookup_handle (sess st) handle = Some r ->
  se_connection (sessions (sess st) r) = cmd_connection command ->
  se_state (sessions (sess st) r) = SESSION_ENTRY_SAVED_RM ->
  let load := tpm2_command_new_context_load (se_context (sessions (sess st) r)) in
  let st' := resource_manager_load_auth_callback broker st command (handle, attrs) in
  calls st' = calls st ++ [CallSendCommand load]
  /\ (forall x, x <> r ->
        sessions (sess st') x = sessions (sess st) x
        /\ (In x (session_entry_slist (session_list (sess st')))
            <-> In x (session_entry_slist (session_list (sess st)))))
  /\ match fst (ab_send_command broker (tpm st) load) with
     | inl _ =>
         sessions (sess st') r
         = session_entry_set_state (sessions (sess st) r) SESSION_ENTRY_LOADED
         /\ (In r (session_entry_slist (session_list (sess st')))
             <-> Z.testbit attrs 0 = true)
     | inr _ =>
         sessions (sess st') r = sessions (sess st) r
         /\ ~ In r (session_entry_slist (session_list (sess st')))
     end.
Proof.
  intros Htype Hlook Hown Hstate load st'. subst st'.
  assert (Hin : In r (session_entry_slist (session_list (sess st)))).
  { unfold session_list_lookup_handle in Hlook. apply find_some in Hlook. apply Hlook. }
  assert (Hbit : (Z.land attrs TPMA_SESSION_CONTINUESESSION =? 0) = negb (Z.testbit attrs 0)).
  { unfold TPMA_SESSION_CONTINUESESSION. change 1 with (Z.ones 1).
    rewrite Z.land_ones by lia. change (2 ^ 1) with 2. rewrite <- Z.bit0_mod.
    destruct (Z.testbit attrs 0); reflexivity. }
  unfold resource_manager_load_auth_callback. cbn [fst snd]. rewrite Htype, Hbit.
  unfold resource_manager_load_session_from_handle, get_session.
  rewrite Hlook, Hown, Nat.eqb_refl, Hstate. cbn [negb].
  rewrite bool_decide_eq_true_2 by reflexivity. cbn [negb]. fold load.
  unfold access_broker_send_command.
  destruct (ab_send_command broker (tpm st) load) as [[buffer|rc] t] eqn:Hsend;
    cbn [fst snd].
  - change (negb (TSS2_RC_SUCCESS =? TSS2_RC_SUCCESS)) with false. cbv iota.
    destruct (Z.testbit attrs 0); cbn.
    + split; [reflexivity|]. split.
      { intros x Hx.
        split; [apply fn_lookup_insert_ne; intro E; apply Hx; symmetry; exact E|reflexivity]. }
      split; [apply fn_lookup_insert|tauto].
    + split; [reflexivity|]. split.
      { intros x Hx.
        split; [apply fn_lookup_insert_ne; intro E; apply Hx; symmetry; exact E|].
        rewrite filter_In, negb_true_iff, Nat.eqb_neq. tauto. }
      split; [apply fn_lookup_insert|].
      rewrite filter_In, Nat.eqb_refl. cbn. split; [intros [_ H]; discriminate|discriminate].
  - pose proof (ab_send_failure broker _ _ _ _ Hsend) as Hrc.
    assert ((rc =? TSS2_RC_SUCCESS) = false) as -> by (apply Z.eqb_neq; exact Hrc).
    cbn. split; [reflexivity|]. split.
    { intros x Hx. split; [reflexivity|].
      rewrite filter_In, negb_true_iff, Nat.eqb_neq. tauto. }
    split; [reflexivity|].
    rewrite filter_In, Nat.eqb_refl. cbn. intros [_ H]. discriminate.
Qed.

End AuthSessions.
(** ** What holds between two objects of the queue *)

Section BetweenObjects.

Context {TPM : Type}.
Variable broker : AccessBroker TPM.
Variable codes : ResMgrCodes.
Variable client_context : Connection -> TPM2_HANDLE -> list Z.

Abbreviation State := (ResourceManager TPM).
Abbreviation process :=
  (resource_manager_process_tpm2_command broker codes client_context).
Abbreviation thread := (resource_manager_thread broker codes client_context).
Abbreviation close := (connection_close_session_callback broker).

(** Closing a connection loads nothing and leaves the transients alone. *)
Lemma close_callback_frame (conn : Connection) (st : State) (e : nat) :
  let st' := close conn st e in
  transients st' = transients st
  /\ (forall r, In r (session_entry_slist (session_list (sess st'))) ->
                In r (session_entry_slist (session_list (sess st))))
  /\ (forall r, se_state (sessions (sess st) r) <> SESSION_ENTRY_LOADED ->
                se_state (sessions (sess st') r) <> SESSION_ENTRY_LOADED)
  /\ (abandoned_bounded st -> abandoned_bounded st').
Proof.
  unfold connection_close_session_callback, get_session.
  destruct (negb _); [repeat split; auto|].
  destruct (se_state (sessions (sess st) e)) eqn:Hstate.
  - cbn. repeat split; auto.
  - cbn. split; [reflexivity|]. split; [|split; auto].
    intros r Hr. apply filter_In in Hr. apply Hr.
  - set (st1 := with_sess st _).
    destruct (prune_abandoned_spec broker st1) as (P1 & _ & P3 & _ & P5 & _ & P7 & _).
    cbn zeta in *.
    assert (H1 : (forall r, In r (session_entry_slist (session_list (sess st1))) ->
                            In r (session_entry_slist (session_list (sess st))))
                 /\ (forall r, se_state (sessions (sess st) r) <> SESSION_ENTRY_LOADED ->
                               se_state (sessions (sess st1) r) <> SESSION_ENTRY_LOADED)).
    { subst st1. unfold session_list_abandon_handle.
      destruct (session_list_lookup_handle _ _) as [x|]; cbn; [|auto].
      split; [intros r Hr; apply filter_In in Hr; apply Hr|].
      intros r Hr. destruct (decide (x = r)) as [<-|Hne].
      - rewrite fn_lookup_insert. discriminate.
      - rewrite fn_lookup_insert_ne by exact Hne. exact Hr. }
    destruct H1 as [Ha Hs].
    split; [rewrite P7; reflexivity|]. split; [rewrite P3; exact Ha|].
    split; [rewrite P1; exact Hs|].
    intros _. unfold abandoned_bounded. rewrite P5, length_drop. lia.
  - cbn. repeat split; auto.
Qed.

Lemma remove_connection_frame (conn : Connection) (st : State) :
  let st' := resource_manager_remove_connection broker st conn in
  transients st' = transients st
  /\ (no_session_loaded st -> no_session_loaded st')
  /\ (abandoned_bounded st -> abandoned_bounded st').
Proof.
  unfold resource_manager_remove_connection, session_list_foreach.
  generalize (session_entry_slist (session_list (sess st))). intros l. revert st.
  induction l as [|e l IH]; intros st; cbn [fold_left]; [auto|].
  change (until_abort (close conn) st e) with (if fatal st then st else close conn st e).
  destruct (IH (if fatal st then st else close conn st e)) as (I1 & I2 & I3).
  destruct (fatal st); [repeat split; assumption|].
  destruct (close_callback_frame conn st e) as (C1 & C2 & C3 & C4).
  cbn zeta in *. split; [rewrite I1; exact C1|]. split; [|auto].
  intros Hn. apply I2. intros r Hr. apply C3, Hn, C2, Hr.
Qed.

(** X24: the thread keeps the boundary between two objects of its queue
    quiescent.  With a TPM that saves and flushes what it is asked to, and
    loads transient objects at transient handles: when the thread starts
    with no session and no transient object resident in the TPM, then,
    whatever the queue holds, none is resident when the thread has stopped
    or waits for the next object (the daemon not having aborted). *)
Theorem thread_keeps_quiescent (st : State) (out : list SinkObject)
  (in_queue : list (option GObject)) :
  loads_at_transient_handles broker -> saveflush_succeeds broker ->
  quiescent st ->
  let res := thread st out in_queue in
  fatal (fst (fst res)) = false ->
  quiescent (fst (fst res)).
Proof.
  intros Hload Hsave. cbn zeta. revert st out.
  induction in_queue as [|[obj|] rest IH]; intros st out Hq;
    cbn [resource_manager_thread]; [intros _; exact Hq| |intros _; exact Hq].
  destruct obj as [command|msg|].
  - destruct (fatal (process st command)) eqn:Hf; [cbn [fst]; congruence|].
    apply IH. destruct Hq as (_ & Hw & Ha).
    split.
    + destruct (process_outcomes broker codes client_context st command)
        as [(st1 & response & slist & ->)|H]; [|congruence].
      apply send_response_saves_sessions.
    + apply (process_keeps_flushed broker codes client_context Hload Hsave st command Hw Ha Hf).
  - unfold resource_manager_process_control.
    destruct (control_message_get_code msg); cbn [fst snd negb].
    + destruct (fatal st) eqn:Hf; cbn [fst]; [congruence|]. intros _. exact Hq.
    + destruct (remove_connection_frame (control_message_get_object msg) st)
        as (R1 & R2 & _). cbn zeta in R1, R2.
      set (st1 := resource_manager_remove_connection broker st _) in *.
      destruct (fatal st1) eqn:Hf; cbn [fst snd]; rewrite Hf; [cbn [fst]; congruence|].
      cbn [negb]. apply IH. destruct Hq as (Hn & Hw & Ha).
      split; [apply R2, Hn|]. rewrite R1. split; assumption.
    + destruct (fatal st) eqn:Hf; [cbn [fst]; congruence|]. cbn [negb]. apply IH, Hq.
  - apply IH, Hq.
Qed.

(** The abandoned FIFO through one command: nothing is added to it. *)
Lemma save_session_abandoned (st : State) (e : nat) :
  abandoned_queue (session_list (sess (resource_manager_save_session_context broker st e)))
  = abandoned_queue (session_list (sess st)).
Proof.
  unfold resource_manager_save_session_context, access_broker_send_command.
  destruct (negb (bool_decide _)); [reflexivity|].
  destruct (fst (ab_send_command broker (tpm st) _)) as [buf|rc]; cbn [fst snd].
  - change (negb (TSS2_RC_SUCCESS =? TSS2_RC_SUCCESS)) with false. reflexivity.
  - destruct (negb (rc =? TSS2_RC_SUCCESS)); reflexivity.
Qed.

Lemma send_response_abandoned (st : State) command response slist :
  abandoned_queue (session_list (sess (send_response broker st command response slist)))
  = abandoned_queue (session_list (sess st)).
Proof.
  unfold send_response, session_list_foreach.
  set (st1 := sink_enqueue st response).
  destruct (post_process_frame broker slist
              (fold_left (resource_manager_save_session_context broker)
                 (session_entry_slist (session_list (sess st1))) st1)
              (cmd_connection command) (cmd_attributes command)) as (_ & _ & Hs & _).
  cbn zeta in Hs. rewrite Hs.
  change (sess st) with (sess st1).
  generalize (session_entry_slist (session_list (sess st1))). intros l.
  generalize st1. clear. induction l as [|e l IH]; intros st; cbn [fold_left]; [reflexivity|].
  rewrite IH. apply save_session_abandoned.
Qed.

Lemma load_session_abandoned (st : State) conn handle will_flush :
  abandoned_queue (session_list (sess (fst (resource_manager_load_session_from_handle
                                              broker st conn handle will_flush))))
  = abandoned_queue (session_list (sess st)).
Proof.
  unfold resource_manager_load_session_from_handle, access_broker_send_command.
  destruct (session_list_lookup_handle (sess st) handle) as [r|]; [|reflexivity].
  destruct (negb (conn =? _)%nat); [reflexivity|].
  destruct (negb (bool_decide _)); [reflexivity|].
  destruct (fst (ab_send_command broker (tpm st) _)) as [buf|rc]; cbn [fst snd].
  - change (negb (TSS2_RC_SUCCESS =? TSS2_RC_SUCCESS)) with false. cbv iota.
    destruct will_flush; reflexivity.
  - destruct (negb (rc =? TSS2_RC_SUCCESS)); [reflexivity|].
    destruct will_flush; reflexivity.
Qed.

Lemma load_handles_loop_abandoned (hs : list TPM2_HANDLE) (i : nat)
  (st : State) command slist rc :
  abandoned_queue (session_list (sess (fst (fst (fst
    (load_handles_loop broker hs i (st, command, slist, rc)))))))
  = abandoned_queue (session_list (sess st)).
Proof.
  revert i st command slist rc.
  induction hs as [|h hs IH]; intros i st command slist rc; cbn [load_handles_loop fst snd];
    [reflexivity|].
  destruct (handle_type h =? TPM2_HT_TRANSIENT).
  - destruct (load_transient_load_step broker st command slist h i) as (_ & _ & Hs).
    cbn zeta in Hs.
    destruct (resource_manager_load_transient broker st command slist h i)
      as [[[st1 command1] slist1] rc1]. cbn [fst snd] in *.
    rewrite IH, Hs. reflexivity.
  - destruct (is_session_type (handle_type h)).
    + rewrite IH. apply load_session_abandoned.
    + apply IH.
Qed.

Lemma load_auths_abandoned (command : Tpm2Command) (auths : list (TPM2_HANDLE * Z))
  (st : State) :
  abandoned_queue (session_list (sess
    (fold_left (fun s auth => resource_manager_load_auth_callback broker s command auth)
       auths st)))
  = abandoned_queue (session_list (sess st)).
Proof.
  revert st. induction auths as [|a auths IHa]; intros s; cbn [fold_left]; [reflexivity|].
  rewrite IHa. unfold resource_manager_load_auth_callback.
  destruct (is_session_type _); [|reflexivity]. apply load_session_abandoned.
Qed.

Lemma dispatch_abandoned (st : State) (command : Tpm2Command) :
  abandoned_queue (session_list (sess (fst (dispatch_to_tpm broker client_context st
                                              command))))
  = abandoned_queue (session_list (sess st)).
Proof.
  unfold dispatch_to_tpm. rewrite load_phase.
  destruct (length (cmd_handles command) <=? TPM2_COMMAND_MAX_HANDLES)%nat;
    [|reflexivity].
  set (loaded := if (0 <? length (cmd_handles command))%nat
                 then load_handles_loop broker (cmd_handles command) 0
                        (st, command, [], TSS2_RC_SUCCESS)
                 else (st, command, [], TSS2_RC_SUCCESS)).
  assert (Hl : abandoned_queue (session_list (sess (fst (fst (fst loaded)))))
               = abandoned_queue (session_list (sess st))).
  { subst loaded. destruct (0 <? length (cmd_handles command))%nat; cbn [fst snd];
      [|reflexivity].
    apply load_handles_loop_abandoned. }
  set (st1 := fst (fst (fst loaded))) in *.
  set (command1 := snd (fst (fst loaded))) in *.
  set (st2 := if (0 <? length (cmd_auths command1))%nat
              then fold_left (fun s auth => resource_manager_load_auth_callback broker s
                                              command1 auth) (cmd_auths command1) st1
              else st1).
  assert (H2 : abandoned_queue (session_list (sess st2))
               = abandoned_queue (session_list (sess st1))).
  { subst st2. destruct (0 <? length (cmd_auths command1))%nat; [|reflexivity].
    apply load_auths_abandoned. }
  destruct (send_command_calls broker st2 command1) as (_ & _ & _ & _ & Hs3).
  cbn zeta in Hs3.
  set (st3 := fst (fst (access_broker_send_command broker st2 command1))) in *.
  set (response := match snd (fst (access_broker_send_command broker st2 command1)) with
                   | Some response => response
                   | None => _
                   end).
  assert (H4 : abandoned_queue (session_list (sess (fst
                 (resource_manager_create_context_mapping client_context st3 response
                    (snd (fst loaded))))))
               = abandoned_queue (session_list (sess st3))).
  { unfold resource_manager_create_context_mapping.
    destruct (negb (tpm2_response_has_handle response)); [reflexivity|].
    destruct (handle_type _ =? TPM2_HT_TRANSIENT).
    - unfold create_context_mapping_transient.
      destruct (fst (handle_map_next_vhandle _) =? 0); reflexivity.
    - destruct (is_session_type _); [|reflexivity]. cbn [fst].
      unfold create_context_mapping_session.
      destruct (session_list_lookup_handle _ _); reflexivity. }
  rewrite H4, Hs3, H2, Hl. reflexivity.
Qed.

Lemma special_processing_abandoned (st : State) (command : Tpm2Command) :
  (length (abandoned_queue (session_list
             (sess (fst (command_special_processing codes st command)))))
   <= length (abandoned_queue (session_list (sess st))))%nat.
Proof.
  unfold command_special_processing, resource_manager_flush_context,
    resource_manager_save_context, resource_manager_save_context_session,
    resource_manager_load_context, resource_manager_load_context_session.
  repeat match goal with
         | |- context [if negb (_ =? _)%nat then _ else _] =>
             destruct (negb (_ =? _)%nat)
         | |- context [if ?b then _ else _] => destruct b
         | |- context [match ?o with Some _ => _ | None => _ end] => destruct o
         end; cbn [fst snd]; try reflexivity;
    try (cbn; apply filter_length_le).
  all: cbn; unfold session_list_claim;
    destruct (existsb _ _); cbn; [apply filter_length_le|reflexivity].
Qed.

Lemma process_abandoned (st : State) (command : Tpm2Command) :
  abandoned_bounded st -> abandoned_bounded (process st command).
Proof.
  unfold abandoned_bounded. intros Hb.
  unfold resource_manager_process_tpm2_command.
  destruct (negb (_ =? TSS2_RC_SUCCESS)); [rewrite send_response_abandoned; exact Hb|].
  pose proof (special_processing_abandoned st command) as Hsp.
  set (special := command_special_processing codes st command) in *.
  destruct (snd special) as [response|]; [rewrite send_response_abandoned; lia|].
  pose proof (dispatch_abandoned (fst special) command) as Hd.
  set (res := dispatch_to_tpm broker client_context (fst special) command) in *.
  destruct (snd res) as [[response slist]|];
    [rewrite send_response_abandoned|]; rewrite Hd; lia.
Qed.

(** X25: the abandoned FIFO never holds more than MAX_ABANDONED sessions:
    whatever the queue holds, when the FIFO is within the bound as the
    thread starts, it is within the bound when the thread has stopped or
    waits for the next object. *)
Theorem thread_keeps_abandoned_bounded (st : State) (out : list SinkObject)
  (in_queue : list (option GObject)) :
  abandoned_bounded st ->
  abandoned_bounded (fst (fst (thread st out in_queue))).
Proof.
  revert st out.
  induction in_queue as [|[obj|] rest IH]; intros st out Hb;
    cbn [resource_manager_thread]; [exact Hb| |exact Hb].
  destruct obj as [command|msg|].
  - pose proof (process_abandoned st command Hb) as Hp.
    destruct (fatal (process st command)); [exact Hp|apply IH, Hp].
  - unfold resource_manager_process_control.
    destruct (control_message_get_code msg); cbn [fst snd negb].
    + destruct (fatal st); exact Hb.
    + destruct (remove_connection_frame (control_message_get_object msg) st)
        as (_ & _ & R3). cbn zeta in R3. specialize (R3 Hb).
      set (st1 := resource_manager_remove_connection broker st _) in *.
      destruct (fatal st1) eqn:Hf; cbn [fst snd]; rewrite Hf; [exact R3|].
      cbn [negb]. apply IH, R3.
    + destruct (fatal st); [exact Hb|]. cbn [negb]. apply IH, Hb.
  - apply IH, Hb.
Qed.

End BetweenObjects.

(** An instance of X23: connection 1 authorises a command with its session,
    without continueSession. *)
Lemma auth_session_load_cases_witness :
  let st := one_session_state in
  let load := tpm2_command_new_context_load (se_context (sessions (sess st) 0)) in
  let st' := resource_manager_load_auth_callback (mock_broker session_script) st
               (authorised_command 1 [] 0x02000000 0) (0x02000000, 0) in
  calls st' = calls st ++ [CallSendCommand load]
  /\ (forall x, x <> 0%nat ->
        sessions (sess st') x = sessions (sess st) x
        /\ (In x (session_entry_slist (session_list (sess st')))
            <-> In x (session_entry_slist (session_list (sess st)))))
  /\ match fst (ab_send_command (mock_broker session_script) (tpm st) load) with
     | inl _ =>
         sessions (sess st') 0
         = session_entry_set_state (sessions (sess st) 0) SESSION_ENTRY_LOADED
         /\ (In 0%nat (session_entry_slist (session_list (sess st')))
             <-> Z.testbit 0 0 = true)
     | inr _ =>
         sessions (sess st') 0 = sessions (sess st) 0
         /\ ~ In 0%nat (session_entry_slist (session_list (sess st')))
     end.
Proof.
  apply (auth_session_load_cases (mock_broker session_script)
           one_session_state (authorised_command 1 [] 0x02000000 0) 0x02000000 0 0).
  - reflexivity.
  - reflexivity.
  - reflexivity.
  - reflexivity.
Defined.

Lemma initial_state_quiescent (cap scap : nat) : quiescent (initial_state cap scap).
Proof. split; [intros r []|apply initial_state_flushed]. Qed.

(** An instance of X24: connection 1 creates an object, reads it and
    closes. *)
Lemma thread_keeps_quiescent_witness :
  quiescent
    (fst (fst (example_thread obliging_script (initial_state 1 1)
                 [Some (ObjTpm2Command (create_primary_command 1));
                  Some (ObjTpm2Command (read_public_command 1 0x80000001));
                  Some (ObjControlMessage (connection_removed_message 1))]))).
Proof.
  apply (thread_keeps_quiescent (mock_broker obliging_script) example_codes
           example_client_context (initial_state 1 1) []).
  - apply obliging_script_saves.
  - apply obliging_script_saves.
  - apply initial_state_quiescent.
  - reflexivity.
Defined.

(** An instance of X25: connection 1 starts a session, saves its context
    and closes. *)
Lemma thread_keeps_abandoned_bounded_witness :
  abandoned_bounded
    (fst (fst (example_thread session_script (initial_state 1 1)
                 [Some (ObjTpm2Command (start_auth_session_command 1));
                  Some (ObjTpm2Command (context_save_command 1 0x02000000));
                  Some (ObjControlMessage (connection_removed_message 1))]))).
Proof.
  apply (thread_keeps_abandoned_bounded (mock_broker session_script) example_codes
           example_client_context (initial_state 1 1) []).
  unfold abandoned_bounded. vm_compute. lia.
Defined.
